(** * RV thermostat controller: a shallow embedding of
    [Latest_worrking_heater.ino] and the properties of its control core.

    The sketch is a single cooperative loop over global variables.  The
    globals become one record [State]; every function of the sketch becomes
    a function [State -> State] taking the hardware inputs it reads
    ([millis()], [digitalRead], sensor samples, request arguments) as
    arguments.  Output effects (pin writes, blocking delays, EEPROM commits,
    display power, restart) are appended in order to the [trace] field.

    C++ [float] is IEEE-754 binary32, [double] is binary64; both are
    modelled by the executable specification [SpecFloat] of the Standard
    Library, instantiated at (24,128) and (53,1024). *)

From Stdlib Require Import ZArith Lia Bool List.
From Stdlib Require Import Strings.String Strings.Ascii Strings.Byte.
From Stdlib Require Import Floats.SpecFloat.
From stdpp Require Import base list.

Local Open Scope Z_scope.

(** ** Floating point *)

Module F32.

(** A C++ [float].  Every value the program can hold satisfies [valid]. *)
Definition t := spec_float.

Definition valid (x : t) : bool := valid_binary 24 128 x.

Definition of_Z (z : Z) : t := binary_normalize 24 128 z 0 false.
Definition zero : t := S754_zero false.
Definition nan : t := S754_nan.

Definition add : t -> t -> t := SFadd 24 128.
Definition mul : t -> t -> t := SFmul 24 128.
Definition div : t -> t -> t := SFdiv 24 128.

Definition ltb : t -> t -> bool := SFltb.
Definition leb : t -> t -> bool := SFleb.
Definition eqb : t -> t -> bool := SFeqb.

(** [isnan] of <cmath>. *)
Definition isnan (x : t) : bool :=
  match x with S754_nan => true | _ => false end.

(** The quotient [n / d] of two integer literals, used to write decimal
    test data such as 39.5 = 79/2. *)
Definition of_ratio (n d : Z) : t := div (of_Z n) (of_Z d).

End F32.

Module F64.

(** A C++ [double]. *)
Definition t := spec_float.

Definition of_Z (z : Z) : t := binary_normalize 53 1024 z 0 false.
Definition add : t -> t -> t := SFadd 53 1024.
Definition sub : t -> t -> t := SFsub 53 1024.
Definition ltb : t -> t -> bool := SFltb.
Definition leb : t -> t -> bool := SFleb.

(** Implicit conversion [float -> double]: exact, the mantissa is
    re-aligned to 53 bits. *)
Definition of_f32 (x : F32.t) : t :=
  match x with
  | S754_finite s m e =>
      let '(m', e') :=
        shl_align m e (fexp 53 1024 (Zpos (digits2_pos m) + e)) in
      S754_finite s m' e'
  | _ => x
  end.

(** Conversion [double -> float] on assignment: round to nearest even. *)
Definition to_f32 (x : t) : F32.t :=
  match x with
  | S754_finite s m e => binary_round 24 128 s m e
  | _ => x
  end.

(** [std::min] and [std::max] of <algorithm>, which the ESP32 core
    brings into scope for [min] and [max]. *)
Definition min (a b : t) : t := if ltb b a then b else a.
Definition max (a b : t) : t := if ltb a b then b else a.

End F64.

Abbreviation float := F32.t.

(** Floating-point operations are computed by [vm_compute] on closed terms
    and are never unfolded by simplification. *)
Arguments F32.of_Z : simpl never.
Arguments F32.add : simpl never.
Arguments F32.mul : simpl never.
Arguments F32.div : simpl never.
Arguments F32.ltb : simpl never.
Arguments F32.leb : simpl never.
Arguments F32.eqb : simpl never.
Arguments F32.of_ratio : simpl never.
Arguments F64.of_Z : simpl never.
Arguments F64.add : simpl never.
Arguments F64.sub : simpl never.
Arguments F64.ltb : simpl never.
Arguments F64.leb : simpl never.
Arguments F64.of_f32 : simpl never.
Arguments F64.to_f32 : simpl never.
Arguments F64.min : simpl never.
Arguments F64.max : simpl never.

(** ** Constants of the sketch *)

Definition HIGH : bool := true.
Definition LOW : bool := false.

Definition HEATER_PIN : Z := 4.
Definition EEPROM_SIZE : Z := 512.
Definition SSID_START : Z := 0.
Definition PASS_START : Z := 32.
Definition SSID_MAX_LENGTH : Z := 32.
Definition PASS_MAX_LENGTH : Z := 64.
Definition FREEZE_GUARD_ADDR : Z := 96.
Definition SENSOR_READ_INTERVAL : Z := 2000.
Definition LONG_PRESS_MS : Z := 1000.
Definition WIFI_RESET_MS : Z := 5000.
Definition SLEEP_PRESS_MS : Z := 2000.
Definition SAMPLES : Z := 10.
Definition FREEZE_GUARD_TEMP : float := F32.of_Z 38.

(** [unsigned long] is 32 bits wide on the ESP32; [a - b] wraps. *)
Definition ULONG_MOD : Z := 2 ^ 32.
Definition usub (a b : Z) : Z := (a - b) mod ULONG_MOD.

(** ** Output effects and announcements *)

Inductive Effect : Type :=
| DigitalWrite (pin : Z) (level : bool)
| Delay (ms : Z)
| EepromCommit
| DisplayDim (dim : bool)
| DisplayBlank                       (* clearDisplay(); display() *)
| UpdateDisplay
| WifiBegin (ssid pass : string)
| SoftAP (ssid pass : string)
| ServerOn (path : string)
| ServerBegin
| Restart.

(** The transient status string [stateChangeMessage].  Number formatting is
    done by the Arduino [String] class, so a target announcement keeps the
    number it was built from. *)
Inductive Announcement : Type :=
| MsgNone                            (* the empty string *)
| MsgTarget (t : float)              (* String(targetTemp,1) + "F" *)
| MsgHeat (on : bool)                (* "HEAT ON" / "HEATOFF" *)
| MsgGuard (on : bool)               (* "GRD ON" / "GRD OFF" *)
| MsgWake                            (* "WAKE" *)
| MsgSleep                           (* "SLEEP" *)
| MsgReset.                          (* "RESET" *)

(** ** The globals *)

Record State : Type := mkState {
  currentTemp : float;
  targetTemp : float;
  humidity : float;
  heaterEnabled : bool;
  setupMode : bool;
  isAP : bool;
  freezeGuardEnabled : bool;
  storedSSID : string;
  storedPassword : string;
  showingStateChange : bool;
  stateChangeMessage : Announcement;
  stateChangeTime : Z;
  tempReadings : list float;
  humReadings : list float;
  readIndex : Z;
  upButtonStart : Z;
  downButtonStart : Z;
  lastUpState : bool;
  lastDownState : bool;
  longPressHandled : bool;
  displaySleepMode : bool;
  lastActivityTime : Z;
  lastRead : Z;
  sensorInit : bool;
  eeprom : list byte;
  heaterPin : bool;
  restarted : bool;
  trace : list Effect
}.

Definition set_currentTemp (v : float) (s : State) : State :=
  let '(mkState g0 g1 g2 g3 g4 g5 g6 g7 g8 g9 g10 g11 g12 g13 g14 g15 g16
  g17 g18 g19 g20 g21 g22 g23 g24 g25 g26 g27) := s in
  mkState v g1 g2 g3 g4 g5 g6 g7 g8 g9 g10 g11 g12 g13 g14 g15 g16 g17 g18
  g19 g20 g21 g22 g23 g24 g25 g26 g27.
Definition set_targetTemp (v : float) (s : State) : State :=
  let '(mkState g0 g1 g2 g3 g4 g5 g6 g7 g8 g9 g10 g11 g12 g13 g14 g15 g16
  g17 g18 g19 g20 g21 g22 g23 g24 g25 g26 g27) := s in
  mkState g0 v g2 g3 g4 g5 g6 g7 g8 g9 g10 g11 g12 g13 g14 g15 g16 g17 g18
  g19 g20 g21 g22 g23 g24 g25 g26 g27.
Definition set_humidity (v : float) (s : State) : State :=
  let '(mkState g0 g1 g2 g3 g4 g5 g6 g7 g8 g9 g10 g11 g12 g13 g14 g15 g16
  g17 g18 g19 g20 g21 g22 g23 g24 g25 g26 g27) := s in
  mkState g0 g1 v g3 g4 g5 g6 g7 g8 g9 g10 g11 g12 g13 g14 g15 g16 g17 g18
  g19 g20 g21 g22 g23 g24 g25 g26 g27.
Definition set_heaterEnabled (v : bool) (s : State) : State :=
  let '(mkState g0 g1 g2 g3 g4 g5 g6 g7 g8 g9 g10 g11 g12 g13 g14 g15 g16
  g17 g18 g19 g20 g21 g22 g23 g24 g25 g26 g27) := s in
  mkState g0 g1 g2 v g4 g5 g6 g7 g8 g9 g10 g11 g12 g13 g14 g15 g16 g17 g18
  g19 g20 g21 g22 g23 g24 g25 g26 g27.
Definition set_setupMode (v : bool) (s : State) : State :=
  let '(mkState g0 g1 g2 g3 g4 g5 g6 g7 g8 g9 g10 g11 g12 g13 g14 g15 g16
  g17 g18 g19 g20 g21 g22 g23 g24 g25 g26 g27) := s in
  mkState g0 g1 g2 g3 v g5 g6 g7 g8 g9 g10 g11 g12 g13 g14 g15 g16 g17 g18
  g19 g20 g21 g22 g23 g24 g25 g26 g27.
Definition set_isAP (v : bool) (s : State) : State :=
  let '(mkState g0 g1 g2 g3 g4 g5 g6 g7 g8 g9 g10 g11 g12 g13 g14 g15 g16
  g17 g18 g19 g20 g21 g22 g23 g24 g25 g26 g27) := s in
  mkState g0 g1 g2 g3 g4 v g6 g7 g8 g9 g10 g11 g12 g13 g14 g15 g16 g17 g18
  g19 g20 g21 g22 g23 g24 g25 g26 g27.
Definition set_freezeGuardEnabled (v : bool) (s : State) : State :=
  let '(mkState g0 g1 g2 g3 g4 g5 g6 g7 g8 g9 g10 g11 g12 g13 g14 g15 g16
  g17 g18 g19 g20 g21 g22 g23 g24 g25 g26 g27) := s in
  mkState g0 g1 g2 g3 g4 g5 v g7 g8 g9 g10 g11 g12 g13 g14 g15 g16 g17 g18
  g19 g20 g21 g22 g23 g24 g25 g26 g27.
Definition set_storedSSID (v : string) (s : State) : State :=
  let '(mkState g0 g1 g2 g3 g4 g5 g6 g7 g8 g9 g10 g11 g12 g13 g14 g15 g16
  g17 g18 g19 g20 g21 g22 g23 g24 g25 g26 g27) := s in
  mkState g0 g1 g2 g3 g4 g5 g6 v g8 g9 g10 g11 g12 g13 g14 g15 g16 g17 g18
  g19 g20 g21 g22 g23 g24 g25 g26 g27.
Definition set_storedPassword (v : string) (s : State) : State :=
  let '(mkState g0 g1 g2 g3 g4 g5 g6 g7 g8 g9 g10 g11 g12 g13 g14 g15 g16
  g17 g18 g19 g20 g21 g22 g23 g24 g25 g26 g27) := s in
  mkState g0 g1 g2 g3 g4 g5 g6 g7 v g9 g10 g11 g12 g13 g14 g15 g16 g17 g18
  g19 g20 g21 g22 g23 g24 g25 g26 g27.
Definition set_showingStateChange (v : bool) (s : State) : State :=
  let '(mkState g0 g1 g2 g3 g4 g5 g6 g7 g8 g9 g10 g11 g12 g13 g14 g15 g16
  g17 g18 g19 g20 g21 g22 g23 g24 g25 g26 g27) := s in
  mkState g0 g1 g2 g3 g4 g5 g6 g7 g8 v g10 g11 g12 g13 g14 g15 g16 g17 g18
  g19 g20 g21 g22 g23 g24 g25 g26 g27.
Definition set_stateChangeMessage (v : Announcement) (s : State) : State :=
  let '(mkState g0 g1 g2 g3 g4 g5 g6 g7 g8 g9 g10 g11 g12 g13 g14 g15 g16
  g17 g18 g19 g20 g21 g22 g23 g24 g25 g26 g27) := s in
  mkState g0 g1 g2 g3 g4 g5 g6 g7 g8 g9 v g11 g12 g13 g14 g15 g16 g17 g18
  g19 g20 g21 g22 g23 g24 g25 g26 g27.
Definition set_stateChangeTime (v : Z) (s : State) : State :=
  let '(mkState g0 g1 g2 g3 g4 g5 g6 g7 g8 g9 g10 g11 g12 g13 g14 g15 g16
  g17 g18 g19 g20 g21 g22 g23 g24 g25 g26 g27) := s in
  mkState g0 g1 g2 g3 g4 g5 g6 g7 g8 g9 g10 v g12 g13 g14 g15 g16 g17 g18
  g19 g20 g21 g22 g23 g24 g25 g26 g27.
Definition set_tempReadings (v : list float) (s : State) : State :=
  let '(mkState g0 g1 g2 g3 g4 g5 g6 g7 g8 g9 g10 g11 g12 g13 g14 g15 g16
  g17 g18 g19 g20 g21 g22 g23 g24 g25 g26 g27) := s in
  mkState g0 g1 g2 g3 g4 g5 g6 g7 g8 g9 g10 g11 v g13 g14 g15 g16 g17 g18
  g19 g20 g21 g22 g23 g24 g25 g26 g27.
Definition set_humReadings (v : list float) (s : State) : State :=
  let '(mkState g0 g1 g2 g3 g4 g5 g6 g7 g8 g9 g10 g11 g12 g13 g14 g15 g16
  g17 g18 g19 g20 g21 g22 g23 g24 g25 g26 g27) := s in
  mkState g0 g1 g2 g3 g4 g5 g6 g7 g8 g9 g10 g11 g12 v g14 g15 g16 g17 g18
  g19 g20 g21 g22 g23 g24 g25 g26 g27.
Definition set_readIndex (v : Z) (s : State) : State :=
  let '(mkState g0 g1 g2 g3 g4 g5 g6 g7 g8 g9 g10 g11 g12 g13 g14 g15 g16
  g17 g18 g19 g20 g21 g22 g23 g24 g25 g26 g27) := s in
  mkState g0 g1 g2 g3 g4 g5 g6 g7 g8 g9 g10 g11 g12 g13 v g15 g16 g17 g18
  g19 g20 g21 g22 g23 g24 g25 g26 g27.
Definition set_upButtonStart (v : Z) (s : State) : State :=
  let '(mkState g0 g1 g2 g3 g4 g5 g6 g7 g8 g9 g10 g11 g12 g13 g14 g15 g16
  g17 g18 g19 g20 g21 g22 g23 g24 g25 g26 g27) := s in
  mkState g0 g1 g2 g3 g4 g5 g6 g7 g8 g9 g10 g11 g12 g13 g14 v g16 g17 g18
  g19 g20 g21 g22 g23 g24 g25 g26 g27.
Definition set_downButtonStart (v : Z) (s : State) : State :=
  let '(mkState g0 g1 g2 g3 g4 g5 g6 g7 g8 g9 g10 g11 g12 g13 g14 g15 g16
  g17 g18 g19 g20 g21 g22 g23 g24 g25 g26 g27) := s in
  mkState g0 g1 g2 g3 g4 g5 g6 g7 g8 g9 g10 g11 g12 g13 g14 g15 v g17 g18
  g19 g20 g21 g22 g23 g24 g25 g26 g27.
Definition set_lastUpState (v : bool) (s : State) : State :=
  let '(mkState g0 g1 g2 g3 g4 g5 g6 g7 g8 g9 g10 g11 g12 g13 g14 g15 g16
  g17 g18 g19 g20 g21 g22 g23 g24 g25 g26 g27) := s in
  mkState g0 g1 g2 g3 g4 g5 g6 g7 g8 g9 g10 g11 g12 g13 g14 g15 g16 v g18
  g19 g20 g21 g22 g23 g24 g25 g26 g27.
Definition set_lastDownState (v : bool) (s : State) : State :=
  let '(mkState g0 g1 g2 g3 g4 g5 g6 g7 g8 g9 g10 g11 g12 g13 g14 g15 g16
  g17 g18 g19 g20 g21 g22 g23 g24 g25 g26 g27) := s in
  mkState g0 g1 g2 g3 g4 g5 g6 g7 g8 g9 g10 g11 g12 g13 g14 g15 g16 g17 v
  g19 g20 g21 g22 g23 g24 g25 g26 g27.
Definition set_longPressHandled (v : bool) (s : State) : State :=
  let '(mkState g0 g1 g2 g3 g4 g5 g6 g7 g8 g9 g10 g11 g12 g13 g14 g15 g16
  g17 g18 g19 g20 g21 g22 g23 g24 g25 g26 g27) := s in
  mkState g0 g1 g2 g3 g4 g5 g6 g7 g8 g9 g10 g11 g12 g13 g14 g15 g16 g17 g18
  v g20 g21 g22 g23 g24 g25 g26 g27.
Definition set_displaySleepMode (v : bool) (s : State) : State :=
  let '(mkState g0 g1 g2 g3 g4 g5 g6 g7 g8 g9 g10 g11 g12 g13 g14 g15 g16
  g17 g18 g19 g20 g21 g22 g23 g24 g25 g26 g27) := s in
  mkState g0 g1 g2 g3 g4 g5 g6 g7 g8 g9 g10 g11 g12 g13 g14 g15 g16 g17 g18
  g19 v g21 g22 g23 g24 g25 g26 g27.
Definition set_lastActivityTime (v : Z) (s : State) : State :=
  let '(mkState g0 g1 g2 g3 g4 g5 g6 g7 g8 g9 g10 g11 g12 g13 g14 g15 g16
  g17 g18 g19 g20 g21 g22 g23 g24 g25 g26 g27) := s in
  mkState g0 g1 g2 g3 g4 g5 g6 g7 g8 g9 g10 g11 g12 g13 g14 g15 g16 g17 g18
  g19 g20 v g22 g23 g24 g25 g26 g27.
Definition set_lastRead (v : Z) (s : State) : State :=
  let '(mkState g0 g1 g2 g3 g4 g5 g6 g7 g8 g9 g10 g11 g12 g13 g14 g15 g16
  g17 g18 g19 g20 g21 g22 g23 g24 g25 g26 g27) := s in
  mkState g0 g1 g2 g3 g4 g5 g6 g7 g8 g9 g10 g11 g12 g13 g14 g15 g16 g17 g18
  g19 g20 g21 v g23 g24 g25 g26 g27.
Definition set_sensorInit (v : bool) (s : State) : State :=
  let '(mkState g0 g1 g2 g3 g4 g5 g6 g7 g8 g9 g10 g11 g12 g13 g14 g15 g16
  g17 g18 g19 g20 g21 g22 g23 g24 g25 g26 g27) := s in
  mkState g0 g1 g2 g3 g4 g5 g6 g7 g8 g9 g10 g11 g12 g13 g14 g15 g16 g17 g18
  g19 g20 g21 g22 v g24 g25 g26 g27.
Definition set_eeprom (v : list byte) (s : State) : State :=
  let '(mkState g0 g1 g2 g3 g4 g5 g6 g7 g8 g9 g10 g11 g12 g13 g14 g15 g16
  g17 g18 g19 g20 g21 g22 g23 g24 g25 g26 g27) := s in
  mkState g0 g1 g2 g3 g4 g5 g6 g7 g8 g9 g10 g11 g12 g13 g14 g15 g16 g17 g18
  g19 g20 g21 g22 g23 v g25 g26 g27.
Definition set_heaterPin (v : bool) (s : State) : State :=
  let '(mkState g0 g1 g2 g3 g4 g5 g6 g7 g8 g9 g10 g11 g12 g13 g14 g15 g16
  g17 g18 g19 g20 g21 g22 g23 g24 g25 g26 g27) := s in
  mkState g0 g1 g2 g3 g4 g5 g6 g7 g8 g9 g10 g11 g12 g13 g14 g15 g16 g17 g18
  g19 g20 g21 g22 g23 g24 v g26 g27.
Definition set_restarted (v : bool) (s : State) : State :=
  let '(mkState g0 g1 g2 g3 g4 g5 g6 g7 g8 g9 g10 g11 g12 g13 g14 g15 g16
  g17 g18 g19 g20 g21 g22 g23 g24 g25 g26 g27) := s in
  mkState g0 g1 g2 g3 g4 g5 g6 g7 g8 g9 g10 g11 g12 g13 g14 g15 g16 g17 g18
  g19 g20 g21 g22 g23 g24 g25 v g27.
Definition set_trace (v : list Effect) (s : State) : State :=
  let '(mkState g0 g1 g2 g3 g4 g5 g6 g7 g8 g9 g10 g11 g12 g13 g14 g15 g16
  g17 g18 g19 g20 g21 g22 g23 g24 g25 g26 g27) := s in
  mkState g0 g1 g2 g3 g4 g5 g6 g7 g8 g9 g10 g11 g12 g13 g14 g15 g16 g17 g18
  g19 g20 g21 g22 g23 g24 g25 g26 v.


(** Values of the globals at the start of [setup()].  The two sample
    arrays are zero-initialised C arrays; [lastRead] and [sensorInit] are
    the function-local statics of [loop()].  The EEPROM contents survive
    a restart and are therefore an argument. *)
Definition initial_state (rom : list byte) : State :=
  {| currentTemp := F32.zero;
     targetTemp := F32.of_Z 72;
     humidity := F32.zero;
     heaterEnabled := false;
     setupMode := false;
     isAP := false;
     freezeGuardEnabled := false;
     storedSSID := EmptyString;
     storedPassword := EmptyString;
     showingStateChange := false;
     stateChangeMessage := MsgNone;
     stateChangeTime := 0;
     tempReadings := replicate (Z.to_nat SAMPLES) F32.zero;
     humReadings := replicate (Z.to_nat SAMPLES) F32.zero;
     readIndex := 0;
     upButtonStart := 0;
     downButtonStart := 0;
     lastUpState := HIGH;
     lastDownState := HIGH;
     longPressHandled := false;
     displaySleepMode := false;
     lastActivityTime := 0;
     lastRead := 0;
     sensorInit := true;
     eeprom := rom;
     heaterPin := LOW;
     restarted := false;
     trace := [] |}.

(** ** Hardware primitives *)

Definition emit (e : Effect) (s : State) : State :=
  set_trace (trace s ++ [e]) s.

(** [digitalWrite(pin, level)]; the only output pin is the heater relay. *)
Definition digitalWrite (pin : Z) (level : bool) (s : State) : State :=
  emit (DigitalWrite pin level)
       (if pin =? HEATER_PIN then set_heaterPin level s else s).

Definition delay (ms : Z) (s : State) : State := emit (Delay ms) s.

(** [ESP.restart()] does not return: the run is over. *)
Definition ESP_restart (s : State) : State :=
  set_restarted true (emit Restart s).

Definition EEPROM_read (addr : Z) (s : State) : byte :=
  nth (Z.to_nat addr) (eeprom s) x00.

Definition EEPROM_write (addr : Z) (b : byte) (s : State) : State :=
  set_eeprom (<[Z.to_nat addr := b]> (eeprom s)) s.

(** The three assignments that post a state-change announcement. *)
Definition announce (m : Announcement) (now : Z) (s : State) : State :=
  set_stateChangeTime now
    (set_stateChangeMessage m (set_showingStateChange true s)).

(** [for (int i = 0; i < n; i++) body(i)] over the state. *)
Definition for_upto (n : Z) (body : Z -> State -> State) (s : State) : State :=
  fold_left (fun st i => body (Z.of_nat i) st) (seq 0 (Z.to_nat n)) s.

(** ** Persisted configuration *)

(** [str[i]], or 0 past the end, as [saveWiFiCredentials] writes it. *)
Definition char_or_zero (str : string) (i : Z) : byte :=
  match String.get (Z.to_nat i) str with
  | Some c => byte_of_ascii c
  | None => x00
  end.

Definition saveWiFiCredentials (ssid password : string) (s : State) : State :=
  let s := for_upto SSID_MAX_LENGTH
             (fun i => EEPROM_write (SSID_START + i) (char_or_zero ssid i)) s in
  let s := for_upto PASS_MAX_LENGTH
             (fun i => EEPROM_write (PASS_START + i) (char_or_zero password i)) s in
  emit EepromCommit s.

(** One pass of the read loops of [loadWiFiCredentials]: the non-zero
    bytes of the field, in order. *)
Definition load_field (start len : Z) (s : State) : string :=
  fold_left
    (fun acc i =>
       let c := EEPROM_read (start + Z.of_nat i) s in
       if Byte.eqb c x00 then acc
       else (acc ++ String (ascii_of_byte c) EmptyString)%string)
    (seq 0 (Z.to_nat len)) EmptyString.

Definition loadWiFiCredentials (s : State) : State :=
  let s := set_storedSSID (load_field SSID_START SSID_MAX_LENGTH s) s in
  set_storedPassword (load_field PASS_START PASS_MAX_LENGTH s) s.

Definition saveFreezeGuardState (enabled : bool) (s : State) : State :=
  emit EepromCommit
    (EEPROM_write FREEZE_GUARD_ADDR (if enabled then x01 else x00) s).

Definition loadFreezeGuardState (s : State) : State :=
  set_freezeGuardEnabled (Byte.eqb (EEPROM_read FREEZE_GUARD_ADDR s) x01) s.

(** ** SampleSmoother and HeaterPolicy: the sensor block of [loop()] *)

(** [c * 9/5 + 32] in single precision; the integer literals are converted
    to [float] and the expression associates to the left. *)
Definition c_to_f (c : float) : float :=
  F32.add (F32.div (F32.mul c (F32.of_Z 9)) (F32.of_Z 5)) (F32.of_Z 32).

(** [float sum = 0; for (i < SAMPLES) sum += buf[i];] *)
Definition sum_readings (buf : list float) : float :=
  fold_left (fun sum i => F32.add sum (nth i buf F32.zero))
            (seq 0 (Z.to_nat SAMPLES)) F32.zero.

(** [sum / SAMPLES]: the mean of the ten slots as the sketch computes it. *)
Definition average (buf : list float) : float :=
  F32.div (sum_readings buf) (F32.of_Z SAMPLES).

(** Body of the seeding loop for index [i]; [rawHum i] is the value the
    [i]-th call of [bme.readHumidity()] returns. *)
Definition seed_slot (initTemp : float) (rawHum : Z -> float)
    (i : Z) (s : State) : State :=
  let s := set_tempReadings (<[Z.to_nat i := initTemp]> (tempReadings s)) s in
  set_humReadings (<[Z.to_nat i := rawHum i]> (humReadings s)) s.

(** [if (sensorInit) { ... }] *)
Definition sensor_init (rawTemp : float) (rawHum : Z -> float)
    (s : State) : State :=
  if sensorInit s then
    let initTemp := c_to_f rawTemp in
    let s := for_upto SAMPLES (seed_slot initTemp rawHum) s in
    let s := delay 8000 s in
    set_sensorInit false s
  else s.

Definition smooth_temperature (newTemp : float) (s : State) : State :=
  if negb (F32.isnan newTemp) then
    let s := set_tempReadings
               (<[Z.to_nat (readIndex s) := c_to_f newTemp]> (tempReadings s)) s in
    set_currentTemp (average (tempReadings s)) s
  else s.

Definition smooth_humidity (newHumidity : float) (s : State) : State :=
  if negb (F32.isnan newHumidity) then
    let s := set_humReadings
               (<[Z.to_nat (readIndex s) := newHumidity]> (humReadings s)) s in
    set_humidity (average (humReadings s)) s
  else s.

(** SampleSmoother: both channels, then the shared index. *)
Definition sample (newTemp newHumidity : float) (s : State) : State :=
  let s := smooth_temperature newTemp s in
  let s := smooth_humidity newHumidity s in
  set_readIndex (Z.rem (readIndex s + 1) SAMPLES) s.

(** [FREEZE_GUARD_TEMP + 2.0]: the literal is a [double], so the sum and the
    comparison against it are carried out in double precision. *)
Definition freeze_release : F64.t :=
  F64.add (F64.of_f32 FREEZE_GUARD_TEMP) (F64.of_Z 2).

(** HeaterPolicy: the [// Control heater] block. *)
Definition control_heater (s : State) : State :=
  if freezeGuardEnabled s then
    if F32.ltb (currentTemp s) FREEZE_GUARD_TEMP then
      set_heaterEnabled true (digitalWrite HEATER_PIN HIGH s)
    else if F64.leb freeze_release (F64.of_f32 (currentTemp s)) then
      set_heaterEnabled false (digitalWrite HEATER_PIN LOW s)
    else s
  else
    if heaterEnabled s && F32.ltb (currentTemp s) (targetTemp s) then
      digitalWrite HEATER_PIN HIGH s
    else
      digitalWrite HEATER_PIN LOW s.

(** One evaluation tick: the body of
    [if (now - lastRead >= SENSOR_READ_INTERVAL)]. *)
Definition sensor_tick (now : Z) (newTemp newHumidity : float)
    (s : State) : State :=
  let s := sample newTemp newHumidity s in
  let s := control_heater s in
  set_lastRead now s.

(** What the sensor returns during one pass of [loop()]: the reads of the
    seeding block (one temperature, one humidity per slot) and the reads of
    the tick. *)
Record SensorReads : Type := {
  seedTemp : float;
  seedHum : Z -> float;
  tickTemp : float;
  tickHum : float
}.

(** The sensor block of [loop()], from [static bool sensorInit] to the end;
    [now] is the [millis()] value read at the top of the block. *)
Definition loop_sensors (now : Z) (r : SensorReads) (s : State) : State :=
  let s := sensor_init (seedTemp r) (seedHum r) s in
  if SENSOR_READ_INTERVAL <=? usub now (lastRead s) then
    sensor_tick now (tickTemp r) (tickHum r) s
  else s.

(** ** The web command surface

    Each handler first calls [server.authenticate]; [auth] is its result.
    A request argument that is absent is [None]; [toFloat()] of the
    argument text is the [float] it carries.  HTTP responses are not part
    of the model. *)

Definition handleTarget (auth : bool) (temp : option float) (now : Z)
    (s : State) : State :=
  if negb auth then s
  else
    match temp with
    | Some change =>
        let s := set_targetTemp (F32.add (targetTemp s) change) s in
        let s := if F32.ltb (targetTemp s) (F32.of_Z 50)
                 then set_targetTemp (F32.of_Z 50) s else s in
        let s := if F32.ltb (F32.of_Z 90) (targetTemp s)
                 then set_targetTemp (F32.of_Z 90) s else s in
        announce (MsgTarget (targetTemp s)) now s
    | None => s
    end.

Definition handleToggle (auth : bool) (now : Z) (s : State) : State :=
  if negb auth then s
  else if negb (freezeGuardEnabled s) then
    let s := set_heaterEnabled (negb (heaterEnabled s)) s in
    let s := digitalWrite HEATER_PIN (heaterEnabled s) s in
    announce (MsgHeat (heaterEnabled s)) now s
  else s.

(** [state] is [Some b] when the argument is present, with
    [b = (arg == "1")]. *)
Definition handleFreezeGuard (auth : bool) (state : option bool) (now : Z)
    (s : State) : State :=
  if negb auth then s
  else
    match state with
    | Some b =>
        let s := set_freezeGuardEnabled b s in
        let s := saveFreezeGuardState (freezeGuardEnabled s) s in
        announce (MsgGuard (freezeGuardEnabled s)) now s
    | None => s
    end.

(** The ["currentTemp"] member of the [/data] document: either the quoted
    text ["TEMP SENSOR FAULT"] or the number [String(currentTemp,1)]. *)
Inductive TempField : Type :=
| TempFault
| TempNumber (t : float).

Record Telemetry : Type := {
  tm_currentTemp : TempField;
  tm_humidity : float;
  tm_targetTemp : float;
  tm_heaterEnabled : bool;
  tm_freezeGuardEnabled : bool;
  tm_displaySleep : bool
}.

(** [handleData]: the document sent, or [None] when authentication is
    requested instead.  The brightness member is left out. *)
Definition handleData (auth : bool) (s : State) : option Telemetry :=
  if negb auth then None
  else Some {|
    tm_currentTemp := if F32.isnan (currentTemp s) then TempFault
                      else TempNumber (currentTemp s);
    tm_humidity := humidity s;
    tm_targetTemp := targetTemp s;
    tm_heaterEnabled := heaterEnabled s;
    tm_freezeGuardEnabled := freezeGuardEnabled s;
    tm_displaySleep := displaySleepMode s |}.

(** ** ButtonInputTracker: [handleButtons()]

    [currentUpState] and [currentDownState] are the two [digitalRead]
    results (idle [HIGH], pressed [LOW]); [now] is [millis()]. *)

(** [if (currentUpState != lastUpState) { ... }] *)
Definition up_edge (currentUpState : bool) (now : Z) (s : State) : State :=
  if negb (Bool.eqb currentUpState (lastUpState s)) then
    let s :=
      if Bool.eqb currentUpState LOW then
        set_longPressHandled false (set_upButtonStart now s)
      else if usub now (upButtonStart s) <? LONG_PRESS_MS then
        if negb (freezeGuardEnabled s) then
          let s := set_targetTemp
                     (F64.to_f32
                        (F64.min (F64.of_Z 90)
                           (F64.add (F64.of_f32 (targetTemp s)) (F64.of_Z 1)))) s in
          announce (MsgTarget (targetTemp s)) now s
        else s
      else s in
    set_lastUpState currentUpState s
  else s.

(** [// UP long press check - Heat On/Off] *)
Definition up_long_press (currentUpState : bool) (now : Z) (s : State) : State :=
  if Bool.eqb currentUpState LOW && negb (longPressHandled s)
     && (LONG_PRESS_MS <=? usub now (upButtonStart s)) then
    let s :=
      if negb (freezeGuardEnabled s) then
        let s := set_heaterEnabled (negb (heaterEnabled s)) s in
        let s := digitalWrite HEATER_PIN (heaterEnabled s) s in
        announce (MsgHeat (heaterEnabled s)) now s
      else s in
    set_longPressHandled true s
  else s.

(** [if (currentDownState != lastDownState) { ... }] *)
Definition down_edge (currentDownState : bool) (now : Z) (s : State) : State :=
  if negb (Bool.eqb currentDownState (lastDownState s)) then
    let s :=
      if Bool.eqb currentDownState LOW then
        set_longPressHandled false (set_downButtonStart now s)
      else if usub now (downButtonStart s) <? LONG_PRESS_MS then
        if negb (freezeGuardEnabled s) then
          let s := set_targetTemp
                     (F64.to_f32
                        (F64.max (F64.of_Z 50)
                           (F64.sub (F64.of_f32 (targetTemp s)) (F64.of_Z 1)))) s in
          announce (MsgTarget (targetTemp s)) now s
        else s
      else s in
    set_lastDownState currentDownState s
  else s.

(** [// DOWN long press check - Freeze Guard] *)
Definition down_long_press (currentDownState : bool) (now : Z) (s : State)
    : State :=
  if Bool.eqb currentDownState LOW && negb (longPressHandled s)
     && (LONG_PRESS_MS <=? usub now (downButtonStart s)) then
    let s := set_freezeGuardEnabled (negb (freezeGuardEnabled s)) s in
    let s := saveFreezeGuardState (freezeGuardEnabled s) s in
    let s := announce (MsgGuard (freezeGuardEnabled s)) now s in
    set_longPressHandled true s
  else s.

(** The guard of the [// Sleep Mode Check]. *)
Definition sleep_hold (up down : bool) (now : Z) (s : State) : bool :=
  Bool.eqb up LOW && Bool.eqb down LOW
  && (SLEEP_PRESS_MS <=? usub now (upButtonStart s))
  && (SLEEP_PRESS_MS <=? usub now (downButtonStart s))
  && (usub now (upButtonStart s) <? WIFI_RESET_MS).

(** The guard of the [// WiFi Reset] check. *)
Definition reset_hold (up down : bool) (now : Z) (s : State) : bool :=
  Bool.eqb up LOW && Bool.eqb down LOW
  && (WIFI_RESET_MS <=? usub now (upButtonStart s))
  && (WIFI_RESET_MS <=? usub now (downButtonStart s)).

Definition enter_sleep (now : Z) (s : State) : State :=
  let s := set_displaySleepMode true s in
  let s := announce MsgSleep now s in
  let s := emit (DisplayDim true) s in
  let s := emit DisplayBlank s in
  delay 250 s.

Definition wifi_reset (now : Z) (s : State) : State :=
  let s := announce MsgReset now s in
  let s := delay 1000 s in
  let s := saveWiFiCredentials EmptyString EmptyString s in
  ESP_restart s.

(** The two dual-button checks; the sleep branch returns early. *)
Definition dual_hold (up down : bool) (now : Z) (s : State) : State :=
  if sleep_hold up down now s then enter_sleep now s
  else if reset_hold up down now s then wifi_reset now s
  else s.

Definition wake (now : Z) (s : State) : State :=
  let s := set_displaySleepMode false s in
  let s := emit (DisplayDim false) s in
  let s := announce MsgWake now s in
  delay 250 s.

Definition handleButtons (currentUpState currentDownState : bool) (now : Z)
    (s : State) : State :=
  let pressed := Bool.eqb currentUpState LOW || Bool.eqb currentDownState LOW in
  let s := if pressed then set_lastActivityTime now s else s in
  if displaySleepMode s && pressed then wake now s
  else if negb (displaySleepMode s) then
    let s := up_edge currentUpState now s in
    let s := up_long_press currentUpState now s in
    let s := down_edge currentDownState now s in
    let s := down_long_press currentDownState now s in
    dual_hold currentUpState currentDownState now s
  else s.

(** One poll of the buttons: the pin levels and the clock. *)
Record Poll : Type := { p_now : Z; p_up : bool; p_down : bool }.

(** [loop()] calls [handleButtons] once per pass; after [ESP.restart()]
    nothing more runs. *)
Definition button_step (s : State) (p : Poll) : State :=
  if restarted s then s else handleButtons (p_up p) (p_down p) (p_now p) s.

Definition run_buttons (ps : list Poll) (s : State) : State :=
  fold_left button_step ps s.

(** ** DeviceModeManager: [setup()] *)

(** What the hardware answers during [setup()]: whether the BME280 is found
    at either address, whether the display starts, what the [k]-th call of
    [WiFi.status()] reports ([true] for [WL_CONNECTED]) and whether the
    access point starts. *)
Record BootEnv : Type := {
  bme_at_76 : bool;
  bme_at_77 : bool;
  display_begin : bool;
  wifi_connected : nat -> bool;
  softAP_ok : bool
}.

Definition enterSetupMode (env : BootEnv) (s : State) : State :=
  let s := set_setupMode true s in
  let s := set_isAP true s in
  let s := emit (SoftAP "RV-Setup" "12345678") s in
  if softAP_ok env then
    let s := emit (ServerOn "/") s in
    emit ServerBegin s
  else s.

Definition setupNormalMode (s : State) : State :=
  let s := set_setupMode false s in
  let s := set_isAP false s in
  let s := emit (ServerOn "/") s in
  let s := emit (ServerOn "/target") s in
  let s := emit (ServerOn "/toggle") s in
  let s := emit (ServerOn "/reset") s in
  let s := emit (ServerOn "/brightness") s in
  let s := emit (ServerOn "/data") s in
  let s := emit (ServerOn "/freezeguard") s in
  emit ServerBegin s.

(** [while (WiFi.status() != WL_CONNECTED && attempts < 30)]: the status is
    polled first, then the counter is tested.  [left] is [30 - attempts];
    the result carries the final value of [attempts]. *)
Fixpoint wifi_wait (env : BootEnv) (left attempts : nat) (s : State)
    : nat * State :=
  if wifi_connected env attempts then (attempts, s)
  else
    match left with
    | O => (attempts, s)
    | S left' =>
        wifi_wait env left' (S attempts) (emit UpdateDisplay (delay 500 s))
    end.

(** [setup()].  [None] is the endless [while(1);] entered when no sensor is
    found.  A display that fails to start makes [setup()] return at once. *)
Definition setup (env : BootEnv) (rom : list byte) : option State :=
  let s := initial_state rom in
  if negb (bme_at_76 env) && negb (bme_at_77 env) then None
  else if negb (display_begin env) then Some s
  else
    let s := digitalWrite HEATER_PIN LOW s in
    let s := loadFreezeGuardState s in
    let s := loadWiFiCredentials s in
    if (Z.of_nat (String.length (storedSSID s)) <? 2) then
      Some (enterSetupMode env s)
    else
      let s := emit UpdateDisplay s in
      let s := emit (WifiBegin (storedSSID s) (storedPassword s)) s in
      let '(attempts, s) := wifi_wait env 30 0 s in
      if wifi_connected env (S attempts) then Some (setupNormalMode s)
      else Some (enterSetupMode env s).

(** *** Observing the trace *)

Definition is_softAP (e : Effect) : bool :=
  match e with SoftAP _ _ => true | _ => false end.

Definition is_wifiBegin (e : Effect) : bool :=
  match e with WifiBegin _ _ => true | _ => false end.

Definition is_serverOn (path : string) (e : Effect) : bool :=
  match e with ServerOn p => String.eqb p path | _ => false end.

Definition is_delay (e : Effect) : bool :=
  match e with Delay _ => true | _ => false end.

Definition is_delay_of (ms : Z) (e : Effect) : bool :=
  match e with Delay d => d =? ms | _ => false end.

Definition is_heater_write (e : Effect) : bool :=
  match e with DigitalWrite pin _ => pin =? HEATER_PIN | _ => false end.

Definition is_commit (e : Effect) : bool :=
  match e with EepromCommit => true | _ => false end.

Definition is_restart (e : Effect) : bool :=
  match e with Restart => true | _ => false end.

(** Entering the sleep sub-state dims the display: [display.dim(true)]. *)
Definition is_sleep_entry (e : Effect) : bool :=
  match e with DisplayDim true => true | _ => false end.

Definition count (p : Effect -> bool) (tr : list Effect) : nat :=
  List.length (List.filter p tr).

(** The mode entered by [setup()]: Provisioning when [enterSetupMode] ran
    (the access point was requested), Normal when [setupNormalMode] ran
    (the command routes were installed), none otherwise. *)
Inductive DeviceMode : Type := Provisioning | Normal.

Definition boot_mode (s : State) : option DeviceMode :=
  if setupMode s && existsb is_softAP (trace s) then Some Provisioning
  else if negb (setupMode s) && existsb (is_serverOn "/target") (trace s)
  then Some Normal
  else None.

(** ** Scenario drivers *)

(** One heater evaluation at a given smoothed temperature. *)
Definition evaluate (smoothed : float) (s : State) : State :=
  control_heater (set_currentTemp smoothed s).

(** The state after each evaluation of a sequence of smoothed
    temperatures, in order. *)
Fixpoint evaluations (temps : list float) (s : State) : list State :=
  match temps with
  | [] => []
  | t :: rest => let s' := evaluate t s in s' :: evaluations rest s'
  end.

(** Successive passes of the sensor block, each with its clock value and
    sensor answers. *)
Definition run_sensors (passes : list (Z * SensorReads)) (s : State) : State :=
  fold_left (fun st p => loop_sensors (fst p) (snd p) st) passes s.

(** The closed interval the spec gives for [targetTemp]. *)
Definition target_in_range (t : float) : bool :=
  F32.leb (F32.of_Z 50) t && F32.leb t (F32.of_Z 90).

(** A sensor that answers NaN to every read. *)
Definition faulty_sensor : SensorReads :=
  {| seedTemp := F32.nan; seedHum := fun _ => F32.nan;
     tickTemp := F32.nan; tickHum := F32.nan |}.

(** An EEPROM holding the given identity: the blank 512-byte region after
    [saveWiFiCredentials]. *)
Definition rom_with (ssid password : string) : list byte :=
  eeprom (saveWiFiCredentials ssid password
            (initial_state (replicate (Z.to_nat EEPROM_SIZE) x00))).

(** Polls with both buttons held, one button held, or none. *)
Definition both_held (t : Z) : Poll :=
  {| p_now := t; p_up := LOW; p_down := LOW |}.
Definition up_held (t : Z) : Poll :=
  {| p_now := t; p_up := LOW; p_down := HIGH |}.
Definition down_held (t : Z) : Poll :=
  {| p_now := t; p_up := HIGH; p_down := LOW |}.
Definition none_held (t : Z) : Poll :=
  {| p_now := t; p_up := HIGH; p_down := HIGH |}.

(** A boot environment in which everything works and the network answers
    from the fourth status poll on. *)
Definition home_env : BootEnv :=
  {| bme_at_76 := true; bme_at_77 := false; display_begin := true;
     wifi_connected := fun k => (3 <=? k)%nat; softAP_ok := true |}.

(** *** Invariants of a single-button hold

    [s0] is the state before the press was registered at [t0], [s] the
    state after some polls of the hold, [fired] whether one of them has
    seen the hold reach [LONG_PRESS_MS]. *)




(** Milliseconds spent in the blocking [delay] calls recorded in a trace. *)
Definition delayed (tr : list Effect) : Z :=
  fold_right (fun e acc => match e with Delay ms => ms + acc | _ => acc end)
             0 tr.

(** [n] passes of [loop()] with the buttons held as [hold] says.  The pass
    that starts at [now] polls the buttons; the next one starts [period]
    milliseconds later plus whatever the poll spent in [delay].  The result
    lists the state after each pass. *)
Fixpoint hold_for (n : nat) (hold : Z -> Poll) (period now : Z) (s : State)
    : list State :=
  match n with
  | O => []
  | S n' =>
      let s' := button_step s (hold now) in
      s' :: hold_for n' hold period
              (now + period + (delayed (trace s') - delayed (trace s))) s'
  end.

(** ** The rest of the sketch: restart commands, display upkeep, [loop()]

    The functions below complete the model with the two web commands that
    end in a restart, the brightness command, the display upkeep and the
    body of [loop()] that calls everything else. *)

Definition WIFI_DISPLAY_DURATION : Z := 4000.
Definition STATE_DISPLAY_DURATION : Z := 4000.
Definition DISPLAY_UPDATE_INTERVAL : Z := 100.
Definition DISPLAY_TIMEOUT : Z := 300000.

(** [bool autoSleepEnabled = true;] is never assigned. *)
Definition autoSleepEnabled : bool := true.

(** [handleReset]: the page is sent, then the identity is erased. *)
Definition handleReset (auth : bool) (s : State) : State :=
  if negb auth then s
  else
    let s := delay 2000 s in
    let s := saveWiFiCredentials EmptyString EmptyString s in
    ESP_restart s.

(** [handleWiFiSetup], the only route of Provisioning mode.  [ssid] and
    [password] are the request arguments of those names, [None] when
    [server.hasArg] is false. *)
Definition handleWiFiSetup (auth : bool) (ssid password : option string)
    (s : State) : State :=
  if negb auth then s
  else
    match ssid, password with
    | Some newSSID, Some newPASS =>
        let s := saveWiFiCredentials newSSID newPASS s in
        let s := delay 2000 s in
        ESP_restart s
    | _, _ => s
    end.

(** *** Display upkeep

    The globals that decide whether the display is redrawn.  The globals
    that only select what is drawn ([showingSSID], [showingHumidity], the
    scroll positions and their timers, [wifiMessage]) belong to the picture,
    which the model records as the single effect [UpdateDisplay];
    [displayBrightness] is written by [handleBrightness] and read only for
    the brightness member of the [/data] document. *)
Record Panel : Type := mkPanel {
  displayInitialized : bool;
  showingWifiConnected : bool;
  wifiConnectedDisplayTime : Z;
  lastDisplayUpdate : Z            (* function-local static of [loop()] *)
}.

Definition initial_panel : Panel :=
  {| displayInitialized := false;
     showingWifiConnected := false;
     wifiConnectedDisplayTime := 0;
     lastDisplayUpdate := 0 |}.

(** What one call of [updateDisplay()] reads from the hardware: the result
    of [display.begin], asked for only while the display is not yet
    initialised, and the [millis()] of the announcement test. *)
Record Draw : Type := { begin_ok : bool; banner_clock : Z }.

Definition initializeDisplay (d : Draw) (p : Panel) : bool * Panel :=
  if negb (displayInitialized p) then
    if negb (begin_ok d) then (false, p)
    else (true, {| displayInitialized := true;
                   showingWifiConnected := showingWifiConnected p;
                   wifiConnectedDisplayTime := wifiConnectedDisplayTime p;
                   lastDisplayUpdate := lastDisplayUpdate p |})
  else (true, p).

(** [updateDisplay()]: nothing while the display cannot start or sleeps;
    otherwise one redraw.  Outside access-point mode the redraw shows the
    announcement while it is younger than [STATE_DISPLAY_DURATION] and
    retires it after that. *)
Definition updateDisplay (d : Draw) (sp : State * Panel) : State * Panel :=
  let '(s, p) := sp in
  let '(ok, p) := initializeDisplay d p in
  if negb ok then (s, p)
  else if displaySleepMode s then (s, p)
  else
    let s :=
      if isAP s then s
      else if showingStateChange s
              && (usub (banner_clock d) (stateChangeTime s)
                  <? STATE_DISPLAY_DURATION)
      then s
      else set_showingStateChange false s in
    (emit UpdateDisplay s, p).

(** [handleBrightness]: [value] is [toFloat()] of the argument, [None]
    when it is absent; [now] is the [millis()] stored in
    [lastActivityTime]. *)
Definition handleBrightness (auth : bool) (value : option float) (now : Z)
    (d : Draw) (sp : State * Panel) : State * Panel :=
  let '(s, p) := sp in
  if negb auth then (s, p)
  else
    match value with
    | Some val =>
        if F32.eqb val (F32.of_Z 0) then
          let s := set_displaySleepMode true s in
          (emit DisplayBlank s, p)
        else
          let s := set_displaySleepMode false s in
          let s := set_lastActivityTime now s in
          let s := emit (DisplayDim false) s in
          updateDisplay d (s, p)
    | None => (s, p)
    end.

(** *** Requests

    A request names one of the registered paths and carries the arguments
    its handler looks at. *)
Inductive Request : Type :=
| ReqRoot (ssid password : option string)      (* "/" *)
| ReqTarget (temp : option float)              (* "/target" *)
| ReqToggle                                    (* "/toggle" *)
| ReqReset                                     (* "/reset" *)
| ReqBrightness (value : option float)         (* "/brightness" *)
| ReqData                                      (* "/data" *)
| ReqFreezeGuard (state : option bool).        (* "/freezeguard" *)

(** One request served by [server.handleClient()], with what its handler
    reads: the result of [server.authenticate], [millis()], and the reads
    of [updateDisplay()] for the one handler that redraws. *)
Record Call : Type := {
  c_request : Request;
  c_auth : bool;
  c_now : Z;
  c_draw : Draw
}.

(** [server.handleClient()] for one request.  The routes are the ones
    registered with [server.on]: by [enterSetupMode] the path "/" alone,
    handled by [handleWiFiSetup]; by [setupNormalMode] the seven paths of
    the command surface.  A path without a route is answered by the library
    and runs no handler.  [handleRoot] and [handleData] only build a
    response. *)
Definition handleClient (c : Call) (sp : State * Panel) : State * Panel :=
  let '(s, p) := sp in
  if setupMode s then
    match c_request c with
    | ReqRoot ssid password => (handleWiFiSetup (c_auth c) ssid password s, p)
    | _ => (s, p)
    end
  else
    match c_request c with
    | ReqRoot _ _ => (s, p)
    | ReqTarget temp => (handleTarget (c_auth c) temp (c_now c) s, p)
    | ReqToggle => (handleToggle (c_auth c) (c_now c) s, p)
    | ReqReset => (handleReset (c_auth c) s, p)
    | ReqBrightness value =>
        handleBrightness (c_auth c) value (c_now c) (c_draw c) (s, p)
    | ReqData => (s, p)
    | ReqFreezeGuard state =>
        (handleFreezeGuard (c_auth c) state (c_now c) s, p)
    end.

(** *** [loop()] *)

(** Everything one pass of [loop()] reads: the button pins and clock of
    [handleButtons], the BOOT pin before and after its 50 ms debounce, the
    request served by [server.handleClient()] if one is waiting, the
    [millis()] stored in [now], the reads of the two [updateDisplay()]
    calls, and the sensor. *)
Record Pass : Type := {
  l_pins : Poll;
  l_boot : bool;
  l_boot_again : bool;
  l_client : option Call;
  l_now : Z;
  l_welcome_draw : Draw;
  l_refresh_draw : Draw;
  l_reads : SensorReads
}.

(** [if (!setupMode && digitalRead(SETUP_BUTTON_PIN) == LOW) { ... }] *)
Definition boot_button (first again : bool) (s : State) : State :=
  if negb (setupMode s) && Bool.eqb first LOW then
    let s := delay 50 s in
    if Bool.eqb again LOW then
      ESP_restart (saveWiFiCredentials EmptyString EmptyString s)
    else s
  else s.

(** [if (showingWifiConnected && ...) { ... }] *)
Definition welcome_timeout (now : Z) (d : Draw) (sp : State * Panel)
    : State * Panel :=
  let '(s, p) := sp in
  if showingWifiConnected p
     && (WIFI_DISPLAY_DURATION <=? usub now (wifiConnectedDisplayTime p)) then
    updateDisplay d
      (s, {| displayInitialized := displayInitialized p;
             showingWifiConnected := false;
             wifiConnectedDisplayTime := wifiConnectedDisplayTime p;
             lastDisplayUpdate := lastDisplayUpdate p |})
  else (s, p).

(** [if (!showingWifiConnected && ...) { updateDisplay(); ... }] *)
Definition refresh (now : Z) (d : Draw) (sp : State * Panel)
    : State * Panel :=
  let '(s, p) := sp in
  if negb (showingWifiConnected p)
     && (DISPLAY_UPDATE_INTERVAL <=? usub now (lastDisplayUpdate p)) then
    let '(s, p) := updateDisplay d (s, p) in
    (s, {| displayInitialized := displayInitialized p;
           showingWifiConnected := showingWifiConnected p;
           wifiConnectedDisplayTime := wifiConnectedDisplayTime p;
           lastDisplayUpdate := now |})
  else (s, p).

(** [if (autoSleepEnabled && !displaySleepMode && ...) { ... }] *)
Definition auto_sleep (now : Z) (s : State) : State :=
  if autoSleepEnabled && negb (displaySleepMode s)
     && (DISPLAY_TIMEOUT <? usub now (lastActivityTime s)) then
    emit DisplayBlank (set_displaySleepMode true s)
  else s.

(** The [if (!setupMode) { ... }] block that ends [loop()]. *)
Definition normal_upkeep (io : Pass) (sp : State * Panel) : State * Panel :=
  let sp := welcome_timeout (l_now io) (l_welcome_draw io) sp in
  let '(s, p) := refresh (l_now io) (l_refresh_draw io) sp in
  let s := auto_sleep (l_now io) s in
  (loop_sensors (l_now io) (l_reads io) s, p).

(** One pass of [loop()].  [ESP.restart()] does not return, so the pass
    ends where [restarted] is set. *)
Definition loop (io : Pass) (sp : State * Panel) : State * Panel :=
  let '(s, p) := sp in
  let s := handleButtons (p_up (l_pins io)) (p_down (l_pins io))
             (p_now (l_pins io)) s in
  if restarted s then (s, p)
  else
    let s := boot_button (l_boot io) (l_boot_again io) s in
    if restarted s then (s, p)
    else
      let '(s, p) :=
        match l_client io with
        | Some c => handleClient c (s, p)
        | None => (s, p)
        end in
      if restarted s then (s, p)
      else if negb (setupMode s) then normal_upkeep io (s, p)
      else (s, p).

(** The passes of [loop()] that follow [setup()], until a restart. *)
Definition loop_step (sp : State * Panel) (io : Pass) : State * Panel :=
  if restarted (fst sp) then sp else loop io sp.

Definition run_loop (passes : list Pass) (sp : State * Panel)
    : State * Panel :=
  fold_left loop_step passes sp.

(** ** Predicates used in the statements *)

(** A string without the character NUL, as every C string is. *)
Fixpoint nul_free (str : string) : bool :=
  match str with
  | EmptyString => true
  | String c rest => negb (Ascii.eqb c Ascii.zero) && nul_free rest
  end.

(** [f] keeps the property [P] of the globals. *)
Definition preserves (P : State -> Prop) (f : State -> State) : Prop :=
  forall s, P s -> P (f s).

(** The groups of globals the statements speak about: the mode flags, the
    variables of the sensor block, the heater, the FreezeGuard flag with
    its EEPROM cell and the size of the EEPROM image. *)
Definition mode_of (s : State) : bool * bool := (setupMode s, isAP s).

Definition sensing_of (s : State)
    : list float * list float * Z * float * float * Z * bool :=
  (tempReadings s, humReadings s, readIndex s, currentTemp s, humidity s,
   lastRead s, sensorInit s).

Definition heater_of (s : State) : bool * bool :=
  (heaterPin s, heaterEnabled s).

Definition guard_of (s : State) : bool * byte * nat :=
  (freezeGuardEnabled s, EEPROM_read FREEZE_GUARD_ADDR s,
   List.length (eeprom s)).

(** The sample arrays have their ten slots and the write index lies
    inside them. *)
Definition arrays_in_bounds (s : State) : Prop :=
  List.length (tempReadings s) = 10%nat
  /\ List.length (humReadings s) = 10%nat
  /\ 0 <= readIndex s < SAMPLES.

(** The relay is energised only while the heater flag is set. *)
Definition relay_follows_flag (s : State) : Prop :=
  heaterPin s = HIGH -> heaterEnabled s = true.

(** The FreezeGuard flag in memory is the one the EEPROM holds. *)
Definition guard_in_sync (s : State) : Prop :=
  freezeGuardEnabled s = Byte.eqb (EEPROM_read FREEZE_GUARD_ADDR s) x01
  /\ (96 < List.length (eeprom s))%nat.

(** A target on a whole degree between the two limits. *)
Definition whole_degree (t : float) : Prop :=
  exists k : Z, 50 <= k <= 90 /\ t = F32.of_Z k.

(** A pass whose request, if it is an authenticated target adjustment,
    steps by one degree up or down, as the two buttons of the page do. *)
Definition steps_by_one (io : Pass) : Prop :=
  match l_client io with
  | Some c =>
      match c_request c with
      | ReqTarget (Some change) =>
          c_auth c = false \/ change = F32.of_Z 1 \/ change = F32.of_Z (-1)
      | _ => True
      end
  | None => True
  end.

(** ** Scenario drivers for [loop()] *)

(** A redraw on a display that starts, at clock [t]. *)
Definition drawn (t : Z) : Draw := {| begin_ok := true; banner_clock := t |}.

(** A sensor that answers the same temperature, in degrees Celsius, and
    the same humidity to every read. *)
Definition steady_sensor (c h : float) : SensorReads :=
  {| seedTemp := c; seedHum := fun _ => h; tickTemp := c; tickHum := h |}.

(** A pass of [loop()] at clock [t] with the given button levels, request
    and sensor; the BOOT button is idle. *)
Definition pass_at (t : Z) (up down : bool) (c : option Call)
    (r : SensorReads) : Pass :=
  {| l_pins := {| p_now := t; p_up := up; p_down := down |};
     l_boot := HIGH; l_boot_again := HIGH;
     l_client := c; l_now := t;
     l_welcome_draw := drawn t; l_refresh_draw := drawn t;
     l_reads := r |}.

(** An authenticated request served at clock [t]. *)
Definition web (r : Request) (t : Z) : Call :=
  {| c_request := r; c_auth := true; c_now := t; c_draw := drawn t |}.

(** Room air at 20 degrees Celsius and 40 percent humidity. *)
Definition room_air : SensorReads := steady_sensor (F32.of_Z 20) (F32.of_Z 40).

(** Successive evaluation ticks, each with its clock value and the two
    raw readings. *)
Definition run_ticks (ticks : list (Z * float * float)) (s : State) : State :=
  fold_left (fun st tk => sensor_tick (fst (fst tk)) (snd (fst tk)) (snd tk) st)
            ticks s.

(** Ticks whose temperature reading is a number. *)
Definition valid_ticks (ticks : list (Z * float * float)) : Prop :=
  Forall (fun tk => F32.isnan (snd (fst tk)) = false) ticks.

(** ** The signal indicator of [updateDisplay()]

    [int bars] from [WiFi.RSSI()], and the five characters printed for it. *)
Definition signal_bars (rssi : Z) : Z :=
  if -60 <? rssi then 5
  else if -67 <? rssi then 4
  else if -75 <? rssi then 3
  else if -85 <? rssi then 2
  else 1.

Definition bars_text (bars : Z) : string :=
  if bars =? 5 then "|||||"
  else if bars =? 4 then "||||."
  else if bars =? 3 then "|||.."
  else if bars =? 2 then "||..."
  else "|....".

(** The number of bar characters in a text. *)
Fixpoint count_bars (text : string) : Z :=
  match text with
  | EmptyString => 0
  | String c rest => (if Ascii.eqb c "|" then 1 else 0) + count_bars rest
  end.

(** * Properties *)

(** ** The floating-point model on known values *)

(** Promotion to double is exact and agrees with normalising the same
    number at double precision; demotion undoes it; the Celsius to
    Fahrenheit conversion gives 32, 212 and 69.8 (as 9148826 * 2^-17) for 0,
    100 and 21 degrees; results of the operations are valid binary32. *)
Lemma float_model_checks :
  F64.of_f32 (F32.of_Z 38) = F64.of_Z 38
  /\ F64.of_f32 (F32.of_ratio 79 2) = SFdiv 53 1024 (F64.of_Z 79) (F64.of_Z 2)
  /\ F64.to_f32 (F64.of_f32 (c_to_f (F32.of_Z 21))) = c_to_f (F32.of_Z 21)
  /\ c_to_f (F32.of_Z 0) = F32.of_Z 32
  /\ c_to_f (F32.of_Z 100) = F32.of_Z 212
  /\ c_to_f (F32.of_Z 21) = S754_finite false 9148826 (-17)
  /\ c_to_f F32.nan = F32.nan
  /\ F32.valid (c_to_f (F32.of_Z 21)) = true
  /\ F32.valid (average (replicate 10 (c_to_f (F32.of_Z 21)))) = true
  /\ F64.to_f32 (F64.min (F64.of_Z 90)
                   (F64.add (F64.of_f32 (F32.of_Z 72)) (F64.of_Z 1)))
     = F32.of_Z 73
  /\ F64.to_f32 (F64.max (F64.of_Z 50)
                   (F64.sub (F64.of_f32 (F32.of_Z 72)) (F64.of_Z 1)))
     = F32.of_Z 71.
Proof. vm_compute. repeat split. Qed.

(** ** Facts about comparisons *)

Lemma SFcompare_antisym (a b : spec_float) :
  SFcompare b a = option_map CompOpp (SFcompare a b).
Proof.
  destruct a as [sa | sa | | sa ma ea], b as [sb | sb | | sb mb eb];
    try destruct sa; try destruct sb; try reflexivity; cbn;
    rewrite (Z.compare_antisym eb ea);
    destruct (eb ?= ea); cbn; try reflexivity;
    rewrite ?CompOpp_involutive;
    first [ now rewrite (Pos.compare_cont_antisym ma mb Eq)
          | now rewrite (Pos.compare_cont_antisym mb ma Eq) ].
Qed.

Lemma SFleb_true_ltb_false (a b : spec_float) :
  SFleb a b = true -> SFltb b a = false.
Proof.
  unfold SFleb, SFltb. rewrite (SFcompare_antisym a b).
  destruct (SFcompare a b) as [[]|]; cbn; congruence.
Qed.

Lemma SFltb_true_leb_false (a b : spec_float) :
  SFltb a b = true -> SFleb b a = false.
Proof.
  unfold SFleb, SFltb. rewrite (SFcompare_antisym a b).
  destruct (SFcompare a b) as [[]|]; cbn; congruence.
Qed.

Lemma FREEZE_GUARD_TEMP_eq :
  FREEZE_GUARD_TEMP = S754_finite false 9961472 (-18).
Proof. reflexivity. Qed.

Lemma freeze_release_eq :
  freeze_release = S754_finite false 5629499534213120 (-47).
Proof. reflexivity. Qed.

(** The release threshold [FREEZE_GUARD_TEMP + 2.0] is the double 40.0. *)
Lemma freeze_release_is_40 : freeze_release = F64.of_Z 40.
Proof. reflexivity. Qed.

(** A binary32 value below 38 is not at or above 40 once promoted: the
    first branch of the hysteresis never shadows the second. *)
Lemma below_guard_not_released (x : float) :
  F32.valid x = true ->
  F32.ltb x FREEZE_GUARD_TEMP = true ->
  F64.leb freeze_release (F64.of_f32 x) = false.
Proof.
  rewrite FREEZE_GUARD_TEMP_eq, freeze_release_eq.
  destruct x as [s | s | | s m e]; try destruct s;
    try reflexivity; try discriminate.
  - intros _ _. unfold F64.leb, F64.of_f32.
    destruct (shl_align _ _ _). reflexivity.
  - unfold F32.valid, valid_binary, bounded, canonical_mantissa, fexp, emin.
    unfold F32.ltb, SFltb, SFcompare, F64.leb, F64.of_f32, fexp, emin,
      shl_align.
    set (d := Z.pos (digits2_pos m)).
    assert (Hd : 0 < d) by (unfold d; lia).
    intros Hv Hlt. apply andb_true_iff in Hv as [Hc _].
    apply Z.eqb_eq in Hc.
    destruct (Z.max (d + e - 53) (3 - 1024 - 53) - e) as [|p|p] eqn:Hp;
      try lia.
    unfold SFleb, SFcompare.
    destruct (Z.compare_spec e (-18)) as [He | He | He]; try discriminate.
    + subst e.
      assert (d = 24) by lia.
      assert (p = 29%positive) by lia. subst p.
      replace (Z.max (d + -18 - 53) (3 - 1024 - 53)) with (-47) by lia.
      clear Hp Hc H Hd. clearbody d.
      cbn [Z.compare Pos.compare Pos.compare_cont Pos.iter CompOpp].
      rewrite Pos.compare_cont_spec in Hlt. cbn [Pos.switch_Eq] in Hlt.
      rewrite Pos.compare_cont_spec. cbn [Pos.switch_Eq].
      destruct (Pos.compare_spec m 9961472) as [Hm | Hm | Hm];
        try discriminate.
      destruct (Pos.compare_spec 10485760 m) as [Hm' | Hm' | Hm'];
        [ subst m | apply (Pos.lt_trans _ _ _ Hm') in Hm | reflexivity ];
        vm_compute in Hm; discriminate.
    + destruct (Z.compare_spec (-47) (Z.max (d + e - 53) (3 - 1024 - 53)));
        try reflexivity; lia.
Qed.

(** ** Facts about rounding *)

(** Rounding never produces NaN: the mantissa stays non-negative through
    the shifts and the round-to-nearest-even step. *)
Lemma iter_pos_invariant {A : Type} (P : A -> Prop) (f : A -> A) :
  (forall x, P x -> P (f x)) ->
  forall (p : positive) (x : A), P x -> P (SpecFloat.iter_pos f p x).
Proof.
  intros Hf. induction p as [p IH | p IH |]; intros x Hx;
    cbn [SpecFloat.iter_pos].
  - apply IH, IH, Hf, Hx.
  - apply IH, IH, Hx.
  - apply Hf, Hx.
Qed.

Lemma shr_1_nonneg (mrs : shr_record) :
  0 <= shr_m mrs -> 0 <= shr_m (shr_1 mrs).
Proof.
  destruct mrs as [m r s]. cbn [shr_m]. intros Hm. unfold shr_1.
  destruct m as [|[p|p|]|p]; cbn [shr_m]; lia.
Qed.

Lemma shr_nonneg (mrs : shr_record) (e n : Z) :
  0 <= shr_m mrs -> 0 <= shr_m (fst (shr mrs e n)).
Proof.
  intros Hm. unfold shr. destruct n as [|p|p]; cbn [fst]; try assumption.
  now apply (iter_pos_invariant (fun x => 0 <= shr_m x) shr_1 shr_1_nonneg).
Qed.

Lemma shr_record_of_loc_m (m : Z) (l : location) :
  shr_m (shr_record_of_loc m l) = m.
Proof. now destruct l as [|[]]. Qed.

Lemma binary_round_aux_not_nan (prec emax : Z) (sx : bool) (mx ex : Z)
    (lx : location) :
  0 <= mx -> F32.isnan (binary_round_aux prec emax sx mx ex lx) = false.
Proof.
  intros Hm. unfold binary_round_aux, shr_fexp.
  destruct (shr (shr_record_of_loc mx lx) ex _) as [mrs' e'] eqn:H1.
  assert (Hm1 : 0 <= shr_m mrs').
  { change mrs' with (fst (mrs', e')). rewrite <- H1. apply shr_nonneg.
    now rewrite shr_record_of_loc_m. }
  set (m2 := round_nearest_even (shr_m mrs') (loc_of_shr_record mrs')).
  assert (Hm2 : 0 <= m2).
  { unfold m2, round_nearest_even.
    destruct (loc_of_shr_record mrs') as [|[]]; try lia.
    destruct (Z.even (shr_m mrs')); lia. }
  destruct (shr (shr_record_of_loc m2 loc_Exact) e' _) as [mrs'' e''] eqn:H2.
  assert (Hm3 : 0 <= shr_m mrs'').
  { change mrs'' with (fst (mrs'', e'')). rewrite <- H2. apply shr_nonneg.
    now rewrite shr_record_of_loc_m. }
  destruct (shr_m mrs'') as [|p|p]; try reflexivity; [|lia].
  now destruct (e'' <=? emax - prec).
Qed.

Lemma binary_normalize_not_nan (prec emax m e : Z) (sz : bool) :
  F32.isnan (binary_normalize prec emax m e sz) = false.
Proof.
  unfold binary_normalize, binary_round.
  destruct m as [|p|p]; [reflexivity| |];
    destruct (shl_align _ _ _) as [mz ez]; now apply binary_round_aux_not_nan.
Qed.

(** Multiplying, dividing or adding a finite constant keeps a number a
    number, so the Fahrenheit conversion of a valid reading is not NaN. *)
Lemma SFmul_finite_not_nan (prec emax : Z) (x : spec_float) (sy : bool)
    (my : positive) (ey : Z) :
  F32.isnan x = false ->
  F32.isnan (SFmul prec emax x (S754_finite sy my ey)) = false.
Proof.
  destruct x as [s | s | | s m e]; try discriminate; try reflexivity.
  intros _. cbn [SFmul]. now apply binary_round_aux_not_nan.
Qed.

Lemma SFdiv_finite_not_nan (prec emax : Z) (x : spec_float) (sy : bool)
    (my : positive) (ey : Z) :
  F32.isnan x = false ->
  F32.isnan (SFdiv prec emax x (S754_finite sy my ey)) = false.
Proof.
  destruct x as [s | s | | s m e]; try discriminate; try reflexivity.
  intros _. cbn [SFdiv]. unfold SFdiv_core_binary.
  set (m' := match _ - _ - _ with Z0 => _ | Zpos _ => _ | Zneg _ => _ end).
  assert (Hm : 0 <= m').
  { unfold m'. destruct (_ - _ - _) as [|p|p]; try lia.
    apply Z.shiftl_nonneg. lia. }
  pose proof (Z_div_mod m' (Z.pos my) eq_refl) as Hdiv.
  destruct (Z.div_eucl m' (Z.pos my)) as [q r].
  apply binary_round_aux_not_nan. nia.
Qed.

Lemma SFadd_finite_not_nan (prec emax : Z) (x : spec_float) (sy : bool)
    (my : positive) (ey : Z) :
  F32.isnan x = false ->
  F32.isnan (SFadd prec emax x (S754_finite sy my ey)) = false.
Proof.
  destruct x as [s | s | | s m e]; try discriminate; try reflexivity.
  intros _. cbn [SFadd]. apply binary_normalize_not_nan.
Qed.

Lemma c_to_f_not_nan (c : float) :
  F32.isnan c = false -> F32.isnan (c_to_f c) = false.
Proof.
  intros Hc. unfold c_to_f, F32.add, F32.div, F32.mul.
  change (F32.of_Z 9) with (S754_finite false 9437184 (-20)).
  change (F32.of_Z 5) with (S754_finite false 10485760 (-21)).
  change (F32.of_Z 32) with (S754_finite false 8388608 (-18)).
  now apply SFadd_finite_not_nan, SFdiv_finite_not_nan, SFmul_finite_not_nan.
Qed.

(** The setters are pattern matches on the record, so in the proofs a
    state is opened into its fields before its projections are computed. *)

(** ** What [sample] leaves alone *)

Lemma sample_keeps_control (t h : float) (s : State) :
  freezeGuardEnabled (sample t h s) = freezeGuardEnabled s
  /\ heaterEnabled (sample t h s) = heaterEnabled s
  /\ heaterPin (sample t h s) = heaterPin s
  /\ targetTemp (sample t h s) = targetTemp s
  /\ trace (sample t h s) = trace s.
Proof.
  unfold sample, smooth_temperature, smooth_humidity.
  destruct s, (F32.isnan t), (F32.isnan h); cbn; auto.
Qed.

(** ** HeaterPolicy *)

Lemma control_heater_guard_on (s : State) :
  freezeGuardEnabled s = true ->
  F32.ltb (currentTemp s) FREEZE_GUARD_TEMP = true ->
  control_heater s = set_heaterEnabled true (digitalWrite HEATER_PIN HIGH s).
Proof. intros Hg Hlt. unfold control_heater. now rewrite Hg, Hlt. Qed.

Lemma control_heater_guard_off (s : State) :
  freezeGuardEnabled s = true ->
  F32.valid (currentTemp s) = true ->
  F64.leb freeze_release (F64.of_f32 (currentTemp s)) = true ->
  control_heater s = set_heaterEnabled false (digitalWrite HEATER_PIN LOW s).
Proof.
  intros Hg Hv Hge. unfold control_heater. rewrite Hg, Hge.
  destruct (F32.ltb (currentTemp s) FREEZE_GUARD_TEMP) eqn:Hlt; [|reflexivity].
  rewrite (below_guard_not_released _ Hv Hlt) in Hge. discriminate.
Qed.

Lemma control_heater_guard_hold (s : State) :
  freezeGuardEnabled s = true ->
  F32.leb FREEZE_GUARD_TEMP (currentTemp s) = true ->
  F64.ltb (F64.of_f32 (currentTemp s)) freeze_release = true ->
  control_heater s = s.
Proof.
  intros Hg Hge Hlt. unfold control_heater. rewrite Hg.
  unfold F32.ltb, F64.leb.
  rewrite (SFleb_true_ltb_false _ _ Hge).
  now rewrite (SFltb_true_leb_false _ _ Hlt).
Qed.

Lemma evaluate_guard_on (t : float) (s : State) :
  freezeGuardEnabled s = true ->
  F32.ltb t FREEZE_GUARD_TEMP = true ->
  heaterEnabled (evaluate t s) = true /\ heaterPin (evaluate t s) = HIGH
  /\ freezeGuardEnabled (evaluate t s) = true.
Proof.
  intros Hg Hlt. unfold evaluate.
  rewrite control_heater_guard_on by (destruct s; assumption).
  now destruct s.
Qed.

Lemma evaluate_guard_off (t : float) (s : State) :
  freezeGuardEnabled s = true ->
  F32.valid t = true ->
  F64.leb freeze_release (F64.of_f32 t) = true ->
  heaterEnabled (evaluate t s) = false /\ heaterPin (evaluate t s) = LOW
  /\ freezeGuardEnabled (evaluate t s) = true.
Proof.
  intros Hg Hv Hge. unfold evaluate.
  rewrite control_heater_guard_off by (destruct s; assumption).
  now destruct s.
Qed.

Lemma evaluate_guard_hold (t : float) (s : State) :
  freezeGuardEnabled s = true ->
  F32.leb FREEZE_GUARD_TEMP t = true ->
  F64.ltb (F64.of_f32 t) freeze_release = true ->
  heaterEnabled (evaluate t s) = heaterEnabled s
  /\ heaterPin (evaluate t s) = heaterPin s
  /\ freezeGuardEnabled (evaluate t s) = true.
Proof.
  intros Hg Hge Hlt. unfold evaluate.
  rewrite control_heater_guard_hold by (destruct s; assumption).
  now destruct s.
Qed.

(** C1.  Under FreezeGuard every evaluation tick switches the heater on
    when the smoothed temperature is below 38.0, off when it is at or
    above 40.0, and leaves both the relay pin and the [heaterEnabled] flag
    as they were in the dead band [38.0, 40.0).  For the smoothed sequence
    39.5, 37.0, 39.0, 41.0 the heater is (previous), on, on, off. *)
Theorem freeze_guard_hysteresis
    (now : Z) (newTemp newHumidity : float) (s : State) :
  freezeGuardEnabled s = true ->
  F32.valid (currentTemp (sample newTemp newHumidity s)) = true ->
  let smoothed := currentTemp (sample newTemp newHumidity s) in
  let s' := sensor_tick now newTemp newHumidity s in
  (F32.ltb smoothed (F32.of_Z 38) = true ->
     heaterPin s' = HIGH /\ heaterEnabled s' = true)
  /\ (F64.leb (F64.of_Z 40) (F64.of_f32 smoothed) = true ->
     heaterPin s' = LOW /\ heaterEnabled s' = false)
  /\ (F32.leb (F32.of_Z 38) smoothed = true ->
      F64.ltb (F64.of_f32 smoothed) (F64.of_Z 40) = true ->
     heaterPin s' = heaterPin s /\ heaterEnabled s' = heaterEnabled s)
  /\ (forall s0 : State,
        freezeGuardEnabled s0 = true ->
        map (fun st => (heaterEnabled st, heaterPin st))
            (evaluations [F32.of_ratio 79 2; F32.of_Z 37; F32.of_Z 39;
                          F32.of_Z 41] s0)
        = [(heaterEnabled s0, heaterPin s0); (true, HIGH); (true, HIGH);
           (false, LOW)]).
Proof.
  intros Hg Hv smoothed s'.
  destruct (sample_keeps_control newTemp newHumidity s)
    as (Kg & Ke & Kp & _ & _).
  unfold s', smoothed, sensor_tick in *.
  set (s1 := sample newTemp newHumidity s) in *. clearbody s1.
  assert (Hg1 : freezeGuardEnabled s1 = true) by congruence.
  rewrite <- freeze_release_is_40.
  change (F32.of_Z 38) with FREEZE_GUARD_TEMP.
  repeat split.
  - rewrite control_heater_guard_on by assumption. now destruct s1.
  - rewrite control_heater_guard_on by assumption. now destruct s1.
  - rewrite control_heater_guard_off by assumption. now destruct s1.
  - rewrite control_heater_guard_off by assumption. now destruct s1.
  - rewrite control_heater_guard_hold by assumption. now destruct s1.
  - rewrite control_heater_guard_hold by assumption. now destruct s1.
  - intros s0 H0. cbn [evaluations map].
    destruct (evaluate_guard_hold (F32.of_ratio 79 2) s0 H0 eq_refl eq_refl)
      as (E1 & P1 & G1).
    destruct (evaluate_guard_on (F32.of_Z 37) _ G1 eq_refl) as (E2 & P2 & G2).
    destruct (evaluate_guard_hold (F32.of_Z 39) _ G2 eq_refl eq_refl)
      as (E3 & P3 & G3).
    destruct (evaluate_guard_off (F32.of_Z 41) _ G3 eq_refl eq_refl)
      as (E4 & P4 & G4).
    rewrite E1, P1, E3, P3, E2, P2, E4, P4. reflexivity.
Qed.

(** A tick under FreezeGuard with a 1 degree Celsius sample on a freshly
    seeded device: the smoothed value is below 38 and the relay goes on. *)
Lemma freeze_guard_hysteresis_witness :
  let s := set_freezeGuardEnabled true (initial_state []) in
  heaterPin (sensor_tick 2000 (F32.of_Z 1) (F32.of_Z 40) s) = HIGH
  /\ heaterEnabled (sensor_tick 2000 (F32.of_Z 1) (F32.of_Z 40) s) = true.
Proof.
  intro s.
  apply (freeze_guard_hysteresis 2000 (F32.of_Z 1) (F32.of_Z 40) s);
    reflexivity.
Defined.

Lemma control_heater_manual (s : State) :
  freezeGuardEnabled s = false ->
  control_heater s
  = digitalWrite HEATER_PIN
      (heaterEnabled s && F32.ltb (currentTemp s) (targetTemp s)) s.
Proof.
  intros Hg. unfold control_heater. rewrite Hg.
  now destruct (heaterEnabled s && F32.ltb (currentTemp s) (targetTemp s)).
Qed.

(** C2.  With FreezeGuard disabled every evaluation tick writes to the
    relay pin the value [heaterEnabled && smoothed < targetTemp], computed
    from the armed latch, the fresh smoothed temperature and the target
    alone; the previous pin level plays no part.  So the relay is off as
    soon as the smoothed temperature is at or above the target and on as
    soon as it is below it while armed. *)
Theorem manual_regime_output
    (now : Z) (newTemp newHumidity : float) (s : State) :
  freezeGuardEnabled s = false ->
  let smoothed := currentTemp (sample newTemp newHumidity s) in
  let s' := sensor_tick now newTemp newHumidity s in
  heaterPin s' = heaterEnabled s && F32.ltb smoothed (targetTemp s)
  /\ trace s' = trace s ++ [DigitalWrite HEATER_PIN (heaterPin s')]
  /\ heaterEnabled s' = heaterEnabled s
  /\ targetTemp s' = targetTemp s
  /\ currentTemp s' = smoothed
  /\ (F32.leb (targetTemp s) smoothed = true -> heaterPin s' = LOW)
  /\ (heaterEnabled s = true -> F32.ltb smoothed (targetTemp s) = true ->
      heaterPin s' = HIGH).
Proof.
  intros Hg smoothed s'.
  destruct (sample_keeps_control newTemp newHumidity s)
    as (Kg & Ke & Kp & Kt & Ktr).
  unfold s', smoothed, sensor_tick.
  set (s1 := sample newTemp newHumidity s) in *. clearbody s1.
  rewrite control_heater_manual by congruence.
  rewrite <- Ke, <- Kt, <- Ktr. clear Kg Ke Kp Kt Ktr Hg.
  destruct s1; cbn.
  repeat split.
  - intros Hge. unfold F32.ltb. rewrite (SFleb_true_ltb_false _ _ Hge).
    apply andb_false_r.
  - intros Ha Hlt. rewrite Ha, Hlt. reflexivity.
Qed.

(** A tick on the freshly booted state (FreezeGuard off, not armed). *)
Lemma manual_regime_output_witness :
  heaterPin (sensor_tick 2000 (F32.of_Z 21) (F32.of_Z 40) (initial_state []))
  = LOW.
Proof.
  destruct (manual_regime_output 2000 (F32.of_Z 21) (F32.of_Z 40)
              (initial_state []) eq_refl) as (H & _).
  rewrite H. reflexivity.
Defined.

(** ** SampleSmoother *)

(** Writing [f i] into slot [i] for [i = 0 .. n-1] overwrites the first
    [n] slots and keeps the rest. *)
Lemma fill_prefix {A : Type} (f : nat -> A) (n : nat) (l : list A) :
  (n <= List.length l)%nat ->
  fold_left (fun acc i => <[i := f i]> acc) (seq 0 n) l
  = map f (seq 0 n) ++ drop n l.
Proof.
  induction n as [|n IH]; intros Hn.
  - now rewrite drop_0.
  - rewrite seq_S, fold_left_app, IH by lia. cbn [fold_left Nat.add].
    rewrite map_app, <- app_assoc. cbn [map app].
    rewrite insert_app_r_alt by (rewrite length_map, length_seq; lia).
    rewrite length_map, length_seq, Nat.sub_diag.
    destruct (drop n l) as [|x rest] eqn:Hd.
    + apply (f_equal (@List.length A)) in Hd.
      rewrite length_drop in Hd. cbn in Hd. lia.
    + cbn. do 2 f_equal.
      change (S n) with (1 + n)%nat. rewrite Nat.add_comm, <- drop_drop, Hd.
      reflexivity.
Qed.

Lemma seed_slots_spec (initTemp : float) (rawHum : Z -> float) (l : list nat) :
  forall s s' : State,
  s' = fold_left (fun st i => seed_slot initTemp rawHum (Z.of_nat i) st) l s ->
  tempReadings s'
  = fold_left (fun acc i => <[i := initTemp]> acc) l (tempReadings s)
  /\ humReadings s'
     = fold_left (fun acc i => <[i := rawHum (Z.of_nat i)]> acc) l (humReadings s)
  /\ trace s' = trace s /\ currentTemp s' = currentTemp s
  /\ humidity s' = humidity s /\ sensorInit s' = sensorInit s
  /\ lastRead s' = lastRead s /\ readIndex s' = readIndex s
  /\ heaterPin s' = heaterPin s /\ heaterEnabled s' = heaterEnabled s
  /\ freezeGuardEnabled s' = freezeGuardEnabled s
  /\ targetTemp s' = targetTemp s.
Proof.
  induction l as [|i l IH]; intros s s' ->; cbn [fold_left].
  - repeat split.
  - destruct (IH (seed_slot initTemp rawHum (Z.of_nat i) s) _ eq_refl)
      as (-> & -> & -> & -> & -> & -> & -> & -> & -> & -> & -> & ->).
    destruct s; cbn. rewrite Nat2Z.id. repeat split.
Qed.

(** The seeding block on a device that has not sampled yet: ten copies of
    the converted first temperature reading, one humidity reading per slot,
    then the 8000 ms warm-up delay. *)
Lemma sensor_init_spec (rawTemp : float) (rawHum : Z -> float) (s : State) :
  sensorInit s = true ->
  List.length (tempReadings s) = 10%nat ->
  List.length (humReadings s) = 10%nat ->
  let s' := sensor_init rawTemp rawHum s in
  tempReadings s' = replicate 10 (c_to_f rawTemp)
  /\ humReadings s' = map (fun i => rawHum (Z.of_nat i)) (seq 0 10)
  /\ trace s' = trace s ++ [Delay 8000]
  /\ sensorInit s' = false
  /\ currentTemp s' = currentTemp s /\ humidity s' = humidity s
  /\ lastRead s' = lastRead s /\ readIndex s' = readIndex s
  /\ heaterPin s' = heaterPin s /\ heaterEnabled s' = heaterEnabled s
  /\ freezeGuardEnabled s' = freezeGuardEnabled s
  /\ targetTemp s' = targetTemp s.
Proof.
  intros Hi Ht Hh. unfold sensor_init. rewrite Hi. unfold for_upto.
  change (Z.to_nat SAMPLES) with 10%nat.
  destruct (seed_slots_spec (c_to_f rawTemp) rawHum (seq 0 10) s _ eq_refl)
    as (T & H & R).
  cbn zeta.
  set (s1 := fold_left _ (seq 0 10) s) in *. clearbody s1.
  rewrite (fill_prefix (fun _ => c_to_f rawTemp)) in T by lia.
  rewrite (fill_prefix (fun i => rawHum (Z.of_nat i))) in H by lia.
  rewrite !drop_ge, !app_nil_r in T, H by lia.
  destruct R as (? & ? & ? & ? & ? & ? & ? & ? & ? & ?).
  destruct s1; cbn in *. repeat split; congruence.
Qed.

(** A tick with a valid temperature overwrites the slot at the write index
    with the converted reading and reports the mean of the ten slots; a NaN
    reading leaves the buffer and the reported value as they are.  The same
    holds for humidity, without conversion.  The shared index advances once. *)
Lemma sample_spec (newTemp newHumidity : float) (s : State) :
  let s' := sample newTemp newHumidity s in
  (F32.isnan newTemp = false ->
     tempReadings s'
     = <[Z.to_nat (readIndex s) := c_to_f newTemp]> (tempReadings s)
     /\ currentTemp s' = average (tempReadings s'))
  /\ (F32.isnan newTemp = true ->
     tempReadings s' = tempReadings s /\ currentTemp s' = currentTemp s)
  /\ (F32.isnan newHumidity = false ->
     humReadings s'
     = <[Z.to_nat (readIndex s) := newHumidity]> (humReadings s)
     /\ humidity s' = average (humReadings s'))
  /\ (F32.isnan newHumidity = true ->
     humReadings s' = humReadings s /\ humidity s' = humidity s)
  /\ readIndex s' = Z.rem (readIndex s + 1) SAMPLES.
Proof.
  unfold sample, smooth_temperature, smooth_humidity.
  destruct s, (F32.isnan newTemp), (F32.isnan newHumidity); cbn;
    repeat split; intros; try discriminate; reflexivity.
Qed.

(** The write index stays inside the arrays and steps by one modulo ten. *)
Lemma sample_index (newTemp newHumidity : float) (s : State) :
  0 <= readIndex s < SAMPLES ->
  0 <= readIndex (sample newTemp newHumidity s) < SAMPLES
  /\ readIndex (sample newTemp newHumidity s) = (readIndex s + 1) mod SAMPLES.
Proof.
  intros Hi. destruct (sample_spec newTemp newHumidity s) as (_ & _ & _ & _ & ->).
  unfold SAMPLES in *. rewrite Z.rem_mod_nonneg by lia.
  split; [apply Z.mod_pos_bound; lia | reflexivity].
Qed.

(** After a valid reading the slot just written holds the converted value
    and every other slot is untouched. *)
Lemma sample_slots (newTemp newHumidity : float) (s : State) :
  F32.isnan newTemp = false ->
  0 <= readIndex s < SAMPLES ->
  List.length (tempReadings s) = Z.to_nat SAMPLES ->
  let s' := sample newTemp newHumidity s in
  List.length (tempReadings s') = Z.to_nat SAMPLES
  /\ tempReadings s' !! Z.to_nat (readIndex s) = Some (c_to_f newTemp)
  /\ (forall j : nat, j <> Z.to_nat (readIndex s) ->
        tempReadings s' !! j = tempReadings s !! j).
Proof.
  intros Hn Hi Hl s'.
  destruct (sample_spec newTemp newHumidity s) as (Hv & _).
  destruct (Hv Hn) as (Ht & _). unfold s'. rewrite Ht.
  unfold SAMPLES in *. repeat split.
  - now rewrite length_insert.
  - apply list_lookup_insert_eq. lia.
  - intros j Hj. now apply list_lookup_insert_ne.
Qed.

(** The reported temperature changes only on a valid reading. *)
Lemma loop_sensors_nan_keeps_currentTemp (now : Z) (r : SensorReads) (s : State) :
  F32.isnan (tickTemp r) = true ->
  currentTemp (loop_sensors now r s) = currentTemp s.
Proof.
  intros Hn. unfold loop_sensors, sensor_init.
  assert (Hseed : forall rt rh,
             currentTemp (for_upto SAMPLES (seed_slot rt rh) s) = currentTemp s).
  { intros rt rh. unfold for_upto.
    now destruct (seed_slots_spec rt rh (seq 0 (Z.to_nat SAMPLES)) s _ eq_refl)
      as (_ & _ & _ & -> & _). }
  assert (Htick : forall st, currentTemp (sensor_tick now (tickTemp r) (tickHum r) st)
                             = currentTemp st).
  { intros st. unfold sensor_tick.
    destruct (sample_spec (tickTemp r) (tickHum r) st) as (_ & Hk & _).
    destruct (Hk Hn) as (_ & Hc). rewrite <- Hc.
    set (s1 := sample _ _ st). clearbody s1. unfold control_heater.
    destruct s1; cbn.
    repeat match goal with |- context [if ?b then _ else _] => destruct b end;
      reflexivity. }
  set (s1 := if sensorInit s then _ else s).
  assert (H1 : currentTemp s1 = currentTemp s).
  { unfold s1. destruct (sensorInit s); [|reflexivity].
    rewrite <- (Hseed (c_to_f (seedTemp r)) (seedHum r)). cbn zeta.
    now destruct (for_upto SAMPLES _ s). }
  clearbody s1. cbn zeta.
  destruct (SENSOR_READ_INTERVAL <=? usub now (lastRead s1));
    [rewrite Htick|]; exact H1.
Qed.

Lemma run_sensors_nan_keeps_currentTemp (passes : list (Z * SensorReads)) :
  forall s : State,
  Forall (fun p => F32.isnan (tickTemp (snd p)) = true) passes ->
  currentTemp (run_sensors passes s) = currentTemp s.
Proof.
  induction passes as [|p ps IH]; intros s Hall; [reflexivity|].
  inversion Hall as [|? ? Hp Hps]; subst. cbn [run_sensors fold_left].
  change (currentTemp (run_sensors ps (loop_sensors (fst p) (snd p) s))
          = currentTemp s).
  rewrite IH by assumption. now apply loop_sensors_nan_keeps_currentTemp.
Qed.

(** C3, at the first tick after seeding when the sensor then faults.  A
    21 degree Celsius reading seeds the buffer; the next pass reads NaN.
    The buffer is untouched and the index advances, but the reported
    temperature is the initial 0.0 and not the mean of the ten slots: the
    seeding block fills the buffer without setting [currentTemp]. *)
Theorem stale_average_is_not_the_buffer_mean :
  let r := {| seedTemp := F32.of_Z 21; seedHum := fun _ => F32.of_Z 40;
              tickTemp := F32.nan; tickHum := F32.of_Z 40 |} in
  let s1 := run_sensors [(1000, r)] (initial_state []) in
  let s2 := run_sensors [(9000, r)] s1 in
  sensorInit s1 = false
  /\ tempReadings s1 = replicate 10 (c_to_f (F32.of_Z 21))
  /\ lastRead s1 = 0
  /\ tempReadings s2 = tempReadings s1
  /\ readIndex s2 = 1
  /\ lastRead s2 = 9000
  /\ currentTemp s2 = F32.zero
  /\ average (tempReadings s2) = S754_finite false 9148825 (-17)
  /\ F32.eqb (currentTemp s2) (average (tempReadings s2)) = false.
Proof. vm_compute. repeat split. Qed.

(** The reported temperature is the buffer mean from the first valid
    reading on, and a NaN reading then keeps it so. *)
Lemma sample_keeps_mean (newTemp newHumidity : float) (s : State) :
  currentTemp s = average (tempReadings s) ->
  currentTemp (sample newTemp newHumidity s)
  = average (tempReadings (sample newTemp newHumidity s)).
Proof.
  intros Hinv.
  destruct (sample_spec newTemp newHumidity s) as (Hv & Hn & _).
  destruct (F32.isnan newTemp).
  - destruct (Hn eq_refl) as (-> & ->). exact Hinv.
  - now destruct (Hv eq_refl).
Qed.

(** ** Telemetry *)

(** Without a single valid temperature reading the [/data] document
    carries the number 0.0, whatever the number of passes. *)
Lemma no_valid_sample_reports_zero (passes : list (Z * SensorReads))
    (rom : list byte) :
  Forall (fun p => F32.isnan (tickTemp (snd p)) = true) passes ->
  option_map tm_currentTemp
    (handleData true (run_sensors passes (initial_state rom)))
  = Some (TempNumber F32.zero).
Proof.
  intros Hall. unfold handleData. cbn [negb option_map tm_currentTemp].
  now rewrite (run_sensors_nan_keeps_currentTemp passes _ Hall).
Qed.

(** C7, at a sensor that never delivers a valid sample: after seeding and
    two further ticks, all NaN, the telemetry document reports the plain
    number 0.0 for the temperature, not the fault text. *)
Theorem telemetry_without_valid_sample :
  let s := run_sensors [(1000, faulty_sensor); (9000, faulty_sensor);
                        (11000, faulty_sensor)] (initial_state []) in
  tempReadings s = replicate 10 F32.nan
  /\ lastRead s = 11000
  /\ option_map tm_currentTemp (handleData true s) = Some (TempNumber F32.zero)
  /\ option_map tm_currentTemp (handleData true s) <> Some TempFault.
Proof. vm_compute. repeat split. discriminate. Qed.

(** ** Target adjustment *)

Lemma SFcompare_defined (a b : spec_float) :
  F32.isnan a = false -> F32.isnan b = false ->
  exists c, SFcompare a b = Some c.
Proof.
  destruct a as [sa | sa | | sa ma ea], b as [sb | sb | | sb mb eb];
    cbn; intros; try discriminate; eauto.
Qed.

Lemma SFltb_false_leb_true (a b : spec_float) :
  F32.isnan a = false -> F32.isnan b = false ->
  SFltb a b = false -> SFleb b a = true.
Proof.
  intros Ha Hb. unfold SFltb, SFleb. rewrite (SFcompare_antisym a b).
  destruct (SFcompare_defined a b Ha Hb) as [c ->].
  destruct c; cbn; congruence.
Qed.

(** The two comparisons of [handleTarget] bring every sum that is a number
    into [50, 90]. *)
Lemma handleTarget_clamps (change : float) (now : Z) (s : State) :
  F32.isnan (F32.add (targetTemp s) change) = false ->
  target_in_range (targetTemp (handleTarget true (Some change) now s)) = true.
Proof.
  intros Hn. destruct s; cbn in *.
  set (t1 := F32.add _ change) in *.
  destruct (F32.ltb t1 (F32.of_Z 50)) eqn:Hlo; cbn.
  - reflexivity.
  - destruct (F32.ltb (F32.of_Z 90) t1) eqn:Hhi; cbn; [reflexivity|].
    unfold target_in_range, F32.leb.
    rewrite (SFltb_false_leb_true t1 (F32.of_Z 50) Hn eq_refl Hlo).
    now rewrite (SFltb_false_leb_true (F32.of_Z 90) t1 eq_refl Hn Hhi).
Qed.

(** A target inside [50, 90] is a positive finite number, so adding any
    delta that is not NaN to it gives a number. *)
Lemma in_range_is_positive_finite (t : float) :
  target_in_range t = true -> exists m e, t = S754_finite false m e.
Proof.
  unfold target_in_range, F32.leb.
  change (F32.of_Z 50) with (S754_finite false 13107200 (-18)).
  change (F32.of_Z 90) with (S754_finite false 11796480 (-17)).
  unfold SFleb, SFcompare.
  destruct t as [s | [|] | | [|] m e]; try (intros H; discriminate H).
  eauto.
Qed.

Lemma add_number_not_nan (t change : float) :
  (exists m e, t = S754_finite false m e) ->
  F32.isnan change = false ->
  F32.isnan (F32.add t change) = false.
Proof.
  intros (m & e & ->) Hc. unfold F32.add.
  destruct change as [s | s | | s mc ec]; try discriminate; try reflexivity.
  cbn [SFadd]. apply binary_normalize_not_nan.
Qed.

(** The web command keeps an in-range target in range for every delta that
    is a number, infinities included. *)
Lemma web_adjust_keeps_range (change : float) (now : Z) (s : State) :
  target_in_range (targetTemp s) = true ->
  F32.isnan change = false ->
  target_in_range (targetTemp (handleTarget true (Some change) now s)) = true.
Proof.
  intros Hr Hc. apply handleTarget_clamps.
  apply add_number_not_nan; [now apply in_range_is_positive_finite | exact Hc].
Qed.

(** The limits named by the spec: one more degree at 90 stays at 90 and one
    less at 50 stays at 50, by button and by web command. *)
Lemma target_limits_hold :
  let at90 := set_targetTemp (F32.of_Z 90) (initial_state []) in
  let at50 := set_targetTemp (F32.of_Z 50) (initial_state []) in
  targetTemp (run_buttons [ {| p_now := 100; p_up := LOW; p_down := HIGH |};
                            {| p_now := 300; p_up := HIGH; p_down := HIGH |} ]
                          at90) = F32.of_Z 90
  /\ targetTemp (run_buttons [ {| p_now := 100; p_up := HIGH; p_down := LOW |};
                               {| p_now := 300; p_up := HIGH; p_down := HIGH |} ]
                             at50) = F32.of_Z 50
  /\ targetTemp (handleTarget true (Some (F32.of_Z 1)) 100 at90) = F32.of_Z 90
  /\ targetTemp (handleTarget true (Some (F32.of_Z (-1))) 100 at50)
     = F32.of_Z 50
  /\ targetTemp (run_buttons [ {| p_now := 100; p_up := LOW; p_down := HIGH |};
                               {| p_now := 300; p_up := HIGH; p_down := HIGH |} ]
                             (initial_state [])) = F32.of_Z 73.
Proof. vm_compute. repeat split. Qed.

(** From every whole-degree target between 50 and 90 a short press of Up
    gives [min 90 (k + 1)] and a short press of Down gives [max 50 (k - 1)]. *)
Lemma short_press_steps_by_one_degree :
  forallb
    (fun k =>
       let s := set_targetTemp (F32.of_Z k) (initial_state []) in
       let up := run_buttons [up_held 100; none_held 300] s in
       let down := run_buttons [down_held 100; none_held 300] s in
       F32.eqb (targetTemp up) (F32.of_Z (Z.min 90 (k + 1)))
       && F32.eqb (targetTemp down) (F32.of_Z (Z.max 50 (k - 1)))
       && target_in_range (targetTemp up)
       && target_in_range (targetTemp down))
    (map (fun i => 50 + Z.of_nat i) (seq 0 41))
  = true.
Proof. vm_compute. reflexivity. Qed.

(** C10, at a web request whose [temp] argument reads as NaN: the sum is
    NaN, neither comparison of the clamp holds, and [targetTemp] leaves
    [50, 90]. *)
Theorem web_adjust_nan_escapes_clamp :
  let s := handleTarget true (Some F32.nan) 5000 (initial_state []) in
  target_in_range (targetTemp (initial_state [])) = true
  /\ targetTemp s = F32.nan
  /\ target_in_range (targetTemp s) = false.
Proof. vm_compute. repeat split. Qed.

(** The sibling web command does test the regime: under FreezeGuard the
    arm toggle changes nothing. *)
Lemma handleToggle_guard_noop (auth : bool) (now : Z) (s : State) :
  freezeGuardEnabled s = true -> handleToggle auth now s = s.
Proof. intros Hg. unfold handleToggle. rewrite Hg. now destruct auth. Qed.

(** C6, at a web adjust request while FreezeGuard is on: [handleTarget]
    has no FreezeGuard test and moves the target from 72 to 73. *)
Theorem web_adjust_ignores_freeze_guard :
  let s0 := set_freezeGuardEnabled true (initial_state []) in
  let s := handleTarget true (Some (F32.of_Z 1)) 5000 s0 in
  freezeGuardEnabled s0 = true
  /\ targetTemp s0 = F32.of_Z 72
  /\ targetTemp s = F32.of_Z 73
  /\ freezeGuardEnabled s = true.
Proof. vm_compute. repeat split. Qed.

(** ** Seeding and warm-up *)

Lemma count_app (p : Effect -> bool) (a b : list Effect) :
  count p (a ++ b) = (count p a + count p b)%nat.
Proof. unfold count. now rewrite List.filter_app, length_app. Qed.

(** An evaluation tick adds at most heater writes to the trace. *)
Lemma sensor_tick_trace (now : Z) (t h : float) (s : State) :
  exists rest, trace (sensor_tick now t h s) = trace s ++ rest
               /\ forallb is_heater_write rest = true.
Proof.
  unfold sensor_tick.
  destruct (sample_keeps_control t h s) as (_ & _ & _ & _ & <-).
  set (s1 := sample t h s). clearbody s1.
  unfold control_heater. destruct s1; cbn.
  repeat match goal with |- context [if ?b then _ else _] => destruct b end;
    cbn; first [ now exists [] ; rewrite app_nil_r | eexists; split; [reflexivity|reflexivity] ].
Qed.

(** C8 as amended.  On the first pass of the sensor block, when the first
    temperature reading and the ten humidity readings taken by the seeding
    loop are valid numbers: every temperature slot holds the first reading
    converted to Fahrenheit, humidity slot [i] holds the [i]-th humidity
    reading, no slot of either buffer is NaN, the heater is not touched
    while seeding, the 8000 ms warm-up delay follows, and whatever the
    control evaluation of that pass writes comes after the delay. *)
Theorem seeding_then_warm_up (now : Z) (r : SensorReads) (s : State) :
  sensorInit s = true ->
  List.length (tempReadings s) = Z.to_nat SAMPLES ->
  List.length (humReadings s) = Z.to_nat SAMPLES ->
  F32.isnan (seedTemp r) = false ->
  (forall i, 0 <= i < SAMPLES -> F32.isnan (seedHum r i) = false) ->
  let s1 := sensor_init (seedTemp r) (seedHum r) s in
  tempReadings s1 = replicate (Z.to_nat SAMPLES) (c_to_f (seedTemp r))
  /\ (forall i, 0 <= i < SAMPLES ->
        humReadings s1 !! Z.to_nat i = Some (seedHum r i))
  /\ List.length (humReadings s1) = Z.to_nat SAMPLES
  /\ sensorInit s1 = false
  /\ heaterPin s1 = heaterPin s /\ heaterEnabled s1 = heaterEnabled s
  /\ Forall (fun x => F32.isnan x = false) (tempReadings s1)
  /\ Forall (fun x => F32.isnan x = false) (humReadings s1)
  /\ trace s1 = trace s ++ [Delay 8000]
  /\ exists rest,
       trace (loop_sensors now r s) = trace s ++ Delay 8000 :: rest
       /\ forallb is_heater_write rest = true.
Proof.
  intros Hi Ht Hh Hvt Hvh s1.
  destruct (sensor_init_spec (seedTemp r) (seedHum r) s Hi Ht Hh)
    as (T & H & Tr & I & _ & _ & _ & _ & P & E & _).
  fold s1 in T, H, Tr, I, P, E.
  repeat split; try assumption.
  - intros i Hr. rewrite H.
    rewrite list_lookup_fmap, lookup_seq_lt by (unfold SAMPLES in *; lia).
    cbn. now rewrite Z2Nat.id by lia.
  - rewrite H. now rewrite length_map, length_seq.
  - rewrite T. apply Forall_replicate. now apply c_to_f_not_nan.
  - rewrite H. apply Forall_fmap, Forall_forall. intros i Hin.
    apply elem_of_seq in Hin. apply Hvh. unfold SAMPLES. lia.
  - unfold loop_sensors. fold s1.
    destruct (SENSOR_READ_INTERVAL <=? usub now (lastRead s1)).
    + destruct (sensor_tick_trace now (tickTemp r) (tickHum r) s1)
        as (rest & -> & Hrest).
      exists rest. rewrite Tr, <- app_assoc. now split.
    + exists []. now rewrite Tr.
Qed.

(** A 21 degree first reading with steady 40 percent humidity, on the
    freshly booted device. *)
Lemma seeding_then_warm_up_witness :
  let r := {| seedTemp := F32.of_Z 21; seedHum := fun _ => F32.of_Z 40;
              tickTemp := F32.of_Z 21; tickHum := F32.of_Z 40 |} in
  tempReadings (sensor_init (seedTemp r) (seedHum r) (initial_state []))
  = replicate (Z.to_nat SAMPLES) (c_to_f (seedTemp r)).
Proof.
  intro r.
  apply (seeding_then_warm_up 2000 r (initial_state []));
    try reflexivity.
Defined.

(** C8 as stated fails twice on one boot: a NaN first temperature reading
    fills all ten temperature slots, and the humidity slots hold ten
    successive readings, not ten copies of the first. *)
Lemma seeding_counterexample :
  let s := sensor_init F32.nan (fun i => F32.of_Z (40 + i)) (initial_state []) in
  tempReadings s = replicate 10 F32.nan
  /\ humReadings s = map F32.of_Z [40; 41; 42; 43; 44; 45; 46; 47; 48; 49]
  /\ humReadings s <> replicate 10 (F32.of_Z 40).
Proof. vm_compute. repeat split. discriminate. Qed.

(** ** Boot *)

Arguments load_field : simpl never.
Arguments EEPROM_read : simpl never.

Lemma load_field_ext (start len : Z) (s s' : State) :
  eeprom s = eeprom s' -> load_field start len s = load_field start len s'.
Proof. unfold load_field, EEPROM_read. now intros ->. Qed.

(** The state in which [setup()] makes its network decision. *)
Lemma setup_prelude (rom : list byte) :
  let s := loadWiFiCredentials
             (loadFreezeGuardState
                (digitalWrite HEATER_PIN LOW (initial_state rom))) in
  storedSSID s = load_field SSID_START SSID_MAX_LENGTH (initial_state rom)
  /\ trace s = [DigitalWrite HEATER_PIN LOW]
  /\ setupMode s = false.
Proof.
  cbn. split; [|split; reflexivity]. now apply load_field_ext.
Qed.

Lemma count_nil (p : Effect -> bool) : count p [] = 0%nat.
Proof. reflexivity. Qed.

Lemma count_cons (p : Effect -> bool) (e : Effect) (l : list Effect) :
  count p (e :: l) = ((if p e then 1 else 0) + count p l)%nat.
Proof. unfold count. cbn. now destruct (p e). Qed.

Arguments count : simpl never.

Ltac count_trace :=
  repeat first [ rewrite count_app | rewrite count_cons | rewrite count_nil ].

Lemma count_retries (p : Effect -> bool) (n : nat) :
  count p (concat (replicate n [Delay 500; UpdateDisplay]))
  = (n * count p [Delay 500; UpdateDisplay])%nat.
Proof.
  induction n as [|n IH]; [reflexivity|].
  cbn [replicate concat]. rewrite count_app, IH. lia.
Qed.

(** The retry loop: it stops at the first poll that reports a connection
    or when the budget is used up, and each retry costs one 500 ms delay. *)
Lemma wifi_wait_spec (env : BootEnv) (left : nat) :
  forall (a : nat) (s : State) (a' : nat) (s' : State),
  wifi_wait env left a s = (a', s') ->
  (a <= a' <= a + left)%nat
  /\ (forall j, (a <= j < a')%nat -> wifi_connected env j = false)
  /\ ((a' < a + left)%nat -> wifi_connected env a' = true)
  /\ trace s' = trace s ++ concat (replicate (a' - a) [Delay 500; UpdateDisplay])
  /\ setupMode s' = setupMode s.
Proof.
  induction left as [|left IH]; intros a s a' s' Hw; cbn [wifi_wait] in Hw.
  - assert (a' = a /\ s' = s) as (-> & ->)
      by (destruct (wifi_connected env a); now inversion Hw).
    rewrite Nat.sub_diag. cbn. rewrite app_nil_r.
    repeat split; try lia; intros; lia.
  - destruct (wifi_connected env a) eqn:Hc.
    + inversion Hw; subst. rewrite Nat.sub_diag. cbn. rewrite app_nil_r.
      repeat split; try lia; intros; try lia. exact Hc.
    + apply IH in Hw as (Hr & Hf & Hl & Ht & Hm).
      repeat split; try lia.
      * intros j Hj. destruct (Nat.eq_dec j a) as [->|]; [exact Hc|].
        apply Hf. lia.
      * intros Hlt. apply Hl. lia.
      * rewrite Ht. replace (a' - a)%nat with (S (a' - S a)) by lia.
        cbn [replicate concat]. destruct s; cbn. rewrite <- !app_assoc.
        reflexivity.
      * rewrite Hm. now destruct s.
Qed.

(** C9 as amended.  When a sensor is found and the display starts: with a
    persisted name shorter than two characters [setup()] enters Provisioning
    without trying to join; otherwise it calls [WiFi.begin] once and polls
    the status before each of at most 30 retries, 500 ms apart, stopping at
    the first poll that reports a connection, and enters Normal if the
    status check after the loop reports a connection and Provisioning if
    not.  So a network that never answers costs exactly 30 retries and ends
    in Provisioning, and one that connects at poll [k] and stays connected
    ends in Normal after [k] retries. *)
Theorem boot_mode_selection (env : BootEnv) (rom : list byte) :
  bme_at_76 env || bme_at_77 env = true ->
  display_begin env = true ->
  let ssid := load_field SSID_START SSID_MAX_LENGTH (initial_state rom) in
  exists s : State,
    setup env rom = Some s
    /\ ((String.length ssid < 2)%nat ->
          boot_mode s = Some Provisioning
          /\ count is_wifiBegin (trace s) = 0%nat
          /\ count is_delay (trace s) = 0%nat)
    /\ ((2 <= String.length ssid)%nat ->
          count is_wifiBegin (trace s) = 1%nat
          /\ (exists attempts : nat,
                (attempts <= 30)%nat
                /\ count is_delay (trace s) = attempts
                /\ count (is_delay_of 500) (trace s) = attempts
                /\ (forall j, (j < attempts)%nat -> wifi_connected env j = false)
                /\ ((attempts < 30)%nat -> wifi_connected env attempts = true)
                /\ boot_mode s
                   = Some (if wifi_connected env (S attempts)
                           then Normal else Provisioning))
          /\ ((forall j, (j <= 31)%nat -> wifi_connected env j = false) ->
                boot_mode s = Some Provisioning
                /\ count (is_delay_of 500) (trace s) = 30%nat)
          /\ (forall k, (k <= 30)%nat ->
                (forall j, (j < k)%nat -> wifi_connected env j = false) ->
                wifi_connected env k = true ->
                wifi_connected env (S k) = true ->
                boot_mode s = Some Normal
                /\ count (is_delay_of 500) (trace s) = k)).
Proof.
  intros Hbme Hdisp ssid. unfold setup.
  replace (negb (bme_at_76 env) && negb (bme_at_77 env)) with false
    by (destruct (bme_at_76 env), (bme_at_77 env); easy).
  rewrite Hdisp. cbn [negb].
  destruct (setup_prelude rom) as (Hs & Ht & Hsm).
  set (s3 := loadWiFiCredentials _) in *. fold ssid in Hs.
  rewrite Hs.
  destruct (Z.of_nat (String.length ssid) <? 2) eqn:Hlen.
  - apply Z.ltb_lt in Hlen. eexists. split; [reflexivity|]. split; [|lia].
    intros _. clearbody s3. destruct s3; cbn in *. subst.
    unfold boot_mode, enterSetupMode. destruct (softAP_ok env); cbn; auto.
  - apply Z.ltb_ge in Hlen.
    destruct (wifi_wait env 30 0 _) as [attempts s4] eqn:Hw.
    apply wifi_wait_spec in Hw as (Hr & Hf & Hl & Htr & Hm).
    rewrite Nat.sub_0_r in Htr.
    assert (Htr' : trace s4
                   = [DigitalWrite HEATER_PIN LOW; UpdateDisplay;
                      WifiBegin (storedSSID s3) (storedPassword s3)]
                     ++ concat (replicate attempts [Delay 500; UpdateDisplay])).
    { rewrite Htr. clear Htr. clearbody s3. destruct s3; cbn in *. now subst. }
    assert (Hm' : setupMode s4 = false).
    { rewrite Hm. clear -Hsm. clearbody s3. now destruct s3. }
    clear Htr Hm. clearbody s3. clear Hs Ht Hsm.
    set (final := if wifi_connected env (S attempts)
                  then setupNormalMode s4 else enterSetupMode env s4).
    assert (Hmode : boot_mode final
                    = Some (if wifi_connected env (S attempts)
                            then Normal else Provisioning)).
    { unfold final. destruct s4; cbn in *; subst.
      destruct (wifi_connected env (S attempts)); unfold boot_mode; cbn.
      - rewrite !existsb_app. cbn. now rewrite !orb_true_r.
      - unfold enterSetupMode. destruct (softAP_ok env); cbn;
          rewrite !existsb_app; cbn; now rewrite !orb_true_r. }
    assert (Hcnt : count is_wifiBegin (trace final) = 1%nat
                   /\ count is_delay (trace final) = attempts
                   /\ count (is_delay_of 500) (trace final) = attempts).
    { unfold final, enterSetupMode. destruct s4; cbn in *; subst.
      destruct (wifi_connected env (S attempts)), (softAP_ok env); cbn;
        count_trace; rewrite !count_retries; count_trace; cbn; lia. }
    destruct Hcnt as (Hwb & Hd & Hd5).
    exists final.
    split; [unfold final; now destruct (wifi_connected env (S attempts))|].
    clearbody final. split; [lia|]. intros _.
    split; [|split; [|split]].
    + exact Hwb.
    + exists attempts. repeat split; try assumption; try lia.
      * intros j Hj. apply Hf. lia.
    + intros Hnever.
      assert (Heq : attempts = 30%nat).
      { destruct (Nat.eq_dec attempts 30%nat) as [|Hne]; [assumption|].
        rewrite Hnever in Hl by lia. discriminate Hl. lia. }
      rewrite Hmode, Hd5, Heq, Hnever by lia. now split.
    + intros k Hk Hbefore Hat Hstay.
      assert (Heq : attempts = k).
      { destruct (Nat.lt_trichotomy attempts k) as [Hlt | [Heq | Hgt]];
          [| assumption |].
        - rewrite Hbefore in Hl by assumption. discriminate Hl. lia.
        - rewrite Hf in Hat by lia. discriminate. }
      rewrite Hmode, Hd5, Heq, Hstay. now split.
Qed.

(** A boot with the identity ("home", "secret123") on a network that
    answers at the fourth poll and stays up. *)
Lemma boot_mode_selection_witness :
  exists s : State,
    setup home_env (rom_with "home" "secret123") = Some s
    /\ boot_mode s = Some Normal
    /\ count (is_delay_of 500) (trace s) = 3%nat.
Proof.
  destruct (boot_mode_selection home_env (rom_with "home" "secret123")
              eq_refl eq_refl) as (s & Hs & _ & Hjoin).
  exists s. split; [exact Hs|].
  assert (Hlen : (2 <= String.length
                         (load_field SSID_START SSID_MAX_LENGTH
                            (initial_state (rom_with "home" "secret123"))))%nat)
    by (vm_compute; lia).
  destruct (Hjoin Hlen) as (_ & _ & _ & Hk).
  apply (Hk 3%nat); [lia | | reflexivity | reflexivity].
  intros j Hj. destruct j as [|[|[|j]]]; [reflexivity ..| lia].
Defined.

(** C9 as stated fails when a peripheral does not start: with no persisted
    name and a display that fails to start, [setup()] returns before the
    network decision and no mode is entered; with no sensor it never
    returns. *)
Lemma boot_without_display_counterexample :
  let rom := replicate (Z.to_nat EEPROM_SIZE) x00 in
  let no_display :=
    {| bme_at_76 := true; bme_at_77 := false; display_begin := false;
       wifi_connected := fun _ => true; softAP_ok := true |} in
  let no_sensor :=
    {| bme_at_76 := false; bme_at_77 := false; display_begin := true;
       wifi_connected := fun _ => true; softAP_ok := true |} in
  load_field SSID_START SSID_MAX_LENGTH (initial_state rom) = EmptyString
  /\ option_map boot_mode (setup no_display rom) = Some None
  /\ option_map setupMode (setup no_display rom) = Some false
  /\ option_map trace (setup no_display rom) = Some []
  /\ setup no_sensor rom = None.
Proof. vm_compute. repeat split. Qed.

(** ** Buttons *)

(** C4, at a hold of both buttons that starts at 1000 ms on the freshly
    booted device, with [loop()] polling every 50 ms plus the time spent in
    blocking delays.  Sleep is entered when the hold reaches 2000 ms; the
    next pass finds a button still pressed and wakes the display; the pass
    after that is again inside the window and enters sleep once more.  One
    hold enters sleep five times before it reaches 5000 ms; the pass at
    6000 ms then erases the identity and restarts. *)
Theorem dual_hold_reenters_sleep :
  let s0 := initial_state (rom_with "home" "secret123") in
  let passes := hold_for 51 both_held 50 1000 s0 in
  let final := List.last passes s0 in
  map lastActivityTime (List.filter displaySleepMode passes)
  = [3000; 3600; 4200; 4800; 5400]
  /\ count is_sleep_entry (trace final) = 5%nat
  /\ lastActivityTime final = 6000
  /\ restarted final = true
  /\ count is_restart (trace final) = 1%nat
  /\ load_field SSID_START SSID_MAX_LENGTH s0 = "home"%string
  /\ load_field SSID_START SSID_MAX_LENGTH final = EmptyString
  /\ load_field PASS_START PASS_MAX_LENGTH final = EmptyString.
Proof. vm_compute. repeat split. Qed.

(** The alternation in general: a poll that finds the display asleep and a
    button pressed wakes it and does nothing else. *)
Lemma pressed_poll_wakes (up down : bool) (now : Z) (s : State) :
  displaySleepMode s = true ->
  up = LOW \/ down = LOW ->
  handleButtons up down now s = wake now (set_lastActivityTime now s)
  /\ displaySleepMode (handleButtons up down now s) = false.
Proof.
  intros Hs Hp. unfold handleButtons.
  assert (Hpressed : Bool.eqb up LOW || Bool.eqb down LOW = true)
    by (destruct Hp; subst; cbn; auto using orb_true_r).
  rewrite Hpressed. destruct s; cbn in *; subst. cbn. now split.
Qed.

(** A poll that finds the display awake, both buttons held since before and
    both hold times inside the sleep window, enters sleep. *)
Lemma held_poll_sleeps (now : Z) (s : State) :
  displaySleepMode s = false ->
  lastUpState s = LOW -> lastDownState s = LOW ->
  sleep_hold LOW LOW now s = true ->
  displaySleepMode (handleButtons LOW LOW now s) = true.
Proof.
  intros Hs Hu Hd Hw. destruct s; cbn in *; subst.
  unfold handleButtons, up_edge, up_long_press, down_edge, down_long_press,
    dual_hold; cbn.
  repeat match goal with
         | |- context [if ?b then _ else _] => destruct b eqn:?; cbn
         end;
    unfold sleep_hold in *; cbn in *; congruence.
Qed.

(** *** Single-button long press *)

Arguments up_edge : simpl never.
Arguments up_long_press : simpl never.
Arguments down_edge : simpl never.
Arguments down_long_press : simpl never.
Arguments dual_hold : simpl never.
Arguments usub : simpl never.

Lemma usub_diag (t : Z) : usub t t = 0.
Proof. unfold usub. now rewrite Z.sub_diag. Qed.

Ltac split_inv := repeat match goal with |- _ /\ _ => split end.

(** A poll of an awake device runs the five blocks of [handleButtons] in
    order. *)
Lemma handleButtons_awake (up down : bool) (now : Z) (s : State) :
  displaySleepMode s = false ->
  handleButtons up down now s
  = dual_hold up down now
      (down_long_press down now
         (down_edge down now
            (up_long_press up now
               (up_edge up now
                  (if Bool.eqb up LOW || Bool.eqb down LOW
                   then set_lastActivityTime now s else s))))).
Proof.
  intros Hs. unfold handleButtons. destruct s; cbn in *; subst.
  now destruct (Bool.eqb up LOW || Bool.eqb down LOW).
Qed.

Lemma up_edge_idle (c : bool) (now : Z) (s : State) :
  lastUpState s = c -> up_edge c now s = s.
Proof. intros <-. unfold up_edge. now rewrite eqb_reflx. Qed.

Lemma down_edge_idle (c : bool) (now : Z) (s : State) :
  lastDownState s = c -> down_edge c now s = s.
Proof. intros <-. unfold down_edge. now rewrite eqb_reflx. Qed.

Lemma up_edge_press (now : Z) (s : State) :
  lastUpState s = HIGH ->
  up_edge LOW now s
  = set_lastUpState LOW (set_longPressHandled false (set_upButtonStart now s)).
Proof. intros H. unfold up_edge. now rewrite H. Qed.

Lemma down_edge_press (now : Z) (s : State) :
  lastDownState s = HIGH ->
  down_edge LOW now s
  = set_lastDownState LOW
      (set_longPressHandled false (set_downButtonStart now s)).
Proof. intros H. unfold down_edge. now rewrite H. Qed.



Lemma up_long_press_released (now : Z) (s : State) :
  up_long_press HIGH now s = s.
Proof. reflexivity. Qed.

Lemma down_long_press_released (now : Z) (s : State) :
  down_long_press HIGH now s = s.
Proof. reflexivity. Qed.

Lemma dual_hold_single (up down : bool) (now : Z) (s : State) :
  up = HIGH \/ down = HIGH -> dual_hold up down now s = s.
Proof.
  intros [-> | ->]; unfold dual_hold, sleep_hold, reset_hold; cbn;
    rewrite ?andb_false_r; reflexivity.
Qed.
















(** *** The reset at 5000 ms *)

Lemma for_upto_succ (n : nat) (body : Z -> State -> State) (s : State) :
  for_upto (Z.of_nat (S n)) body s
  = body (Z.of_nat n) (for_upto (Z.of_nat n) body s).
Proof.
  unfold for_upto. rewrite !Nat2Z.id, seq_S, fold_left_app. reflexivity.
Qed.

(** Writing zero to [len] consecutive cells from [start] leaves zero in
    each of them and keeps every other cell. *)
Lemma erase_cells (start : Z) (len : nat) (s : State) :
  0 <= start ->
  let s' := for_upto (Z.of_nat len)
              (fun i => EEPROM_write (start + i) x00) s in
  (forall j : nat,
     nth j (eeprom s') x00
     = if (Z.to_nat start <=? j)%nat && (j <? Z.to_nat start + len)%nat
       then x00 else nth j (eeprom s) x00)
  /\ trace s' = trace s /\ restarted s' = restarted s.
Proof.
  intros Hstart. induction len as [|len IH]; cbn zeta.
  - split; [|split; reflexivity]. intros j.
    replace (j <? Z.to_nat start + 0)%nat with (j <? Z.to_nat start)%nat
      by (f_equal; lia).
    destruct (Nat.leb_spec (Z.to_nat start) j), (Nat.ltb_spec j (Z.to_nat start));
      cbn; try reflexivity; lia.
  - rewrite for_upto_succ. cbn zeta in IH.
    set (s1 := for_upto (Z.of_nat len) _ s) in *.
    destruct IH as (Hcells & Htr & Hre). unfold EEPROM_write.
    split; [|split; destruct s1; assumption].
    intros j.
    replace (eeprom (set_eeprom (<[Z.to_nat (start + Z.of_nat len) := x00]>
                                   (eeprom s1)) s1))
      with (<[Z.to_nat (start + Z.of_nat len) := x00]> (eeprom s1))
      by now destruct s1.
    replace (Z.to_nat (start + Z.of_nat len)) with (Z.to_nat start + len)%nat
      by lia.
    rewrite !nth_lookup.
    destruct (Nat.eq_dec j (Z.to_nat start + len)%nat) as [->|Hne].
    + replace ((Z.to_nat start <=? Z.to_nat start + len)%nat
               && (Z.to_nat start + len <? Z.to_nat start + S len)%nat)
        with true
        by (symmetry; apply andb_true_iff; split;
            [apply Nat.leb_le | apply Nat.ltb_lt]; lia).
      destruct (Nat.lt_ge_cases (Z.to_nat start + len)%nat (List.length (eeprom s1))).
      * now rewrite list_lookup_insert_eq.
      * rewrite list_insert_ge by assumption.
        now rewrite lookup_ge_None_2 by assumption.
    + rewrite list_lookup_insert_ne by congruence.
      rewrite <- nth_lookup, Hcells.
      replace (j <? Z.to_nat start + S len)%nat
        with (j <? Z.to_nat start + len)%nat; [now rewrite nth_lookup|].
      destruct (Nat.ltb_spec j (Z.to_nat start + len)%nat),
               (Nat.ltb_spec j (Z.to_nat start + S len)%nat); try reflexivity; lia.
Qed.

(** A field whose cells are all zero loads as the empty string. *)
Lemma load_field_erased (start len : Z) (s : State) :
  (forall i : nat, (i < Z.to_nat len)%nat ->
     EEPROM_read (start + Z.of_nat i) s = x00) ->
  load_field start len s = EmptyString.
Proof.
  unfold load_field. generalize (Z.to_nat len). intros n Hz.
  induction n as [|n IH]; [reflexivity|].
  rewrite seq_S, fold_left_app, IH by (intros i Hi; apply Hz; lia).
  cbn [fold_left Nat.add]. now rewrite Hz by lia.
Qed.

(** [saveWiFiCredentials] with two empty strings erases both identity
    fields. *)
Lemma saveWiFiCredentials_erases (s : State) :
  let s' := saveWiFiCredentials EmptyString EmptyString s in
  load_field SSID_START SSID_MAX_LENGTH s' = EmptyString
  /\ load_field PASS_START PASS_MAX_LENGTH s' = EmptyString
  /\ trace s' = trace s ++ [EepromCommit]
  /\ restarted s' = restarted s.
Proof.
  unfold saveWiFiCredentials.
  assert (Hbody : forall start,
            (fun i => EEPROM_write (start + i) (char_or_zero EmptyString i))
            = (fun i => EEPROM_write (start + i) x00)) by reflexivity.
  rewrite !Hbody.
  destruct (erase_cells SSID_START 32 s) as (C1 & T1 & R1);
    [unfold SSID_START; lia|].
  change (Z.of_nat 32) with SSID_MAX_LENGTH in *.
  set (s1 := for_upto SSID_MAX_LENGTH _ s) in *. clearbody s1.
  destruct (erase_cells PASS_START 64 s1) as (C2 & T2 & R2);
    [unfold PASS_START; lia|].
  change (Z.of_nat 64) with PASS_MAX_LENGTH in *.
  set (s2 := for_upto PASS_MAX_LENGTH _ s1) in *. clearbody s2.
  cbn zeta.
  assert (Hcell : forall j : nat, (j < 96)%nat ->
            nth j (eeprom (emit EepromCommit s2)) x00 = x00).
  { intros j Hj.
    replace (eeprom (emit EepromCommit s2)) with (eeprom s2) by now destruct s2.
    rewrite C2, C1.
    change (Z.to_nat PASS_START) with 32%nat.
    change (Z.to_nat SSID_START) with 0%nat.
    destruct (Nat.leb_spec 32%nat j), (Nat.ltb_spec j (32 + 64)%nat),
             (Nat.leb_spec 0%nat j), (Nat.ltb_spec j (0 + 32)%nat);
      cbn; try reflexivity; lia. }
  split; [|split; [|split]].
  - apply load_field_erased. intros i Hi. unfold EEPROM_read.
    apply Hcell. change (Z.to_nat SSID_MAX_LENGTH) with 32%nat in Hi.
    unfold SSID_START. lia.
  - apply load_field_erased. intros i Hi. unfold EEPROM_read.
    apply Hcell. change (Z.to_nat PASS_MAX_LENGTH) with 64%nat in Hi.
    unfold PASS_START. lia.
  - rewrite <- T1, <- T2. now destruct s2.
  - rewrite <- R1, <- R2. now destruct s2.
Qed.

Lemma long_press_checks_frame (up down : bool) (now : Z) (s : State) :
  let s' := down_long_press down now (up_long_press up now s) in
  upButtonStart s' = upButtonStart s
  /\ downButtonStart s' = downButtonStart s
  /\ lastUpState s' = lastUpState s
  /\ lastDownState s' = lastDownState s
  /\ displaySleepMode s' = displaySleepMode s.
Proof.
  unfold down_long_press, up_long_press, saveFreezeGuardState, EEPROM_write.
  destruct s; cbn.
  repeat match goal with
         | |- context [if ?b then _ else _] => destruct b; cbn
         end; repeat split.
Qed.

(** The second half of C4: a poll that finds the display awake and both
    buttons held for at least 5000 ms erases the persisted identity and
    restarts the device. *)
Lemma dual_hold_resets (now : Z) (s : State) :
  displaySleepMode s = false ->
  lastUpState s = LOW -> lastDownState s = LOW ->
  WIFI_RESET_MS <= usub now (upButtonStart s) ->
  WIFI_RESET_MS <= usub now (downButtonStart s) ->
  let s' := handleButtons LOW LOW now s in
  restarted s' = true
  /\ load_field SSID_START SSID_MAX_LENGTH s' = EmptyString
  /\ load_field PASS_START PASS_MAX_LENGTH s' = EmptyString
  /\ exists tr, trace s' = tr ++ [Delay 1000; EepromCommit; Restart].
Proof.
  intros Hs Hu Hd Hup Hdown s'. unfold s'.
  rewrite handleButtons_awake by assumption.
  change (Bool.eqb LOW LOW || Bool.eqb LOW LOW) with true. cbn iota.
  set (s1 := set_lastActivityTime now s).
  assert (K1 : upButtonStart s1 = upButtonStart s
               /\ downButtonStart s1 = downButtonStart s
               /\ lastUpState s1 = LOW /\ lastDownState s1 = LOW)
    by (unfold s1; destruct s; now cbn in *).
  destruct K1 as (A1 & B1 & U1 & D1). clearbody s1.
  rewrite up_edge_idle by assumption.
  destruct (long_press_checks_frame LOW LOW now s1) as (A2 & B2 & U2 & D2 & _).
  cbn zeta in A2, B2, U2, D2.
  assert (D3 : lastDownState (up_long_press LOW now s1) = LOW).
  { unfold up_long_press. destruct s1; cbn in *.
    repeat match goal with
           | |- context [if ?b then _ else _] => destruct b; cbn
           end; assumption. }
  rewrite down_edge_idle in * by assumption.
  set (s4 := down_long_press LOW now _) in *. clearbody s4.
  unfold dual_hold, sleep_hold, reset_hold. rewrite A2, B2, A1, B1.
  rewrite (proj2 (Z.ltb_ge _ _) Hup).
  rewrite (proj2 (Z.leb_le _ _) Hup), (proj2 (Z.leb_le _ _) Hdown).
  rewrite !andb_false_r. cbn [Bool.eqb LOW andb].
  unfold wifi_reset, ESP_restart.
  set (s5 := delay 1000 _).
  destruct (saveWiFiCredentials_erases s5) as (E1 & E2 & Tr & _).
  cbn zeta in E1, E2, Tr.
  set (s6 := saveWiFiCredentials _ _ s5) in *. clearbody s6.
  split; [now destruct s6|].
  assert (He : eeprom (set_restarted true (emit Restart s6)) = eeprom s6)
    by now destruct s6.
  rewrite !(load_field_ext _ _ _ _ He).
  split; [exact E1|]. split; [exact E2|].
  exists (trace (announce MsgReset now s4)).
  replace (trace (set_restarted true (emit Restart s6)))
    with (trace s6 ++ [Restart]) by now destruct s6.
  rewrite Tr. unfold s5. destruct s4; cbn. now rewrite <- !app_assoc.
Qed.

(** *** Target adjustment by button under FreezeGuard *)

Lemma for_upto_keeps {A : Type} (proj : State -> A) (n : Z)
    (body : Z -> State -> State) (s : State) :
  (forall i st, proj (body i st) = proj st) ->
  proj (for_upto n body s) = proj s.
Proof.
  intros Hbody. unfold for_upto. generalize (seq 0 (Z.to_nat n)).
  intros l. revert s. induction l as [|i l IH]; intros s; [reflexivity|].
  cbn [fold_left]. now rewrite IH, Hbody.
Qed.

Lemma saveWiFiCredentials_keeps_target (ssid password : string) (s : State) :
  targetTemp (saveWiFiCredentials ssid password s) = targetTemp s.
Proof.
  unfold saveWiFiCredentials.
  set (s1 := for_upto SSID_MAX_LENGTH _ s).
  set (s2 := for_upto PASS_MAX_LENGTH _ s1).
  assert (H1 : targetTemp s1 = targetTemp s)
    by (apply for_upto_keeps; intros i st; now destruct st).
  assert (H2 : targetTemp s2 = targetTemp s1)
    by (apply for_upto_keeps; intros i st; now destruct st).
  rewrite <- H1, <- H2. now destruct s2.
Qed.

Lemma up_edge_guard (c : bool) (now : Z) (s : State) :
  freezeGuardEnabled s = true ->
  targetTemp (up_edge c now s) = targetTemp s
  /\ freezeGuardEnabled (up_edge c now s) = true.
Proof.
  intros Hg. unfold up_edge. destruct s; cbn in *; subst; cbn.
  repeat match goal with |- context [if ?b then _ else _] => destruct b end;
    now cbn.
Qed.

Lemma up_long_press_guard (c : bool) (now : Z) (s : State) :
  freezeGuardEnabled s = true ->
  targetTemp (up_long_press c now s) = targetTemp s
  /\ freezeGuardEnabled (up_long_press c now s) = true.
Proof.
  intros Hg. unfold up_long_press. destruct s; cbn in *; subst; cbn.
  repeat match goal with |- context [if ?b then _ else _] => destruct b end;
    now cbn.
Qed.

Lemma down_edge_guard (c : bool) (now : Z) (s : State) :
  freezeGuardEnabled s = true ->
  targetTemp (down_edge c now s) = targetTemp s
  /\ freezeGuardEnabled (down_edge c now s) = true.
Proof.
  intros Hg. unfold down_edge. destruct s; cbn in *; subst; cbn.
  repeat match goal with |- context [if ?b then _ else _] => destruct b end;
    now cbn.
Qed.

Lemma down_long_press_keeps_target (c : bool) (now : Z) (s : State) :
  targetTemp (down_long_press c now s) = targetTemp s.
Proof.
  unfold down_long_press, saveFreezeGuardState, EEPROM_write.
  destruct s; cbn.
  repeat match goal with |- context [if ?b then _ else _] => destruct b end;
    now cbn.
Qed.

Lemma dual_hold_keeps_target (up down : bool) (now : Z) (s : State) :
  targetTemp (dual_hold up down now s) = targetTemp s.
Proof.
  unfold dual_hold.
  destruct (sleep_hold up down now s); [now destruct s|].
  destruct (reset_hold up down now s); [|reflexivity].
  unfold wifi_reset, ESP_restart.
  set (s1 := delay 1000 _).
  assert (H1 : targetTemp s1 = targetTemp s) by now destruct s.
  rewrite <- H1, <- (saveWiFiCredentials_keeps_target EmptyString EmptyString s1).
  now destruct (saveWiFiCredentials _ _ s1).
Qed.

(** While FreezeGuard is on, no poll of the buttons changes the target:
    both short-press branches are skipped. *)
Lemma buttons_keep_target_under_guard (up down : bool) (now : Z) (s : State) :
  freezeGuardEnabled s = true ->
  targetTemp (handleButtons up down now s) = targetTemp s.
Proof.
  intros Hg. destruct (displaySleepMode s) eqn:Hs.
  - unfold handleButtons, wake. destruct s; cbn in *; subst.
    now destruct (Bool.eqb up LOW || Bool.eqb down LOW).
  - rewrite handleButtons_awake by assumption.
    set (s1 := if Bool.eqb up LOW || Bool.eqb down LOW then _ else s).
    assert (H1 : targetTemp s1 = targetTemp s /\ freezeGuardEnabled s1 = true).
    { unfold s1. destruct (Bool.eqb up LOW || Bool.eqb down LOW);
        destruct s; now cbn in *. }
    destruct H1 as (T1 & G1).
    destruct (up_edge_guard up now s1 G1) as (T2 & G2).
    destruct (up_long_press_guard up now _ G2) as (T3 & G3).
    destruct (down_edge_guard down now _ G3) as (T4 & G4).
    rewrite dual_hold_keeps_target, down_long_press_keeps_target.
    congruence.
Qed.
(** * Further properties of the sketch *)

(** ** The persisted configuration *)

Lemma EEPROM_write_set_eeprom (a : Z) (b : byte) (rom : list byte) (s : State) :
  EEPROM_write a b (set_eeprom rom s)
  = set_eeprom (<[Z.to_nat a := b]> rom) s.
Proof. now destruct s. Qed.

(** A loop of [EEPROM.write] calls over [len] consecutive cells changes the
    EEPROM image only, keeps its size, and leaves [f i] in cell [start + i]
    wherever that cell exists. *)
Lemma write_cells (start : Z) (f : Z -> byte) (len : nat) (s : State) :
  0 <= start ->
  let s' := for_upto (Z.of_nat len)
              (fun i => EEPROM_write (start + i) (f i)) s in
  (forall j : nat,
     nth j (eeprom s') x00
     = if (Z.to_nat start <=? j)%nat && (j <? Z.to_nat start + len)%nat
          && (j <? List.length (eeprom s))%nat
       then f (Z.of_nat j - start) else nth j (eeprom s) x00)
  /\ List.length (eeprom s') = List.length (eeprom s)
  /\ s' = set_eeprom (eeprom s') s.
Proof.
  intros Hstart. induction len as [|len IH]; cbn zeta.
  - split; [|split; [reflexivity | now destruct s]]. intros j.
    replace (j <? Z.to_nat start + 0)%nat with (j <? Z.to_nat start)%nat
      by (f_equal; lia).
    destruct (Nat.leb_spec (Z.to_nat start) j), (Nat.ltb_spec j (Z.to_nat start));
      cbn; try reflexivity; lia.
  - rewrite for_upto_succ. cbn zeta in IH.
    set (s1 := for_upto (Z.of_nat len) _ s) in *.
    destruct IH as (Hcells & Hlen & Hframe).
    rewrite Hframe, EEPROM_write_set_eeprom.
    set (rom1 := eeprom s1) in *. clearbody rom1. clear Hframe. clearbody s1.
    replace (eeprom (set_eeprom (<[Z.to_nat (start + Z.of_nat len) := f (Z.of_nat len)]> rom1) s))
      with (<[Z.to_nat (start + Z.of_nat len) := f (Z.of_nat len)]> rom1)
      by now destruct s.
    split; [|split; [now rewrite length_insert | reflexivity]].
    intros j.
    replace (Z.to_nat (start + Z.of_nat len)) with (Z.to_nat start + len)%nat
      by lia.
    rewrite nth_lookup.
    destruct (Nat.eq_dec j (Z.to_nat start + len)%nat) as [->|Hne].
    + replace ((Z.to_nat start <=? Z.to_nat start + len)%nat
               && (Z.to_nat start + len <? Z.to_nat start + S len)%nat)
        with true
        by (symmetry; apply andb_true_iff; split;
            [apply Nat.leb_le | apply Nat.ltb_lt]; lia).
      cbn [andb]. rewrite <- Hlen.
      destruct (Nat.ltb_spec (Z.to_nat start + len)%nat (List.length rom1)).
      * rewrite list_lookup_insert_eq by assumption. cbn. f_equal. lia.
      * rewrite list_insert_ge by assumption.
        rewrite lookup_ge_None_2 by assumption. cbn.
        rewrite nth_overflow; [reflexivity | lia].
    + rewrite list_lookup_insert_ne by congruence.
      rewrite <- nth_lookup, Hcells.
      replace (j <? Z.to_nat start + S len)%nat
        with (j <? Z.to_nat start + len)%nat; [reflexivity|].
      destruct (Nat.ltb_spec j (Z.to_nat start + len)%nat),
               (Nat.ltb_spec j (Z.to_nat start + S len)%nat); try reflexivity; lia.
Qed.

(** [saveWiFiCredentials] cell by cell: the name in cells 0..31, the
    password in cells 32..95, each padded with zeros; nothing else changes
    but the commit. *)
Lemma saveWiFiCredentials_cells (ssid password : string) (s : State) :
  let s' := saveWiFiCredentials ssid password s in
  (forall j : nat,
     nth j (eeprom s') x00
     = if (j <? List.length (eeprom s))%nat then
         if (j <? 32)%nat then char_or_zero ssid (Z.of_nat j)
         else if (j <? 96)%nat then char_or_zero password (Z.of_nat j - 32)
         else nth j (eeprom s) x00
       else x00)
  /\ List.length (eeprom s') = List.length (eeprom s)
  /\ s' = emit EepromCommit (set_eeprom (eeprom s') s).
Proof.
  unfold saveWiFiCredentials.
  destruct (write_cells SSID_START (char_or_zero ssid) 32 s) as (C1 & L1 & F1);
    [unfold SSID_START; lia|].
  change (Z.of_nat 32) with SSID_MAX_LENGTH in *.
  set (s1 := for_upto SSID_MAX_LENGTH _ s) in *. clearbody s1.
  destruct (write_cells PASS_START (char_or_zero password) 64 s1)
    as (C2 & L2 & F2); [unfold PASS_START; lia|].
  change (Z.of_nat 64) with PASS_MAX_LENGTH in *.
  set (s2 := for_upto PASS_MAX_LENGTH _ s1) in *. clearbody s2.
  cbn zeta.
  replace (eeprom (emit EepromCommit s2)) with (eeprom s2) by now destruct s2.
  split; [|split].
  - intros j. rewrite C2, C1, L1.
    change (Z.to_nat PASS_START) with 32%nat.
    change (Z.to_nat SSID_START) with 0%nat.
    unfold PASS_START, SSID_START.
    destruct (Nat.ltb_spec j (List.length (eeprom s))) as [Hin|Hout].
    + destruct (Nat.leb_spec 32%nat j), (Nat.ltb_spec j (32 + 64)%nat),
               (Nat.leb_spec 0%nat j), (Nat.ltb_spec j (0 + 32)%nat),
               (Nat.ltb_spec j 32%nat), (Nat.ltb_spec j 96%nat);
        cbn; try reflexivity; try lia.
      f_equal. lia.
    + rewrite !andb_false_r. apply nth_overflow. lia.
  - congruence.
  - rewrite F2, F1. destruct s; cbn. reflexivity.
Qed.

Lemma substring_snoc (n : nat) (str : string) :
  substring 0 (S n) str
  = (substring 0 n str
     ++ match String.get n str with
        | Some c => String c EmptyString
        | None => EmptyString
        end)%string.
Proof.
  revert str. induction n as [|n IH]; intros [|c rest]; try reflexivity.
  - cbn. now destruct rest.
  - change (substring 0 (S (S n)) (String c rest))
      with (String c (substring 0 (S n) rest)).
    rewrite IH. reflexivity.
Qed.

Lemma substring_whole (n : nat) (str : string) :
  (String.length str <= n)%nat -> substring 0 n str = str.
Proof.
  revert n. induction str as [|c rest IH]; intros [|n] Hn; cbn in *;
    try reflexivity; try lia.
  f_equal. apply IH. lia.
Qed.

Lemma append_empty_r (str : string) : (str ++ EmptyString)%string = str.
Proof. induction str as [|c rest IH]; cbn; congruence. Qed.

Lemma nul_free_get (str : string) (n : nat) (c : ascii) :
  nul_free str = true -> String.get n str = Some c ->
  Byte.eqb (byte_of_ascii c) x00 = false.
Proof.
  revert n. induction str as [|a rest IH]; intros n Hf Hg; [discriminate|].
  cbn in Hf. apply andb_true_iff in Hf as (Ha & Hrest).
  destruct n as [|n]; cbn in Hg.
  - inversion Hg; subst.
    destruct (Byte.eqb (byte_of_ascii c) x00) eqn:E; [|reflexivity].
    apply Byte.byte_dec_bl in E.
    apply (f_equal ascii_of_byte) in E.
    rewrite ascii_of_byte_of_ascii in E. subst c. discriminate.
  - now apply (IH n).
Qed.

(** Reading back a field whose cells hold a NUL-free string padded with
    zeros gives the part of the string that fits into the field. *)
Lemma load_field_written (start len : Z) (str : string) (s : State) :
  nul_free str = true ->
  (forall i : nat, (i < Z.to_nat len)%nat ->
     EEPROM_read (start + Z.of_nat i) s = char_or_zero str (Z.of_nat i)) ->
  load_field start len s = substring 0 (Z.to_nat len) str.
Proof.
  intros Hf. unfold load_field. generalize (Z.to_nat len). intros n Hc.
  induction n as [|n IH]; [now destruct str|].
  rewrite seq_S, fold_left_app, IH by (intros i Hi; apply Hc; lia).
  cbn [fold_left Nat.add]. rewrite Hc by lia.
  rewrite substring_snoc. unfold char_or_zero. rewrite Nat2Z.id.
  destruct (String.get n str) as [c|] eqn:Hg.
  - rewrite (nul_free_get str n c Hf Hg), ascii_of_byte_of_ascii. reflexivity.
  - cbn. now rewrite append_empty_r.
Qed.

Lemma loadWiFiCredentials_fields (s : State) :
  storedSSID (loadWiFiCredentials s)
  = load_field SSID_START SSID_MAX_LENGTH s
  /\ storedPassword (loadWiFiCredentials s)
     = load_field PASS_START PASS_MAX_LENGTH s.
Proof.
  unfold loadWiFiCredentials. split.
  - now destruct s.
  - transitivity (load_field PASS_START PASS_MAX_LENGTH
                    (set_storedSSID (load_field SSID_START SSID_MAX_LENGTH s) s)).
    + now destruct s.
    + apply load_field_ext. now destruct s.
Qed.

(** The two identity fields after [saveWiFiCredentials], read back by the
    loops of [loadWiFiCredentials]. *)
Lemma saved_fields (ssid password : string) (s : State) :
  (96 <= List.length (eeprom s))%nat ->
  nul_free ssid = true -> nul_free password = true ->
  let s' := saveWiFiCredentials ssid password s in
  load_field SSID_START SSID_MAX_LENGTH s' = substring 0 32 ssid
  /\ load_field PASS_START PASS_MAX_LENGTH s' = substring 0 64 password.
Proof.
  intros Hlen Hs Hp s'.
  destruct (saveWiFiCredentials_cells ssid password s) as (Hc & _ & _).
  fold s' in Hc. split.
  - apply (load_field_written SSID_START SSID_MAX_LENGTH ssid s' Hs).
    intros i Hi. change (Z.to_nat SSID_MAX_LENGTH) with 32%nat in Hi.
    unfold EEPROM_read, SSID_START. rewrite Z.add_0_l, Nat2Z.id, Hc.
    destruct (Nat.ltb_spec i (List.length (eeprom s))); [|lia].
    destruct (Nat.ltb_spec i 32); [reflexivity | lia].
  - apply (load_field_written PASS_START PASS_MAX_LENGTH password s' Hp).
    intros i Hi. change (Z.to_nat PASS_MAX_LENGTH) with 64%nat in Hi.
    unfold EEPROM_read, PASS_START.
    replace (Z.to_nat (32 + Z.of_nat i)) with (32 + i)%nat by lia.
    rewrite Hc.
    destruct (Nat.ltb_spec (32 + i) (List.length (eeprom s))); [|lia].
    destruct (Nat.ltb_spec (32 + i) 32); [lia|].
    destruct (Nat.ltb_spec (32 + i) 96); [|lia].
    f_equal. lia.
Qed.

(** X1.  Saving an identity and loading it again returns the first 32
    characters of the name and the first 64 of the password, hence the
    identity itself when it fits; a longer one is cut without notice.  The
    EEPROM region has at least the 96 cells of the two fields and the
    strings hold no NUL. *)
Theorem credentials_round_trip (ssid password : string) (s : State) :
  (96 <= List.length (eeprom s))%nat ->
  nul_free ssid = true -> nul_free password = true ->
  let s' := loadWiFiCredentials (saveWiFiCredentials ssid password s) in
  storedSSID s' = substring 0 32 ssid
  /\ storedPassword s' = substring 0 64 password
  /\ ((String.length ssid <= 32)%nat -> storedSSID s' = ssid)
  /\ ((String.length password <= 64)%nat -> storedPassword s' = password).
Proof.
  intros Hlen Hs Hp s'.
  destruct (loadWiFiCredentials_fields (saveWiFiCredentials ssid password s))
    as (E1 & E2).
  destruct (saved_fields ssid password s Hlen Hs Hp) as (F1 & F2).
  fold s' in E1, E2. rewrite F1 in E1. rewrite F2 in E2.
  split; [exact E1 | split; [exact E2 | split]].
  - intros H. rewrite E1. now apply substring_whole.
  - intros H. rewrite E2. now apply substring_whole.
Qed.

Lemma credentials_round_trip_witness :
  let s' := loadWiFiCredentials
              (saveWiFiCredentials "home" "secret123"
                 (initial_state (replicate 512 x00))) in
  storedSSID s' = "home"%string /\ storedPassword s' = "secret123"%string.
Proof.
  destruct (credentials_round_trip "home" "secret123"
              (initial_state (replicate 512 x00)))
    as (_ & _ & H1 & H2).
  - apply Nat.leb_le. reflexivity.
  - reflexivity.
  - reflexivity.
  - split; [apply H1 | apply H2]; cbn; lia.
Defined.

(** A field read depends on the cells of the field only. *)
Lemma load_field_cells (start len : Z) (s s' : State) :
  (forall i : nat, (i < Z.to_nat len)%nat ->
     EEPROM_read (start + Z.of_nat i) s' = EEPROM_read (start + Z.of_nat i) s) ->
  load_field start len s' = load_field start len s.
Proof.
  unfold load_field. generalize (Z.to_nat len). intros n Hc.
  induction n as [|n IH]; [reflexivity|].
  rewrite !seq_S, !fold_left_app, IH by (intros i Hi; apply Hc; lia).
  cbn [fold_left Nat.add]. now rewrite Hc by lia.
Qed.

Lemma saveWiFiCredentials_keeps_guard_cell (ssid password : string) (s : State) :
  EEPROM_read FREEZE_GUARD_ADDR (saveWiFiCredentials ssid password s)
  = EEPROM_read FREEZE_GUARD_ADDR s.
Proof.
  destruct (saveWiFiCredentials_cells ssid password s) as (Hc & _ & _).
  unfold EEPROM_read. change (Z.to_nat FREEZE_GUARD_ADDR) with 96%nat.
  rewrite Hc.
  destruct (Nat.ltb_spec 96 (List.length (eeprom s))); [reflexivity|].
  symmetry. apply nth_overflow. lia.
Qed.

Lemma saveFreezeGuardState_cells (enabled : bool) (s : State) (j : nat) :
  j <> 96%nat ->
  nth j (eeprom (saveFreezeGuardState enabled s)) x00 = nth j (eeprom s) x00.
Proof.
  intros Hj. unfold saveFreezeGuardState, EEPROM_write.
  change (Z.to_nat FREEZE_GUARD_ADDR) with 96%nat.
  replace (eeprom (emit EepromCommit (set_eeprom _ s)))
    with (<[96%nat := if enabled then x01 else x00]> (eeprom s))
    by now destruct s.
  rewrite !nth_lookup. now rewrite list_lookup_insert_ne by congruence.
Qed.

Lemma saveFreezeGuardState_keeps_field (enabled : bool) (start len : Z)
    (s : State) :
  0 <= start -> start + len <= 96 ->
  load_field start len (saveFreezeGuardState enabled s) = load_field start len s.
Proof.
  intros H0 H1. apply load_field_cells. intros i Hi.
  unfold EEPROM_read. apply saveFreezeGuardState_cells. lia.
Qed.

(** X2.  The persisted fields do not overlap.  Saving an identity, of any
    length, leaves the FreezeGuard flag that the next boot loads as it was;
    saving the FreezeGuard flag leaves both identity fields as they were. *)
Theorem persisted_fields_are_disjoint (ssid password : string)
    (enabled : bool) (s : State) :
  freezeGuardEnabled (loadFreezeGuardState (saveWiFiCredentials ssid password s))
  = freezeGuardEnabled (loadFreezeGuardState s)
  /\ load_field SSID_START SSID_MAX_LENGTH (saveFreezeGuardState enabled s)
     = load_field SSID_START SSID_MAX_LENGTH s
  /\ load_field PASS_START PASS_MAX_LENGTH (saveFreezeGuardState enabled s)
     = load_field PASS_START PASS_MAX_LENGTH s.
Proof.
  split; [|split].
  - unfold loadFreezeGuardState.
    transitivity (Byte.eqb (EEPROM_read FREEZE_GUARD_ADDR
                              (saveWiFiCredentials ssid password s)) x01).
    + now destruct (saveWiFiCredentials ssid password s).
    + rewrite saveWiFiCredentials_keeps_guard_cell. now destruct s.
  - apply saveFreezeGuardState_keeps_field; unfold SSID_START, SSID_MAX_LENGTH; lia.
  - apply saveFreezeGuardState_keeps_field; unfold PASS_START, PASS_MAX_LENGTH; lia.
Qed.

(** ** Boot *)

Lemma wifi_wait_frame (env : BootEnv) (left : nat) :
  forall (a : nat) (s : State) (a' : nat) (s' : State),
  wifi_wait env left a s = (a', s') -> s' = set_trace (trace s') s.
Proof.
  induction left as [|left IH]; intros a s a' s' Hw; cbn [wifi_wait] in Hw.
  - destruct (wifi_connected env a); inversion Hw; now destruct s'.
  - destruct (wifi_connected env a).
    + inversion Hw. now destruct s'.
    + apply IH in Hw. rewrite Hw. now destruct s.
Qed.

(** What [setup()] leaves in the globals.  With a display that does not
    start it returns before anything is loaded; otherwise it has loaded the
    persisted configuration and entered one of the two modes. *)
Lemma setup_shape (env : BootEnv) (rom : list byte) (s : State) :
  setup env rom = Some s ->
  (display_begin env = false /\ s = initial_state rom)
  \/ (display_begin env = true
      /\ exists (tr : list Effect) (m : bool),
           s = set_trace tr
                 (set_isAP m
                    (set_setupMode m
                       (set_storedPassword
                          (load_field PASS_START PASS_MAX_LENGTH (initial_state rom))
                          (set_storedSSID
                             (load_field SSID_START SSID_MAX_LENGTH (initial_state rom))
                             (set_freezeGuardEnabled
                                (Byte.eqb (nth 96 rom x00) x01)
                                (initial_state rom))))))).
Proof.
  unfold setup.
  destruct (negb (bme_at_76 env) && negb (bme_at_77 env)); [discriminate|].
  destruct (display_begin env); cbn [negb].
  2: { intros H. inversion H. now left. }
  intros H. right. split; [reflexivity|].
  set (core := set_storedPassword _ _).
  set (s3 := loadWiFiCredentials _) in H.
  assert (H3 : s3 = set_trace [DigitalWrite HEATER_PIN LOW] core).
  { unfold s3, core, loadWiFiCredentials, loadFreezeGuardState, EEPROM_read.
    rewrite (load_field_ext SSID_START SSID_MAX_LENGTH _ (initial_state rom))
      by reflexivity.
    rewrite (load_field_ext PASS_START PASS_MAX_LENGTH _ (initial_state rom))
      by reflexivity.
    generalize (load_field SSID_START SSID_MAX_LENGTH (initial_state rom)).
    generalize (load_field PASS_START PASS_MAX_LENGTH (initial_state rom)).
    change (nth (Z.to_nat FREEZE_GUARD_ADDR)
              (eeprom (digitalWrite HEATER_PIN LOW (initial_state rom))) x00)
      with (nth 96 rom x00).
    generalize (Byte.eqb (nth 96 rom x00) x01).
    intros fg pw ssid. reflexivity. }
  clearbody s3 core.
  assert (Henter : forall t, enterSetupMode env (set_trace t core)
                    = set_trace (trace (enterSetupMode env (set_trace t core)))
                        (set_isAP true (set_setupMode true core))).
  { intros t. unfold enterSetupMode. destruct core, (softAP_ok env); reflexivity. }
  destruct (Z.of_nat (String.length (storedSSID s3)) <? 2).
  - inversion H. subst s3. eexists _, true. apply Henter.
  - destruct (wifi_wait env 30 0 _) as [attempts s4] eqn:Hw.
    apply wifi_wait_frame in Hw.
    assert (H4 : s4 = set_trace (trace s4) core).
    { rewrite Hw, H3. now destruct core. }
    clear Hw. destruct (wifi_connected env (S attempts)); inversion H.
    + exists (trace (setupNormalMode s4)), false.
      rewrite H4. now destruct core.
    + rewrite H4. eexists _, true. apply Henter.
Qed.

(** The globals after [setup()], whatever the hardware answered. *)
Lemma setup_state (env : BootEnv) (rom : list byte) (s : State) :
  setup env rom = Some s ->
  eeprom s = rom /\ restarted s = false
  /\ targetTemp s = F32.of_Z 72
  /\ heaterEnabled s = false /\ heaterPin s = LOW
  /\ currentTemp s = F32.zero
  /\ tempReadings s = replicate 10 F32.zero
  /\ humReadings s = replicate 10 F32.zero
  /\ readIndex s = 0 /\ sensorInit s = true /\ lastRead s = 0
  /\ displaySleepMode s = false
  /\ isAP s = setupMode s
  /\ (display_begin env = true ->
        freezeGuardEnabled s = Byte.eqb (EEPROM_read FREEZE_GUARD_ADDR s) x01
        /\ storedSSID s = load_field SSID_START SSID_MAX_LENGTH s
        /\ storedPassword s = load_field PASS_START PASS_MAX_LENGTH s).
Proof.
  intros H. apply setup_shape in H as [(Hd & ->) | (Hd & tr & m & ->)].
  - rewrite Hd. cbn. split_inv; try reflexivity. discriminate.
  - cbn. split_inv; try reflexivity. intros _. split_inv.
    + reflexivity.
    + apply load_field_ext. reflexivity.
    + apply load_field_ext. reflexivity.
Qed.

(** The decision of [setup()] when the persisted name is shorter than two
    characters: Provisioning, with no attempt to join. *)
Lemma boot_without_name (env : BootEnv) (rom : list byte) :
  bme_at_76 env || bme_at_77 env = true ->
  display_begin env = true ->
  (String.length (load_field SSID_START SSID_MAX_LENGTH (initial_state rom)) < 2)%nat ->
  exists s : State,
    setup env rom = Some s
    /\ boot_mode s = Some Provisioning
    /\ count is_wifiBegin (trace s) = 0%nat
    /\ count is_delay (trace s) = 0%nat.
Proof.
  intros Hbme Hdisp Hlen. unfold setup.
  replace (negb (bme_at_76 env) && negb (bme_at_77 env)) with false
    by (destruct (bme_at_76 env), (bme_at_77 env); easy).
  rewrite Hdisp. cbn [negb].
  destruct (setup_prelude rom) as (Hs & Ht & Hsm).
  set (s3 := loadWiFiCredentials _) in *.
  rewrite Hs.
  replace (Z.of_nat _ <? 2) with true by (symmetry; apply Z.ltb_lt; lia).
  eexists. split; [reflexivity|].
  clearbody s3. destruct s3; cbn in *. subst.
  unfold boot_mode, enterSetupMode. destruct (softAP_ok env); cbn; auto.
Qed.

(** The decision of [setup()] when a name of two characters or more is
    persisted: [WiFi.begin] is called with the persisted identity. *)
Lemma boot_with_name (env : BootEnv) (rom : list byte) :
  bme_at_76 env || bme_at_77 env = true ->
  display_begin env = true ->
  (2 <= String.length (load_field SSID_START SSID_MAX_LENGTH (initial_state rom)))%nat ->
  exists (s : State) (tr : list Effect),
    setup env rom = Some s
    /\ trace s
       = [DigitalWrite HEATER_PIN LOW; UpdateDisplay;
          WifiBegin (load_field SSID_START SSID_MAX_LENGTH (initial_state rom))
                    (load_field PASS_START PASS_MAX_LENGTH (initial_state rom))]
         ++ tr.
Proof.
  intros Hbme Hdisp Hlen. unfold setup.
  replace (negb (bme_at_76 env) && negb (bme_at_77 env)) with false
    by (destruct (bme_at_76 env), (bme_at_77 env); easy).
  rewrite Hdisp. cbn [negb].
  destruct (setup_prelude rom) as (Hs & Ht & Hsm).
  set (s3 := loadWiFiCredentials _) in *.
  assert (Hp : storedPassword s3
               = load_field PASS_START PASS_MAX_LENGTH (initial_state rom)).
  { unfold s3. rewrite (proj2 (loadWiFiCredentials_fields _)).
    apply load_field_ext. reflexivity. }
  rewrite Hs.
  replace (Z.of_nat _ <? 2) with false by (symmetry; apply Z.ltb_ge; lia).
  destruct (wifi_wait env 30 0 _) as [attempts s4] eqn:Hw.
  apply wifi_wait_spec in Hw as (_ & _ & _ & Htr & _).
  assert (Htr' : trace s4
                 = [DigitalWrite HEATER_PIN LOW; UpdateDisplay;
                    WifiBegin (storedSSID s3) (storedPassword s3)]
                   ++ concat (replicate (attempts - 0) [Delay 500; UpdateDisplay])).
  { rewrite Htr. clear Htr Hs Hp. clearbody s3.
    destruct s3; cbn in *. now subst. }
  rewrite Hs, Hp in Htr'. clear Htr. clearbody s3. clear Hs Hp Ht Hsm.
  set (ssid := load_field SSID_START SSID_MAX_LENGTH (initial_state rom)) in *.
  set (pw := load_field PASS_START PASS_MAX_LENGTH (initial_state rom)) in *.
  clearbody ssid pw.
  destruct (wifi_connected env (S attempts)).
  - exists (setupNormalMode s4). eexists. split; [reflexivity|].
    destruct s4; cbn in *. subst. cbn. reflexivity.
  - destruct (softAP_ok env) eqn:Hap;
      (exists (enterSetupMode env s4); eexists; split; [reflexivity|];
       unfold enterSetupMode; rewrite Hap;
       destruct s4; cbn in *; subst; cbn; reflexivity).
Qed.

(** ** Commands that end in a restart *)

Lemma EEPROM_read_ext (a : Z) (s s' : State) :
  eeprom s = eeprom s' -> EEPROM_read a s = EEPROM_read a s'.
Proof. unfold EEPROM_read. now intros ->. Qed.

Lemma ESP_restart_frame (s : State) :
  restarted (ESP_restart s) = true
  /\ trace (ESP_restart s) = trace s ++ [Restart]
  /\ eeprom (ESP_restart s) = eeprom s.
Proof. now destruct s. Qed.

(** What the next boot finds after the identity was erased in state [s]
    and the device restarted: no name, so Provisioning without an attempt
    to join, and the FreezeGuard flag as it was persisted. *)
Lemma erased_identity_boot (env : BootEnv) (s s1 : State) :
  bme_at_76 env || bme_at_77 env = true ->
  display_begin env = true ->
  eeprom s1 = eeprom (saveWiFiCredentials EmptyString EmptyString s) ->
  exists s2 : State,
    setup env (eeprom s1) = Some s2
    /\ boot_mode s2 = Some Provisioning
    /\ count is_wifiBegin (trace s2) = 0%nat
    /\ freezeGuardEnabled s2 = freezeGuardEnabled (loadFreezeGuardState s).
Proof.
  intros Hbme Hdisp He.
  destruct (saveWiFiCredentials_erases s) as (Hn & _).
  destruct (boot_without_name env (eeprom s1) Hbme Hdisp) as (s2 & H2 & Hm & Hw & _).
  { rewrite (load_field_ext _ _ _ (saveWiFiCredentials EmptyString EmptyString s))
      by (cbn [eeprom initial_state]; exact He).
    rewrite Hn. cbn. lia. }
  exists s2. split; [exact H2 | split; [exact Hm | split; [exact Hw|]]].
  destruct (setup_state env _ s2 H2) as (Hrom & _ & _ & _ & _ & _ & _ & _ & _
                                           & _ & _ & _ & _ & Hload).
  destruct (Hload Hdisp) as (Hfg & _). rewrite Hfg.
  rewrite (EEPROM_read_ext _ s2 (saveWiFiCredentials EmptyString EmptyString s))
    by congruence.
  rewrite saveWiFiCredentials_keeps_guard_cell. now destruct s.
Qed.

(** X3.  An authenticated [/reset] waits 2000 ms, erases the identity,
    commits and restarts; the boot that follows enters Provisioning
    without trying to join a network and loads the FreezeGuard flag that
    was persisted before.  Without authentication nothing happens. *)
Theorem web_reset_returns_to_provisioning (env : BootEnv) (s : State) :
  bme_at_76 env || bme_at_77 env = true ->
  display_begin env = true ->
  let s1 := handleReset true s in
  handleReset false s = s
  /\ restarted s1 = true
  /\ trace s1 = trace s ++ [Delay 2000; EepromCommit; Restart]
  /\ exists s2 : State,
       setup env (eeprom s1) = Some s2
       /\ boot_mode s2 = Some Provisioning
       /\ count is_wifiBegin (trace s2) = 0%nat
       /\ freezeGuardEnabled s2 = freezeGuardEnabled (loadFreezeGuardState s).
Proof.
  intros Hbme Hdisp s1. split; [reflexivity|].
  unfold s1, handleReset. cbn [negb].
  destruct (saveWiFiCredentials_erases (delay 2000 s)) as (_ & _ & Ht & _).
  destruct (erased_identity_boot env (delay 2000 s)
              (ESP_restart (saveWiFiCredentials EmptyString EmptyString
                              (delay 2000 s))) Hbme Hdisp)
    as (s2 & H2 & Hm & Hw & Hfg); [apply ESP_restart_frame|].
  set (s' := saveWiFiCredentials EmptyString EmptyString (delay 2000 s)) in *.
  clearbody s'.
  split; [apply ESP_restart_frame|]. split.
  - rewrite (proj1 (proj2 (ESP_restart_frame s'))), Ht.
    replace (trace (delay 2000 s)) with (trace s ++ [Delay 2000])
      by now destruct s.
    now rewrite <- !app_assoc.
  - exists s2. split; [exact H2 | split; [exact Hm | split; [exact Hw|]]].
    rewrite Hfg. now destruct s.
Qed.

Lemma web_reset_returns_to_provisioning_witness :
  exists s2 : State,
    setup home_env
      (eeprom (handleReset true (initial_state (rom_with "home" "secret123"))))
    = Some s2
    /\ boot_mode s2 = Some Provisioning.
Proof.
  destruct (web_reset_returns_to_provisioning home_env
              (initial_state (rom_with "home" "secret123")) eq_refl eq_refl)
    as (_ & _ & _ & s2 & H2 & Hm & _).
  exists s2. split; [exact H2 | exact Hm].
Defined.

Lemma handleWiFiSetup_saves (ssid password : string) (s : State) :
  let s1 := handleWiFiSetup true (Some ssid) (Some password) s in
  restarted s1 = true
  /\ eeprom s1 = eeprom (saveWiFiCredentials ssid password s)
  /\ trace s1 = trace s ++ [EepromCommit; Delay 2000; Restart].
Proof.
  unfold handleWiFiSetup. cbn [negb].
  destruct (saveWiFiCredentials_cells ssid password s) as (_ & _ & Hf).
  set (s' := saveWiFiCredentials ssid password s) in *. clearbody s'.
  split; [|split].
  - apply ESP_restart_frame.
  - rewrite (proj2 (proj2 (ESP_restart_frame _))). now destruct s'.
  - rewrite (proj1 (proj2 (ESP_restart_frame _))).
    replace (trace (delay 2000 s')) with (trace s' ++ [Delay 2000])
      by now destruct s'.
    rewrite Hf. destruct s; cbn. now rewrite <- !app_assoc.
Qed.

(** What the next boot does after an identity that fits the two fields
    was persisted: it loads that identity and calls [WiFi.begin] with it. *)
Lemma saved_identity_boot (env : BootEnv) (ssid password : string)
    (s s1 : State) :
  bme_at_76 env || bme_at_77 env = true ->
  display_begin env = true ->
  (96 <= List.length (eeprom s))%nat ->
  nul_free ssid = true -> nul_free password = true ->
  (2 <= String.length ssid <= 32)%nat ->
  (String.length password <= 64)%nat ->
  eeprom s1 = eeprom (saveWiFiCredentials ssid password s) ->
  exists (s2 : State) (tr : list Effect),
    setup env (eeprom s1) = Some s2
    /\ trace s2
       = [DigitalWrite HEATER_PIN LOW; UpdateDisplay;
          WifiBegin ssid password] ++ tr.
Proof.
  intros Hbme Hdisp Hrom Hs Hp Hls Hlp He.
  destruct (saved_fields ssid password s Hrom Hs Hp) as (F1 & F2).
  rewrite substring_whole in F1 by lia.
  rewrite substring_whole in F2 by lia.
  assert (E1 : load_field SSID_START SSID_MAX_LENGTH (initial_state (eeprom s1))
               = ssid).
  { rewrite <- F1. apply load_field_ext. cbn [eeprom initial_state]. exact He. }
  assert (E2 : load_field PASS_START PASS_MAX_LENGTH (initial_state (eeprom s1))
               = password).
  { rewrite <- F2. apply load_field_ext. cbn [eeprom initial_state]. exact He. }
  destruct (boot_with_name env (eeprom s1) Hbme Hdisp) as (s2 & tr & H2 & Htr).
  - rewrite E1. lia.
  - exists s2, tr. split; [exact H2|]. rewrite Htr, E1, E2. reflexivity.
Qed.

(** What the next boot does after a name of fewer than two characters was
    persisted. *)
Lemma short_identity_boot (env : BootEnv) (ssid password : string)
    (s s1 : State) :
  bme_at_76 env || bme_at_77 env = true ->
  display_begin env = true ->
  (96 <= List.length (eeprom s))%nat ->
  nul_free ssid = true -> nul_free password = true ->
  (String.length ssid < 2)%nat ->
  eeprom s1 = eeprom (saveWiFiCredentials ssid password s) ->
  exists s2 : State,
    setup env (eeprom s1) = Some s2
    /\ boot_mode s2 = Some Provisioning
    /\ count is_wifiBegin (trace s2) = 0%nat.
Proof.
  intros Hbme Hdisp Hrom Hs Hp Hls He.
  destruct (saved_fields ssid password s Hrom Hs Hp) as (F1 & _).
  rewrite substring_whole in F1 by lia.
  destruct (boot_without_name env (eeprom s1) Hbme Hdisp)
    as (s2 & H2 & Hm & Hw & _).
  - rewrite (load_field_ext _ _ _ (saveWiFiCredentials ssid password s))
      by (cbn [eeprom initial_state]; exact He).
    rewrite F1. exact Hls.
  - exists s2. auto.
Qed.

(** X4.  The provisioning form.  An authenticated submission carrying
    both arguments persists them, waits 2000 ms and restarts; when the name
    has 2 to 32 characters and the password at most 64, the boot that
    follows loads exactly that identity and calls [WiFi.begin] with it.  A
    submission that lacks either argument changes nothing. *)
Theorem provisioning_form_takes_effect (env : BootEnv)
    (ssid password : string) (s : State) :
  bme_at_76 env || bme_at_77 env = true ->
  display_begin env = true ->
  (96 <= List.length (eeprom s))%nat ->
  nul_free ssid = true -> nul_free password = true ->
  (2 <= String.length ssid <= 32)%nat ->
  (String.length password <= 64)%nat ->
  let s1 := handleWiFiSetup true (Some ssid) (Some password) s in
  restarted s1 = true
  /\ trace s1 = trace s ++ [EepromCommit; Delay 2000; Restart]
  /\ (exists (s2 : State) (tr : list Effect),
        setup env (eeprom s1) = Some s2
        /\ trace s2
           = [DigitalWrite HEATER_PIN LOW; UpdateDisplay;
              WifiBegin ssid password] ++ tr)
  /\ handleWiFiSetup true None (Some password) s = s
  /\ handleWiFiSetup true (Some ssid) None s = s.
Proof.
  intros Hbme Hdisp Hrom Hs Hp Hls Hlp s1.
  destruct (handleWiFiSetup_saves ssid password s) as (Hr & He & Ht).
  split; [exact Hr | split; [exact Ht | split; [|split; reflexivity]]].
  exact (saved_identity_boot env ssid password s s1
           Hbme Hdisp Hrom Hs Hp Hls Hlp He).
Qed.

Lemma provisioning_form_takes_effect_witness :
  exists (s2 : State) (tr : list Effect),
    setup home_env
      (eeprom (handleWiFiSetup true (Some "home"%string) (Some "secret123"%string)
                 (initial_state (replicate 512 x00))))
    = Some s2
    /\ trace s2
       = [DigitalWrite HEATER_PIN LOW; UpdateDisplay;
          WifiBegin "home" "secret123"] ++ tr.
Proof.
  destruct (provisioning_form_takes_effect home_env "home" "secret123"
              (initial_state (replicate 512 x00)) eq_refl eq_refl)
    as (_ & _ & H & _).
  - apply Nat.leb_le. reflexivity.
  - reflexivity.
  - reflexivity.
  - cbn. lia.
  - cbn. lia.
  - exact H.
Defined.

(** X5.  The provisioning form accepts a name of fewer than two
    characters like any other: it is persisted and the device restarts.
    The boot that follows finds a name shorter than two characters and goes
    back to Provisioning without calling [WiFi.begin]. *)
Theorem short_name_returns_to_provisioning (env : BootEnv)
    (ssid password : string) (s : State) :
  bme_at_76 env || bme_at_77 env = true ->
  display_begin env = true ->
  (96 <= List.length (eeprom s))%nat ->
  nul_free ssid = true -> nul_free password = true ->
  (String.length ssid < 2)%nat ->
  let s1 := handleWiFiSetup true (Some ssid) (Some password) s in
  restarted s1 = true
  /\ count is_commit (trace s1) = S (count is_commit (trace s))
  /\ exists s2 : State,
       setup env (eeprom s1) = Some s2
       /\ boot_mode s2 = Some Provisioning
       /\ count is_wifiBegin (trace s2) = 0%nat.
Proof.
  intros Hbme Hdisp Hrom Hs Hp Hls s1.
  destruct (handleWiFiSetup_saves ssid password s) as (Hr & He & Ht).
  split; [exact Hr | split].
  - unfold s1. rewrite Ht. count_trace. cbn. lia.
  - exact (short_identity_boot env ssid password s s1
             Hbme Hdisp Hrom Hs Hp Hls He).
Qed.

Lemma short_name_returns_to_provisioning_witness :
  exists s2 : State,
    setup home_env
      (eeprom (handleWiFiSetup true (Some "h"%string) (Some "secret123"%string)
                 (initial_state (replicate 512 x00))))
    = Some s2
    /\ boot_mode s2 = Some Provisioning.
Proof.
  destruct (short_name_returns_to_provisioning home_env "h" "secret123"
              (initial_state (replicate 512 x00)) eq_refl eq_refl)
    as (_ & _ & s2 & H2 & Hm & _).
  - apply Nat.leb_le. reflexivity.
  - reflexivity.
  - reflexivity.
  - cbn. lia.
  - exists s2. split; [exact H2 | exact Hm].
Defined.

(** ** What each part of [loop()] leaves alone *)

Ltac split_ifs :=
  repeat (match goal with
          | |- context [if ?b then _ else _] => destruct b
          end; cbn).



Lemma activity_frame (b : bool) (now : Z) (s : State) :
  let s' := if b then set_lastActivityTime now s else s in
  mode_of s' = mode_of s /\ sensing_of s' = sensing_of s
  /\ heater_of s' = heater_of s /\ guard_of s' = guard_of s
  /\ targetTemp s' = targetTemp s /\ restarted s' = restarted s
  /\ displaySleepMode s' = displaySleepMode s.
Proof. destruct s, b; cbn; now split_inv. Qed.

Lemma wake_frame (now : Z) (s : State) :
  mode_of (wake now s) = mode_of s
  /\ sensing_of (wake now s) = sensing_of s
  /\ heater_of (wake now s) = heater_of s
  /\ guard_of (wake now s) = guard_of s
  /\ targetTemp (wake now s) = targetTemp s
  /\ restarted (wake now s) = restarted s.
Proof. destruct s; cbn; now split_inv. Qed.

Lemma up_edge_frame (c : bool) (now : Z) (s : State) :
  mode_of (up_edge c now s) = mode_of s
  /\ sensing_of (up_edge c now s) = sensing_of s
  /\ heater_of (up_edge c now s) = heater_of s
  /\ guard_of (up_edge c now s) = guard_of s
  /\ restarted (up_edge c now s) = restarted s.
Proof.
  unfold up_edge. destruct s; cbn. split_ifs; now split_inv.
Qed.

Lemma down_edge_frame (c : bool) (now : Z) (s : State) :
  mode_of (down_edge c now s) = mode_of s
  /\ sensing_of (down_edge c now s) = sensing_of s
  /\ heater_of (down_edge c now s) = heater_of s
  /\ guard_of (down_edge c now s) = guard_of s
  /\ restarted (down_edge c now s) = restarted s.
Proof.
  unfold down_edge. destruct s; cbn. split_ifs; now split_inv.
Qed.

Lemma up_long_press_frame (c : bool) (now : Z) (s : State) :
  mode_of (up_long_press c now s) = mode_of s
  /\ sensing_of (up_long_press c now s) = sensing_of s
  /\ guard_of (up_long_press c now s) = guard_of s
  /\ targetTemp (up_long_press c now s) = targetTemp s
  /\ restarted (up_long_press c now s) = restarted s.
Proof.
  unfold up_long_press. destruct s; cbn. split_ifs; now split_inv.
Qed.

Lemma down_long_press_frame (c : bool) (now : Z) (s : State) :
  mode_of (down_long_press c now s) = mode_of s
  /\ sensing_of (down_long_press c now s) = sensing_of s
  /\ heater_of (down_long_press c now s) = heater_of s
  /\ targetTemp (down_long_press c now s) = targetTemp s
  /\ restarted (down_long_press c now s) = restarted s.
Proof.
  unfold down_long_press, saveFreezeGuardState, EEPROM_write.
  destruct s; cbn. split_ifs; now split_inv.
Qed.

Lemma saveWiFiCredentials_frame (ssid password : string) (s : State) :
  let s' := saveWiFiCredentials ssid password s in
  mode_of s' = mode_of s /\ sensing_of s' = sensing_of s
  /\ heater_of s' = heater_of s /\ guard_of s' = guard_of s
  /\ targetTemp s' = targetTemp s /\ restarted s' = restarted s
  /\ displaySleepMode s' = displaySleepMode s.
Proof.
  destruct (saveWiFiCredentials_cells ssid password s) as (_ & Hl & Hf).
  pose proof (saveWiFiCredentials_keeps_guard_cell ssid password s) as Hg.
  cbn zeta in *.
  set (s' := saveWiFiCredentials ssid password s) in *. clearbody s'.
  set (rom' := eeprom s') in Hf.
  assert (Hfg : freezeGuardEnabled s' = freezeGuardEnabled s)
    by (rewrite Hf; now destruct s).
  unfold guard_of. rewrite Hg, Hl, Hfg. clear Hg Hl Hfg. clearbody rom'.
  subst s'. destruct s; cbn. now split_inv.
Qed.

Lemma dual_hold_frame (up down : bool) (now : Z) (s : State) :
  mode_of (dual_hold up down now s) = mode_of s
  /\ sensing_of (dual_hold up down now s) = sensing_of s
  /\ heater_of (dual_hold up down now s) = heater_of s
  /\ guard_of (dual_hold up down now s) = guard_of s
  /\ targetTemp (dual_hold up down now s) = targetTemp s.
Proof.
  unfold dual_hold.
  destruct (sleep_hold up down now s); [destruct s; cbn; now split_inv|].
  destruct (reset_hold up down now s); [|now split_inv].
  unfold wifi_reset.
  destruct (saveWiFiCredentials_frame EmptyString EmptyString
              (delay 1000 (announce MsgReset now s)))
    as (H1 & H2 & H3 & H4 & H5 & _).
  set (s' := saveWiFiCredentials _ _ _) in *. clearbody s'.
  assert (E : mode_of (ESP_restart s') = mode_of s'
              /\ sensing_of (ESP_restart s') = sensing_of s'
              /\ heater_of (ESP_restart s') = heater_of s'
              /\ guard_of (ESP_restart s') = guard_of s'
              /\ targetTemp (ESP_restart s') = targetTemp s')
    by (destruct s'; cbn; now split_inv).
  destruct E as (E1 & E2 & E3 & E4 & E5).
  rewrite E1, E2, E3, E4, E5, H1, H2, H3, H4, H5.
  destruct s; cbn. now split_inv.
Qed.

Lemma boot_button_frame (first again : bool) (s : State) :
  mode_of (boot_button first again s) = mode_of s
  /\ sensing_of (boot_button first again s) = sensing_of s
  /\ heater_of (boot_button first again s) = heater_of s
  /\ guard_of (boot_button first again s) = guard_of s
  /\ targetTemp (boot_button first again s) = targetTemp s.
Proof.
  unfold boot_button.
  destruct (negb (setupMode s) && Bool.eqb first LOW); [|now split_inv].
  cbn zeta. destruct (Bool.eqb again LOW); [|destruct s; cbn; now split_inv].
  destruct (saveWiFiCredentials_frame EmptyString EmptyString (delay 50 s))
    as (H1 & H2 & H3 & H4 & H5 & _).
  set (s' := saveWiFiCredentials _ _ _) in *. clearbody s'.
  assert (E : mode_of (ESP_restart s') = mode_of s'
              /\ sensing_of (ESP_restart s') = sensing_of s'
              /\ heater_of (ESP_restart s') = heater_of s'
              /\ guard_of (ESP_restart s') = guard_of s'
              /\ targetTemp (ESP_restart s') = targetTemp s')
    by (destruct s'; cbn; now split_inv).
  destruct E as (E1 & E2 & E3 & E4 & E5).
  rewrite E1, E2, E3, E4, E5, H1, H2, H3, H4, H5.
  destruct s; cbn. now split_inv.
Qed.

(** A poll of a sleeping device either wakes it or does nothing. *)
Lemma handleButtons_asleep (up down : bool) (now : Z) (s : State) :
  displaySleepMode s = true ->
  handleButtons up down now s
  = if Bool.eqb up LOW || Bool.eqb down LOW
    then wake now (set_lastActivityTime now s) else s.
Proof.
  intros Hs. unfold handleButtons. destruct s; cbn in *; subst.
  now destruct (Bool.eqb up LOW || Bool.eqb down LOW).
Qed.

(** A property kept by every block of [handleButtons] is kept by
    [handleButtons]. *)
Lemma handleButtons_preserves (P : State -> Prop) (up down : bool) (now : Z) :
  preserves P (set_lastActivityTime now) ->
  preserves P (wake now) ->
  preserves P (up_edge up now) ->
  preserves P (up_long_press up now) ->
  preserves P (down_edge down now) ->
  preserves P (down_long_press down now) ->
  preserves P (dual_hold up down now) ->
  preserves P (handleButtons up down now).
Proof.
  intros Ha Hw H1 H2 H3 H4 H5 s Hs.
  destruct (displaySleepMode s) eqn:Hsl.
  - rewrite handleButtons_asleep by assumption.
    destruct (Bool.eqb up LOW || Bool.eqb down LOW); auto.
  - rewrite handleButtons_awake by assumption.
    apply H5, H4, H3, H2, H1.
    destruct (Bool.eqb up LOW || Bool.eqb down LOW); auto.
Qed.

Lemma handleButtons_frame (up down : bool) (now : Z) (s : State) :
  mode_of (handleButtons up down now s) = mode_of s
  /\ sensing_of (handleButtons up down now s) = sensing_of s.
Proof.
  apply (handleButtons_preserves
           (fun s' => mode_of s' = mode_of s /\ sensing_of s' = sensing_of s));
    try (intros s' (H1 & H2); rewrite <- H1, <- H2).
  - destruct (activity_frame true now s') as (? & ? & _). now split.
  - destruct (wake_frame now s') as (? & ? & _). now split.
  - destruct (up_edge_frame up now s') as (? & ? & _). now split.
  - destruct (up_long_press_frame up now s') as (? & ? & _). now split.
  - destruct (down_edge_frame down now s') as (? & ? & _). now split.
  - destruct (down_long_press_frame down now s') as (? & ? & _). now split.
  - destruct (dual_hold_frame up down now s') as (? & ? & _). now split.
  - now split.
Qed.

Lemma handleTarget_frame (auth : bool) (temp : option float) (now : Z)
    (s : State) :
  let s' := handleTarget auth temp now s in
  mode_of s' = mode_of s /\ sensing_of s' = sensing_of s
  /\ heater_of s' = heater_of s /\ guard_of s' = guard_of s
  /\ restarted s' = restarted s.
Proof.
  unfold handleTarget. destruct s, auth, temp; cbn; split_ifs; now split_inv.
Qed.

Lemma handleToggle_frame (auth : bool) (now : Z) (s : State) :
  let s' := handleToggle auth now s in
  mode_of s' = mode_of s /\ sensing_of s' = sensing_of s
  /\ guard_of s' = guard_of s /\ targetTemp s' = targetTemp s
  /\ restarted s' = restarted s.
Proof.
  unfold handleToggle. destruct s, auth; cbn; split_ifs; now split_inv.
Qed.

Lemma handleFreezeGuard_frame (auth : bool) (state : option bool) (now : Z)
    (s : State) :
  let s' := handleFreezeGuard auth state now s in
  mode_of s' = mode_of s /\ sensing_of s' = sensing_of s
  /\ heater_of s' = heater_of s /\ targetTemp s' = targetTemp s
  /\ restarted s' = restarted s.
Proof.
  unfold handleFreezeGuard, saveFreezeGuardState, EEPROM_write.
  destruct s, auth, state; cbn; split_ifs; now split_inv.
Qed.

Lemma ESP_restart_keeps (s : State) :
  mode_of (ESP_restart s) = mode_of s
  /\ sensing_of (ESP_restart s) = sensing_of s
  /\ heater_of (ESP_restart s) = heater_of s
  /\ guard_of (ESP_restart s) = guard_of s
  /\ targetTemp (ESP_restart s) = targetTemp s.
Proof. destruct s; cbn; now split_inv. Qed.

Lemma delay_keeps (ms : Z) (s : State) :
  mode_of (delay ms s) = mode_of s
  /\ sensing_of (delay ms s) = sensing_of s
  /\ heater_of (delay ms s) = heater_of s
  /\ guard_of (delay ms s) = guard_of s
  /\ targetTemp (delay ms s) = targetTemp s.
Proof. destruct s; cbn; now split_inv. Qed.

Lemma handleReset_frame (auth : bool) (s : State) :
  let s' := handleReset auth s in
  mode_of s' = mode_of s /\ sensing_of s' = sensing_of s
  /\ heater_of s' = heater_of s /\ guard_of s' = guard_of s
  /\ targetTemp s' = targetTemp s.
Proof.
  unfold handleReset. destruct auth; cbn [negb]; [|now split_inv].
  cbn zeta.
  destruct (saveWiFiCredentials_frame EmptyString EmptyString (delay 2000 s))
    as (H1 & H2 & H3 & H4 & H5 & _).
  set (s' := saveWiFiCredentials _ _ _) in *. clearbody s'.
  destruct (ESP_restart_keeps s') as (E1 & E2 & E3 & E4 & E5).
  destruct (delay_keeps 2000 s) as (D1 & D2 & D3 & D4 & D5).
  rewrite E1, E2, E3, E4, E5, H1, H2, H3, H4, H5. now split_inv.
Qed.

Lemma handleWiFiSetup_frame (auth : bool) (ssid password : option string)
    (s : State) :
  let s' := handleWiFiSetup auth ssid password s in
  mode_of s' = mode_of s /\ sensing_of s' = sensing_of s
  /\ heater_of s' = heater_of s /\ guard_of s' = guard_of s
  /\ targetTemp s' = targetTemp s.
Proof.
  unfold handleWiFiSetup.
  destruct auth, ssid as [newSSID|], password as [newPASS|]; cbn [negb];
    try now split_inv.
  cbn zeta.
  destruct (saveWiFiCredentials_frame newSSID newPASS s)
    as (H1 & H2 & H3 & H4 & H5 & _).
  set (s' := saveWiFiCredentials _ _ _) in *. clearbody s'.
  destruct (ESP_restart_keeps (delay 2000 s')) as (E1 & E2 & E3 & E4 & E5).
  destruct (delay_keeps 2000 s') as (D1 & D2 & D3 & D4 & D5).
  rewrite E1, E2, E3, E4, E5, D1, D2, D3, D4, D5. now split_inv.
Qed.

Lemma updateDisplay_frame (d : Draw) (s : State) (p : Panel) :
  let s' := fst (updateDisplay d (s, p)) in
  mode_of s' = mode_of s /\ sensing_of s' = sensing_of s
  /\ heater_of s' = heater_of s /\ guard_of s' = guard_of s
  /\ targetTemp s' = targetTemp s /\ restarted s' = restarted s
  /\ displaySleepMode s' = displaySleepMode s.
Proof.
  unfold updateDisplay, initializeDisplay.
  destruct s, (displayInitialized p), (begin_ok d); cbn; split_ifs;
    now split_inv.
Qed.

Lemma handleBrightness_frame (auth : bool) (value : option float) (now : Z)
    (d : Draw) (s : State) (p : Panel) :
  let s' := fst (handleBrightness auth value now d (s, p)) in
  mode_of s' = mode_of s /\ sensing_of s' = sensing_of s
  /\ heater_of s' = heater_of s /\ guard_of s' = guard_of s
  /\ targetTemp s' = targetTemp s /\ restarted s' = restarted s.
Proof.
  unfold handleBrightness.
  destruct auth; cbn [negb]; [|now split_inv].
  destruct value as [val|]; [|now split_inv].
  destruct (F32.eqb val (F32.of_Z 0)); [destruct s; cbn; now split_inv|].
  cbn zeta.
  destruct (updateDisplay_frame d
              (emit (DisplayDim false)
                 (set_lastActivityTime now (set_displaySleepMode false s))) p)
    as (H1 & H2 & H3 & H4 & H5 & H6 & _).
  cbn zeta in *. rewrite H1, H2, H3, H4, H5, H6.
  destruct s; cbn; now split_inv.
Qed.

Lemma auto_sleep_frame (now : Z) (s : State) :
  let s' := auto_sleep now s in
  mode_of s' = mode_of s /\ sensing_of s' = sensing_of s
  /\ heater_of s' = heater_of s /\ guard_of s' = guard_of s
  /\ targetTemp s' = targetTemp s /\ restarted s' = restarted s.
Proof.
  unfold auto_sleep. destruct s; cbn; split_ifs; now split_inv.
Qed.

(** The sensor block keeps the mode, the FreezeGuard flag, the EEPROM and
    the target, keeps both arrays at their size and the write index inside
    them. *)
Lemma sensor_init_keeps {A : Type} (proj : State -> A)
    (rawTemp : float) (rawHum : Z -> float) (s : State) :
  (forall i st, proj (seed_slot (c_to_f rawTemp) rawHum i st) = proj st) ->
  (forall st, proj (set_sensorInit false (delay 8000 st)) = proj st) ->
  proj (sensor_init rawTemp rawHum s) = proj s.
Proof.
  intros Hseed Hend. unfold sensor_init.
  destruct (sensorInit s); [|reflexivity].
  cbn zeta. rewrite Hend. now apply for_upto_keeps.
Qed.

Lemma sensor_init_frame (rawTemp : float) (rawHum : Z -> float) (s : State) :
  let s' := sensor_init rawTemp rawHum s in
  mode_of s' = mode_of s /\ heater_of s' = heater_of s
  /\ guard_of s' = guard_of s /\ targetTemp s' = targetTemp s
  /\ restarted s' = restarted s
  /\ List.length (tempReadings s') = List.length (tempReadings s)
  /\ List.length (humReadings s') = List.length (humReadings s)
  /\ readIndex s' = readIndex s
  /\ currentTemp s' = currentTemp s.
Proof.
  cbn zeta. split_inv.
  1: apply (sensor_init_keeps mode_of).
  3: apply (sensor_init_keeps heater_of).
  5: apply (sensor_init_keeps guard_of).
  7: apply (sensor_init_keeps targetTemp).
  9: apply (sensor_init_keeps restarted).
  11: apply (sensor_init_keeps (fun st => List.length (tempReadings st))).
  13: apply (sensor_init_keeps (fun st => List.length (humReadings st))).
  15: apply (sensor_init_keeps readIndex).
  17: apply (sensor_init_keeps currentTemp).
  all: first [ intros i st; unfold seed_slot; destruct st; cbn;
               rewrite ?length_insert; reflexivity
             | intros st; now destruct st ].
Qed.

Lemma sample_frame (newTemp newHumidity : float) (s : State) :
  let s' := sample newTemp newHumidity s in
  mode_of s' = mode_of s /\ heater_of s' = heater_of s
  /\ guard_of s' = guard_of s /\ targetTemp s' = targetTemp s
  /\ restarted s' = restarted s
  /\ List.length (tempReadings s') = List.length (tempReadings s)
  /\ List.length (humReadings s') = List.length (humReadings s)
  /\ readIndex s' = Z.rem (readIndex s + 1) SAMPLES.
Proof.
  unfold sample, smooth_temperature, smooth_humidity.
  destruct s, (F32.isnan newTemp), (F32.isnan newHumidity); cbn;
    rewrite ?length_insert; now split_inv.
Qed.

Lemma control_heater_frame (s : State) :
  let s' := control_heater s in
  mode_of s' = mode_of s /\ sensing_of s' = sensing_of s
  /\ guard_of s' = guard_of s /\ targetTemp s' = targetTemp s
  /\ restarted s' = restarted s.
Proof.
  unfold control_heater. destruct s; cbn; split_ifs; now split_inv.
Qed.

Lemma loop_sensors_frame (now : Z) (r : SensorReads) (s : State) :
  let s' := loop_sensors now r s in
  mode_of s' = mode_of s /\ guard_of s' = guard_of s
  /\ targetTemp s' = targetTemp s /\ restarted s' = restarted s
  /\ List.length (tempReadings s') = List.length (tempReadings s)
  /\ List.length (humReadings s') = List.length (humReadings s)
  /\ (readIndex s' = readIndex s
      \/ readIndex s' = Z.rem (readIndex s + 1) SAMPLES).
Proof.
  unfold loop_sensors.
  destruct (sensor_init_frame (seedTemp r) (seedHum r) s)
    as (I1 & _ & I3 & I4 & I5 & I6 & I7 & I8 & _).
  cbn zeta in *. set (s1 := sensor_init _ _ s) in *. clearbody s1.
  destruct (SENSOR_READ_INTERVAL <=? usub now (lastRead s1)).
  - unfold sensor_tick.
    destruct (sample_frame (tickTemp r) (tickHum r) s1)
      as (S1 & _ & S3 & S4 & S5 & S6 & S7 & S8).
    cbn zeta in *. set (s2 := sample _ _ s1) in *. clearbody s2.
    destruct (control_heater_frame s2) as (C1 & C2 & C3 & C4 & C5).
    cbn zeta in *. set (s3 := control_heater s2) in *. clearbody s3.
    unfold sensing_of in C2. inversion C2.
    assert (E : mode_of (set_lastRead now s3) = mode_of s3
                /\ guard_of (set_lastRead now s3) = guard_of s3
                /\ targetTemp (set_lastRead now s3) = targetTemp s3
                /\ restarted (set_lastRead now s3) = restarted s3
                /\ tempReadings (set_lastRead now s3) = tempReadings s3
                /\ humReadings (set_lastRead now s3) = humReadings s3
                /\ readIndex (set_lastRead now s3) = readIndex s3)
      by (destruct s3; cbn; now split_inv).
    destruct E as (E1 & E2 & E3 & E4 & E5 & E6 & E7).
    rewrite E1, E2, E3, E4, E5, E6, E7.
    split_inv; try congruence. right. congruence.
  - split_inv; try assumption. now left.
Qed.

Lemma handleClient_frame (c : Call) (s : State) (p : Panel) :
  mode_of (fst (handleClient c (s, p))) = mode_of s
  /\ sensing_of (fst (handleClient c (s, p))) = sensing_of s.
Proof.
  unfold handleClient.
  destruct (setupMode s), (c_request c); cbn [fst]; try now split.
  - now destruct (handleWiFiSetup_frame (c_auth c) ssid password s) as (? & ? & _).
  - now destruct (handleTarget_frame (c_auth c) temp (c_now c) s) as (? & ? & _).
  - now destruct (handleToggle_frame (c_auth c) (c_now c) s) as (? & ? & _).
  - now destruct (handleReset_frame (c_auth c) s) as (? & ? & _).
  - now destruct (handleBrightness_frame (c_auth c) value (c_now c) (c_draw c) s p)
      as (? & ? & _).
  - now destruct (handleFreezeGuard_frame (c_auth c) state (c_now c) s)
      as (? & ? & _).
Qed.

(** A property of the globals kept by every part of [loop()] is kept by a
    pass of [loop()]. *)
Lemma loop_preserves (P : State -> Prop) (io : Pass) :
  preserves P (handleButtons (p_up (l_pins io)) (p_down (l_pins io))
                 (p_now (l_pins io))) ->
  preserves P (boot_button (l_boot io) (l_boot_again io)) ->
  (forall c s p, l_client io = Some c -> P s -> P (fst (handleClient c (s, p)))) ->
  (forall d s p, P s -> P (fst (updateDisplay d (s, p)))) ->
  preserves P (auto_sleep (l_now io)) ->
  preserves P (loop_sensors (l_now io) (l_reads io)) ->
  forall s p, P s -> P (fst (loop io (s, p))).
Proof.
  intros Hb Hboot Hc Hd Ha Hs s p HP. unfold loop.
  apply Hb in HP.
  set (s1 := handleButtons _ _ _ s) in *. clearbody s1.
  destruct (restarted s1); [exact HP|].
  apply Hboot in HP.
  set (s2 := boot_button _ _ s1) in *. clearbody s2.
  destruct (restarted s2); [exact HP|].
  assert (HP3 : P (fst (match l_client io with
                        | Some c => handleClient c (s2, p)
                        | None => (s2, p)
                        end))).
  { destruct (l_client io) as [c|] eqn:Ec; [now apply Hc | exact HP]. }
  destruct (match l_client io with
            | Some c => handleClient c (s2, p)
            | None => (s2, p)
            end) as [s3 p3].
  cbn [fst] in HP3. clear HP.
  destruct (restarted s3); [exact HP3|].
  destruct (negb (setupMode s3)); [|exact HP3].
  unfold normal_upkeep, welcome_timeout, refresh.
  destruct (showingWifiConnected p3
            && (WIFI_DISPLAY_DURATION <=? usub (l_now io) (wifiConnectedDisplayTime p3))).
  - pose proof (Hd (l_welcome_draw io) s3
                  {| displayInitialized := displayInitialized p3;
                     showingWifiConnected := false;
                     wifiConnectedDisplayTime := wifiConnectedDisplayTime p3;
                     lastDisplayUpdate := lastDisplayUpdate p3 |} HP3) as HP4.
    destruct (updateDisplay (l_welcome_draw io) _) as [s4 p4].
    cbn [fst] in HP4.
    destruct (negb (showingWifiConnected p4)
              && (DISPLAY_UPDATE_INTERVAL <=? usub (l_now io) (lastDisplayUpdate p4))).
    + pose proof (Hd (l_refresh_draw io) s4 p4 HP4) as HP5.
      destruct (updateDisplay (l_refresh_draw io) (s4, p4)) as [s5 p5].
      cbn [fst] in *. now apply Hs, Ha.
    + cbn [fst]. now apply Hs, Ha.
  - destruct (negb (showingWifiConnected p3)
              && (DISPLAY_UPDATE_INTERVAL <=? usub (l_now io) (lastDisplayUpdate p3))).
    + pose proof (Hd (l_refresh_draw io) s3 p3 HP3) as HP5.
      destruct (updateDisplay (l_refresh_draw io) (s3, p3)) as [s5 p5].
      cbn [fst] in *. now apply Hs, Ha.
    + cbn [fst]. now apply Hs, Ha.
Qed.

Lemma run_loop_preserves (P : State -> Prop) (ok : Pass -> Prop) :
  (forall io s p, ok io -> P s -> P (fst (loop io (s, p)))) ->
  forall passes, Forall ok passes ->
  forall s p, P s -> P (fst (run_loop passes (s, p))).
Proof.
  intros Hstep passes Hok. unfold run_loop.
  induction Hok as [|io passes Hio _ IH]; intros s p HP; [exact HP|].
  cbn [fold_left]. unfold loop_step at 2. cbn [fst].
  destruct (restarted s); [now apply IH|].
  specialize (Hstep io s p Hio HP).
  destruct (loop io (s, p)) as [s' p']. now apply IH.
Qed.

(** ** Invariants of the running device *)

Lemma Forall_any {A : Type} (l : list A) : Forall (fun _ => True) l.
Proof. induction l; constructor; auto. Qed.

(** *** The mode *)

Lemma loop_keeps_mode (m : bool * bool) (io : Pass) (s : State) (p : Panel) :
  mode_of s = m -> mode_of (fst (loop io (s, p))) = m.
Proof.
  apply (loop_preserves (fun s => mode_of s = m)).
  - intros s' <-. apply handleButtons_frame.
  - intros s' <-. apply boot_button_frame.
  - intros c s' p' _ <-. apply handleClient_frame.
  - intros d s' p' <-. apply updateDisplay_frame.
  - intros s' <-. apply auto_sleep_frame.
  - intros s' <-. apply loop_sensors_frame.
Qed.

(** X6.  The mode is decided by [setup()] alone: no pass of [loop()],
    whatever the buttons, the requests and the sensor do, changes
    [setupMode] or [isAP].  A device in Provisioning stays there until it
    restarts, and so does a device in Normal mode. *)
Theorem mode_is_fixed_until_restart (passes : list Pass) (s : State)
    (p : Panel) :
  setupMode (fst (run_loop passes (s, p))) = setupMode s
  /\ isAP (fst (run_loop passes (s, p))) = isAP s.
Proof.
  assert (H : mode_of (fst (run_loop passes (s, p))) = mode_of s).
  { apply (run_loop_preserves (fun s' => mode_of s' = mode_of s)
             (fun _ => True)); [| apply Forall_any | reflexivity].
    intros io s' p' _. apply loop_keeps_mode. }
  unfold mode_of in H. now inversion H.
Qed.

(** *** The sample arrays *)

Lemma arrays_step (new : Z) (s s' : State) :
  List.length (tempReadings s') = List.length (tempReadings s) ->
  List.length (humReadings s') = List.length (humReadings s) ->
  readIndex s' = readIndex s \/ readIndex s' = Z.rem (readIndex s + 1) SAMPLES ->
  arrays_in_bounds s -> arrays_in_bounds s'.
Proof.
  unfold arrays_in_bounds, SAMPLES. intros Ht Hh Hi (Lt & Lh & Hr).
  rewrite Ht, Hh. split; [exact Lt | split; [exact Lh|]].
  destruct Hi as [-> | ->]; [exact Hr|].
  rewrite Z.rem_mod_nonneg by lia. apply Z.mod_pos_bound. lia.
Qed.

Lemma arrays_same (s s' : State) :
  sensing_of s' = sensing_of s -> arrays_in_bounds s -> arrays_in_bounds s'.
Proof.
  unfold sensing_of, arrays_in_bounds. intros H. inversion H. congruence.
Qed.

Lemma loop_keeps_arrays (io : Pass) (s : State) (p : Panel) :
  arrays_in_bounds s -> arrays_in_bounds (fst (loop io (s, p))).
Proof.
  apply (loop_preserves arrays_in_bounds).
  - intros s'. apply arrays_same, handleButtons_frame.
  - intros s'. apply arrays_same, boot_button_frame.
  - intros c s' p' _. apply arrays_same, handleClient_frame.
  - intros d s' p'. apply arrays_same, updateDisplay_frame.
  - intros s'. apply arrays_same, auto_sleep_frame.
  - intros s'.
    destruct (loop_sensors_frame (l_now io) (l_reads io) s')
      as (_ & _ & _ & _ & Ht & Hh & Hi).
    now apply (arrays_step 0).
Qed.

(** X7.  The sample arrays are never written out of bounds: from boot on,
    after any number of passes of [loop()], both arrays have their ten
    slots and the shared write index lies in 0..9. *)
Theorem sample_index_stays_in_bounds (env : BootEnv) (rom : list byte)
    (s0 : State) (p0 : Panel) (passes : list Pass) :
  setup env rom = Some s0 ->
  let s := fst (run_loop passes (s0, p0)) in
  List.length (tempReadings s) = 10%nat
  /\ List.length (humReadings s) = 10%nat
  /\ 0 <= readIndex s < SAMPLES.
Proof.
  intros Hsetup.
  apply (run_loop_preserves arrays_in_bounds (fun _ => True));
    [| apply Forall_any |].
  - intros io s' p' _. apply loop_keeps_arrays.
  - destruct (setup_state env rom s0 Hsetup)
      as (_ & _ & _ & _ & _ & _ & Ht & Hh & Hi & _).
    unfold arrays_in_bounds. rewrite Ht, Hh, Hi.
    rewrite !length_replicate. unfold SAMPLES. repeat split; lia.
Qed.

(** *** The relay and the heater flag *)

Lemma relay_same (s s' : State) :
  heater_of s' = heater_of s -> relay_follows_flag s -> relay_follows_flag s'.
Proof.
  unfold heater_of, relay_follows_flag. intros H Hs Hp.
  injection H as H1 H2. rewrite H2. apply Hs. now rewrite <- H1.
Qed.

Lemma up_long_press_relay (c : bool) (now : Z) :
  preserves relay_follows_flag (up_long_press c now).
Proof.
  intros s. unfold up_long_press, relay_follows_flag.
  destruct (heaterEnabled s) eqn:He; destruct s; cbn in *; subst;
    split_ifs; cbn; auto.
Qed.

Lemma handleToggle_relay (auth : bool) (now : Z) :
  preserves relay_follows_flag (handleToggle auth now).
Proof.
  intros s. unfold handleToggle, relay_follows_flag.
  destruct (heaterEnabled s) eqn:He; destruct s, auth; cbn in *; subst;
    split_ifs; cbn; auto.
Qed.

Lemma control_heater_relay : preserves relay_follows_flag control_heater.
Proof.
  intros s. unfold control_heater, relay_follows_flag.
  destruct (freezeGuardEnabled s) eqn:Hg, (heaterEnabled s) eqn:He;
    destruct s; cbn in *; subst; cbn; split_ifs; cbn; auto; discriminate.
Qed.

Lemma handleButtons_relay (up down : bool) (now : Z) :
  preserves relay_follows_flag (handleButtons up down now).
Proof.
  apply handleButtons_preserves.
  - intros s. apply relay_same. now destruct s.
  - intros s. apply relay_same, wake_frame.
  - intros s. apply relay_same, up_edge_frame.
  - apply up_long_press_relay.
  - intros s. apply relay_same, down_edge_frame.
  - intros s. apply relay_same, down_long_press_frame.
  - intros s. apply relay_same, dual_hold_frame.
Qed.

Lemma handleClient_relay (c : Call) (s : State) (p : Panel) :
  relay_follows_flag s -> relay_follows_flag (fst (handleClient c (s, p))).
Proof.
  unfold handleClient.
  destruct (setupMode s), (c_request c); cbn [fst]; try easy.
  - apply relay_same, handleWiFiSetup_frame.
  - apply relay_same, handleTarget_frame.
  - apply handleToggle_relay.
  - apply relay_same, handleReset_frame.
  - apply relay_same, handleBrightness_frame.
  - apply relay_same, handleFreezeGuard_frame.
Qed.

Lemma loop_sensors_relay (now : Z) (r : SensorReads) :
  preserves relay_follows_flag (loop_sensors now r).
Proof.
  intros s H. unfold loop_sensors.
  assert (H1 : relay_follows_flag (sensor_init (seedTemp r) (seedHum r) s))
    by (revert H; apply relay_same, sensor_init_frame).
  set (s1 := sensor_init _ _ s) in *. clearbody s1.
  destruct (SENSOR_READ_INTERVAL <=? usub now (lastRead s1)); [|exact H1].
  unfold sensor_tick.
  assert (H2 : relay_follows_flag (sample (tickTemp r) (tickHum r) s1))
    by (revert H1; apply relay_same, sample_frame).
  apply control_heater_relay in H2. revert H2.
  apply relay_same. now destruct (control_heater _).
Qed.

Lemma loop_keeps_relay (io : Pass) (s : State) (p : Panel) :
  relay_follows_flag s -> relay_follows_flag (fst (loop io (s, p))).
Proof.
  apply (loop_preserves relay_follows_flag).
  - apply handleButtons_relay.
  - intros s'. apply relay_same, boot_button_frame.
  - intros c s' p' _. apply handleClient_relay.
  - intros d s' p'. apply relay_same, updateDisplay_frame.
  - intros s'. apply relay_same, auto_sleep_frame.
  - apply loop_sensors_relay.
Qed.

(** X8.  The relay is never energised while the heater is reported off.
    From boot on, after any number of passes of [loop()] with any buttons,
    requests and sensor readings, a heater pin at HIGH implies
    [heaterEnabled]: the flag shown on the display and sent by [/data]. *)
Theorem relay_on_implies_heater_flag (env : BootEnv) (rom : list byte)
    (s0 : State) (p0 : Panel) (passes : list Pass) :
  setup env rom = Some s0 ->
  let s := fst (run_loop passes (s0, p0)) in
  heaterPin s = HIGH -> heaterEnabled s = true.
Proof.
  intros Hsetup.
  apply (run_loop_preserves relay_follows_flag (fun _ => True));
    [| apply Forall_any |].
  - intros io s' p' _. apply loop_keeps_relay.
  - destruct (setup_state env rom s0 Hsetup) as (_ & _ & _ & _ & Hpin & _).
    unfold relay_follows_flag. rewrite Hpin. discriminate.
Qed.

(** *** The FreezeGuard flag and its EEPROM cell *)

Lemma guard_same (s s' : State) :
  guard_of s' = guard_of s -> guard_in_sync s -> guard_in_sync s'.
Proof.
  unfold guard_of, guard_in_sync. intros H (Hs & Hl).
  injection H as H1 H2 H3. rewrite H1, H2, H3. now split.
Qed.

Lemma saveFreezeGuardState_sync (b : bool) (s : State) :
  (96 < List.length (eeprom s))%nat ->
  guard_in_sync (saveFreezeGuardState b (set_freezeGuardEnabled b s)).
Proof.
  intros Hl. unfold guard_in_sync, saveFreezeGuardState, EEPROM_write, EEPROM_read.
  change (Z.to_nat FREEZE_GUARD_ADDR) with 96%nat.
  destruct s; cbn in *. rewrite length_insert. split; [|exact Hl].
  rewrite nth_lookup, list_lookup_insert_eq by exact Hl. cbn.
  now destruct b.
Qed.

Lemma announce_sync (m : Announcement) (now : Z) (s : State) :
  guard_in_sync s -> guard_in_sync (announce m now s).
Proof. apply guard_same. now destruct s. Qed.

Lemma down_long_press_sync (c : bool) (now : Z) :
  preserves guard_in_sync (down_long_press c now).
Proof.
  intros s H. unfold down_long_press.
  destruct (Bool.eqb c LOW && negb (longPressHandled s)
            && (LONG_PRESS_MS <=? usub now (downButtonStart s))); [|exact H].
  cbn zeta.
  assert (E : freezeGuardEnabled
                (set_freezeGuardEnabled (negb (freezeGuardEnabled s)) s)
              = negb (freezeGuardEnabled s)) by now destruct s.
  rewrite E.
  pose proof (saveFreezeGuardState_sync (negb (freezeGuardEnabled s)) s
                (proj2 H)) as H1.
  set (s1 := saveFreezeGuardState _ _) in *. clearbody s1.
  apply announce_sync with (m := MsgGuard (freezeGuardEnabled s1)) (now := now)
    in H1.
  revert H1. apply guard_same. now destruct (announce _ _ s1).
Qed.

Lemma handleFreezeGuard_sync (auth : bool) (state : option bool) (now : Z) :
  preserves guard_in_sync (handleFreezeGuard auth state now).
Proof.
  intros s H. unfold handleFreezeGuard.
  destruct auth; cbn [negb]; [|exact H].
  destruct state as [b|]; [|exact H].
  cbn zeta.
  assert (E : freezeGuardEnabled (set_freezeGuardEnabled b s) = b)
    by now destruct s.
  rewrite E.
  pose proof (saveFreezeGuardState_sync b s (proj2 H)) as H1.
  set (s1 := saveFreezeGuardState _ _) in *. clearbody s1.
  now apply announce_sync.
Qed.

Lemma handleButtons_sync (up down : bool) (now : Z) :
  preserves guard_in_sync (handleButtons up down now).
Proof.
  apply handleButtons_preserves.
  - intros s. apply guard_same. now destruct s.
  - intros s. apply guard_same, wake_frame.
  - intros s. apply guard_same, up_edge_frame.
  - intros s. apply guard_same, up_long_press_frame.
  - intros s. apply guard_same, down_edge_frame.
  - apply down_long_press_sync.
  - intros s. apply guard_same, dual_hold_frame.
Qed.

Lemma handleClient_sync (c : Call) (s : State) (p : Panel) :
  guard_in_sync s -> guard_in_sync (fst (handleClient c (s, p))).
Proof.
  unfold handleClient.
  destruct (setupMode s), (c_request c); cbn [fst]; try easy.
  - apply guard_same, handleWiFiSetup_frame.
  - apply guard_same, handleTarget_frame.
  - apply guard_same, handleToggle_frame.
  - apply guard_same, handleReset_frame.
  - apply guard_same, handleBrightness_frame.
  - apply handleFreezeGuard_sync.
Qed.

Lemma loop_keeps_sync (io : Pass) (s : State) (p : Panel) :
  guard_in_sync s -> guard_in_sync (fst (loop io (s, p))).
Proof.
  apply (loop_preserves guard_in_sync).
  - apply handleButtons_sync.
  - intros s'. apply guard_same, boot_button_frame.
  - intros c s' p' _. apply handleClient_sync.
  - intros d s' p'. apply guard_same, updateDisplay_frame.
  - intros s'. apply guard_same, auto_sleep_frame.
  - intros s'. apply guard_same, loop_sensors_frame.
Qed.

(** X9.  The FreezeGuard flag in memory always equals the persisted one.
    On a device whose display started and whose EEPROM image holds the
    flag cell, after any number of passes of [loop()] the flag is [true]
    exactly when cell 96 holds 1; so whenever the device restarts, the boot
    that follows resumes the regime that was in force. *)
Theorem guard_flag_survives_restart (env : BootEnv) (rom : list byte)
    (s0 : State) (p0 : Panel) (passes : list Pass) :
  setup env rom = Some s0 ->
  display_begin env = true ->
  (96 < List.length rom)%nat ->
  let s := fst (run_loop passes (s0, p0)) in
  freezeGuardEnabled s = Byte.eqb (EEPROM_read FREEZE_GUARD_ADDR s) x01
  /\ forall (env' : BootEnv) (s' : State),
       display_begin env' = true ->
       setup env' (eeprom s) = Some s' ->
       freezeGuardEnabled s' = freezeGuardEnabled s.
Proof.
  intros Hsetup Hdisp Hlen s.
  assert (H : guard_in_sync s).
  { apply (run_loop_preserves guard_in_sync (fun _ => True));
      [| apply Forall_any |].
    - intros io s' p' _. apply loop_keeps_sync.
    - destruct (setup_state env rom s0 Hsetup)
        as (Hrom & _ & _ & _ & _ & _ & _ & _ & _ & _ & _ & _ & _ & Hload).
      destruct (Hload Hdisp) as (Hfg & _).
      split; [exact Hfg | now rewrite Hrom]. }
  clearbody s. destruct H as (Hs & _). split; [exact Hs|].
  intros env' s' Hd' Hs'.
  destruct (setup_state env' _ s' Hs')
    as (Hrom & _ & _ & _ & _ & _ & _ & _ & _ & _ & _ & _ & _ & Hload).
  destruct (Hload Hd') as (Hfg & _).
  rewrite Hfg, Hs. f_equal. apply EEPROM_read_ext. exact Hrom.
Qed.

(** *** The target *)

Lemma whole_degree_cases (P : Z -> Prop) :
  (forall n : nat, (n < 41)%nat -> P (50 + Z.of_nat n)) ->
  forall k, 50 <= k <= 90 -> P k.
Proof.
  intros H k Hk. replace k with (50 + Z.of_nat (Z.to_nat (k - 50))) by lia.
  apply H. lia.
Qed.

Ltac by_degrees :=
  apply whole_degree_cases; intros n Hn;
  do 41 (destruct n as [|n]; [vm_compute; reflexivity|]); lia.

Lemma up_step_whole :
  forall k, 50 <= k <= 90 ->
  F64.to_f32 (F64.min (F64.of_Z 90)
                (F64.add (F64.of_f32 (F32.of_Z k)) (F64.of_Z 1)))
  = F32.of_Z (Z.min 90 (k + 1)).
Proof. by_degrees. Qed.

Lemma down_step_whole :
  forall k, 50 <= k <= 90 ->
  F64.to_f32 (F64.max (F64.of_Z 50)
                (F64.sub (F64.of_f32 (F32.of_Z k)) (F64.of_Z 1)))
  = F32.of_Z (Z.max 50 (k - 1)).
Proof. by_degrees. Qed.

Lemma web_step_whole :
  forall k, 50 <= k <= 90 ->
  forall now s,
  targetTemp s = F32.of_Z k ->
  targetTemp (handleTarget true (Some (F32.of_Z 1)) now s)
  = F32.of_Z (Z.min 90 (k + 1))
  /\ targetTemp (handleTarget true (Some (F32.of_Z (-1))) now s)
     = F32.of_Z (Z.max 50 (k - 1)).
Proof.
  intros k Hk now s Ht.
  assert (E : forall d,
            targetTemp (handleTarget true (Some d) now s)
            = let t1 := F32.add (targetTemp s) d in
              let t2 := if F32.ltb t1 (F32.of_Z 50) then F32.of_Z 50 else t1 in
              if F32.ltb (F32.of_Z 90) t2 then F32.of_Z 90 else t2).
  { intros d. unfold handleTarget. destruct s; cbn.
    match goal with
    | |- context [F32.ltb (F32.add ?t d) (F32.of_Z 50)] =>
        destruct (F32.ltb (F32.add t d) (F32.of_Z 50))
    end; cbn; now destruct (F32.ltb (F32.of_Z 90) _). }
  rewrite !E, Ht. clear E Ht s now. revert k Hk.
  apply whole_degree_cases; intros n Hn.
  do 41 (destruct n as [|n]; [vm_compute; split; reflexivity|]). lia.
Qed.

Lemma whole_same (s s' : State) :
  targetTemp s' = targetTemp s ->
  whole_degree (targetTemp s) -> whole_degree (targetTemp s').
Proof. now intros ->. Qed.

Lemma up_edge_whole (c : bool) (now : Z) :
  preserves (fun s => whole_degree (targetTemp s)) (up_edge c now).
Proof.
  intros s (k & Hk & Ht).
  assert (E : targetTemp (up_edge c now s) = targetTemp s
              \/ targetTemp (up_edge c now s)
                 = F64.to_f32 (F64.min (F64.of_Z 90)
                      (F64.add (F64.of_f32 (targetTemp s)) (F64.of_Z 1)))).
  { unfold up_edge. destruct s; cbn. split_ifs; auto. }
  destruct E as [-> | ->].
  - now exists k.
  - rewrite Ht, up_step_whole by exact Hk. exists (Z.min 90 (k + 1)).
    split; [lia | reflexivity].
Qed.

Lemma down_edge_whole (c : bool) (now : Z) :
  preserves (fun s => whole_degree (targetTemp s)) (down_edge c now).
Proof.
  intros s (k & Hk & Ht).
  assert (E : targetTemp (down_edge c now s) = targetTemp s
              \/ targetTemp (down_edge c now s)
                 = F64.to_f32 (F64.max (F64.of_Z 50)
                      (F64.sub (F64.of_f32 (targetTemp s)) (F64.of_Z 1)))).
  { unfold down_edge. destruct s; cbn. split_ifs; auto. }
  destruct E as [-> | ->].
  - now exists k.
  - rewrite Ht, down_step_whole by exact Hk. exists (Z.max 50 (k - 1)).
    split; [lia | reflexivity].
Qed.

Lemma handleButtons_whole (up down : bool) (now : Z) :
  preserves (fun s => whole_degree (targetTemp s)) (handleButtons up down now).
Proof.
  apply (handleButtons_preserves (fun s => whole_degree (targetTemp s))).
  - intros s. apply whole_same. now destruct s.
  - intros s. apply whole_same, wake_frame.
  - apply up_edge_whole.
  - intros s. apply whole_same, up_long_press_frame.
  - apply down_edge_whole.
  - intros s. apply whole_same, down_long_press_frame.
  - intros s. apply whole_same, dual_hold_frame.
Qed.

Lemma handleTarget_whole (auth : bool) (temp : option float) (now : Z)
    (s : State) :
  match temp with
  | Some change =>
      auth = false \/ change = F32.of_Z 1 \/ change = F32.of_Z (-1)
  | None => True
  end ->
  whole_degree (targetTemp s) ->
  whole_degree (targetTemp (handleTarget auth temp now s)).
Proof.
  intros Hreq (k & Hk & Ht).
  destruct temp as [change|]; [|destruct auth; now exists k].
  destruct auth; [|now exists k].
  destruct (web_step_whole k Hk now s Ht) as (Hup & Hdown).
  destruct Hreq as [Hreq | [-> | ->]]; [discriminate | |].
  - rewrite Hup. exists (Z.min 90 (k + 1)). split; [lia | reflexivity].
  - rewrite Hdown. exists (Z.max 50 (k - 1)). split; [lia | reflexivity].
Qed.

Lemma handleClient_whole (c : Call) (s : State) (p : Panel) :
  match c_request c with
  | ReqTarget (Some change) =>
      c_auth c = false \/ change = F32.of_Z 1 \/ change = F32.of_Z (-1)
  | _ => True
  end ->
  whole_degree (targetTemp s) ->
  whole_degree (targetTemp (fst (handleClient c (s, p)))).
Proof.
  unfold handleClient.
  destruct (setupMode s), (c_request c); cbn [fst]; try easy; intros Hreq.
  - apply whole_same, handleWiFiSetup_frame.
  - apply handleTarget_whole. now destruct temp.
  - apply whole_same, handleToggle_frame.
  - apply whole_same, handleReset_frame.
  - apply whole_same, handleBrightness_frame.
  - apply whole_same, handleFreezeGuard_frame.
Qed.

Lemma loop_keeps_whole (io : Pass) (s : State) (p : Panel) :
  steps_by_one io ->
  whole_degree (targetTemp s) ->
  whole_degree (targetTemp (fst (loop io (s, p)))).
Proof.
  intros Hio.
  apply (loop_preserves (fun s => whole_degree (targetTemp s))).
  - apply handleButtons_whole.
  - intros s'. apply whole_same, boot_button_frame.
  - intros c s' p' Hc. apply handleClient_whole.
    unfold steps_by_one in Hio. rewrite Hc in Hio. exact Hio.
  - intros d s' p'. apply whole_same, updateDisplay_frame.
  - intros s'. apply whole_same, auto_sleep_frame.
  - intros s'. apply whole_same, loop_sensors_frame.
Qed.

(** X10.  The target stays on a whole degree inside the limits.  From
    boot on, after any number of passes of [loop()] in which every
    authenticated target adjustment steps by one degree up or down, as the
    two buttons of the page do, whatever the push buttons do, [targetTemp]
    is one of the whole numbers 50..90. *)
Theorem target_stays_on_whole_degrees (env : BootEnv) (rom : list byte)
    (s0 : State) (p0 : Panel) (passes : list Pass) :
  setup env rom = Some s0 ->
  Forall steps_by_one passes ->
  exists k : Z,
    50 <= k <= 90
    /\ targetTemp (fst (run_loop passes (s0, p0))) = F32.of_Z k.
Proof.
  intros Hsetup Hok.
  apply (run_loop_preserves (fun s => whole_degree (targetTemp s))
           steps_by_one); [| exact Hok |].
  - intros io s' p'. apply loop_keeps_whole.
  - destruct (setup_state env rom s0 Hsetup) as (_ & _ & Ht & _).
    exists 72. split; [lia | exact Ht].
Qed.

(** *** The invariants on a run *)

Lemma sample_index_stays_in_bounds_witness :
  exists s0 : State,
    setup home_env (rom_with "home" "secret123") = Some s0
    /\ 0 <= readIndex
              (fst (run_loop [pass_at 9000 HIGH HIGH None room_air;
                              pass_at 19000 HIGH HIGH None room_air]
                      (s0, initial_panel))) < SAMPLES.
Proof.
  eexists.
  assert (Hs : setup home_env (rom_with "home" "secret123") = Some _)
    by (vm_compute; reflexivity).
  pose proof (sample_index_stays_in_bounds home_env
                (rom_with "home" "secret123") _ initial_panel
                [pass_at 9000 HIGH HIGH None room_air;
                 pass_at 19000 HIGH HIGH None room_air] Hs) as H.
  cbv zeta in H. destruct H as (_ & _ & H).
  split; [exact Hs | exact H].
Defined.

Lemma relay_on_implies_heater_flag_witness :
  exists s0 : State,
    setup home_env (rom_with "home" "secret123") = Some s0
    /\ heaterEnabled
         (fst (run_loop [pass_at 9000 LOW HIGH None room_air;
                         pass_at 19000 LOW HIGH None room_air]
                 (s0, initial_panel))) = true.
Proof.
  eexists.
  assert (Hs : setup home_env (rom_with "home" "secret123") = Some _)
    by (vm_compute; reflexivity).
  pose proof (relay_on_implies_heater_flag home_env
                (rom_with "home" "secret123") _ initial_panel
                [pass_at 9000 LOW HIGH None room_air;
                 pass_at 19000 LOW HIGH None room_air] Hs) as H.
  cbv zeta in H.
  split; [exact Hs | apply H; vm_compute; reflexivity].
Defined.

Lemma guard_flag_survives_restart_witness :
  exists s0 : State,
    setup home_env (rom_with "home" "secret123") = Some s0
    /\ freezeGuardEnabled
         (fst (run_loop
                 [pass_at 9000 HIGH HIGH
                    (Some (web (ReqFreezeGuard (Some true)) 9000)) room_air]
                 (s0, initial_panel)))
       = Byte.eqb
           (EEPROM_read FREEZE_GUARD_ADDR
              (fst (run_loop
                      [pass_at 9000 HIGH HIGH
                         (Some (web (ReqFreezeGuard (Some true)) 9000)) room_air]
                      (s0, initial_panel)))) x01.
Proof.
  eexists.
  assert (Hs : setup home_env (rom_with "home" "secret123") = Some _)
    by (vm_compute; reflexivity).
  assert (Hl : (96 < List.length (rom_with "home" "secret123"))%nat)
    by (apply Nat.ltb_lt; vm_compute; reflexivity).
  pose proof (guard_flag_survives_restart home_env
                (rom_with "home" "secret123") _ initial_panel
                [pass_at 9000 HIGH HIGH
                   (Some (web (ReqFreezeGuard (Some true)) 9000)) room_air]
                Hs eq_refl Hl) as H.
  cbv zeta in H. destruct H as (H & _).
  split; [exact Hs | exact H].
Defined.

Lemma target_stays_on_whole_degrees_witness :
  exists (s0 : State) (k : Z),
    setup home_env (rom_with "home" "secret123") = Some s0
    /\ 50 <= k <= 90
    /\ targetTemp
         (fst (run_loop
                 [pass_at 9000 HIGH HIGH
                    (Some (web (ReqTarget (Some (F32.of_Z 1))) 9000)) room_air;
                  pass_at 19000 HIGH LOW None room_air;
                  pass_at 19100 HIGH HIGH None room_air]
                 (s0, initial_panel))) = F32.of_Z k.
Proof.
  eexists.
  assert (Hs : setup home_env (rom_with "home" "secret123") = Some _)
    by (vm_compute; reflexivity).
  destruct (target_stays_on_whole_degrees home_env (rom_with "home" "secret123")
              _ initial_panel
              [pass_at 9000 HIGH HIGH
                 (Some (web (ReqTarget (Some (F32.of_Z 1))) 9000)) room_air;
               pass_at 19000 HIGH LOW None room_air;
               pass_at 19100 HIGH HIGH None room_air] Hs)
    as (k & Hk & Ht).
  - constructor; [right; left; reflexivity|].
    constructor; [exact I|]. constructor; [exact I | constructor].
  - exists k. split; [exact Hs | split; [exact Hk | exact Ht]].
Defined.

(** ** Provisioning mode *)

Lemma handleButtons_up_idle_heater (down : bool) (now : Z) (s : State) :
  heater_of (handleButtons HIGH down now s) = heater_of s.
Proof.
  apply (handleButtons_preserves (fun s' => heater_of s' = heater_of s));
    try (intros s' <-).
  - now destruct s'.
  - apply wake_frame.
  - apply up_edge_frame.
  - now rewrite up_long_press_released.
  - apply down_edge_frame.
  - apply down_long_press_frame.
  - apply dual_hold_frame.
  - reflexivity.
Qed.

(** A pass of [loop()] in Provisioning mode: the buttons are polled and a
    submitted form is served; the BOOT button, the display upkeep and the
    sensor block are skipped. *)
Lemma loop_in_provisioning (io : Pass) (s : State) (p : Panel) :
  setupMode s = true ->
  p_up (l_pins io) = HIGH ->
  let s' := fst (loop io (s, p)) in
  setupMode s' = true
  /\ heater_of s' = heater_of s
  /\ sensing_of s' = sensing_of s.
Proof.
  intros Hm Hup. unfold loop. rewrite Hup.
  destruct (handleButtons_frame HIGH (p_down (l_pins io)) (p_now (l_pins io)) s)
    as (M1 & S1).
  pose proof (handleButtons_up_idle_heater (p_down (l_pins io))
                (p_now (l_pins io)) s) as H1.
  set (s1 := handleButtons _ _ _ s) in *. clearbody s1.
  assert (Hm1 : setupMode s1 = true)
    by (unfold mode_of in M1; injection M1 as -> _; exact Hm).
  destruct (restarted s1); [cbn; now split_inv|].
  unfold boot_button. rewrite Hm1. cbn [negb andb].
  destruct (restarted s1); [cbn; now split_inv|].
  assert (H3 : let s3 := fst (match l_client io with
                              | Some c => handleClient c (s1, p)
                              | None => (s1, p)
                              end) in
               mode_of s3 = mode_of s1 /\ heater_of s3 = heater_of s1
               /\ sensing_of s3 = sensing_of s1).
  { destruct (l_client io) as [c|]; [|cbn; now split_inv].
    unfold handleClient. rewrite Hm1.
    destruct (c_request c); cbn [fst]; try (now split_inv).
    now destruct (handleWiFiSetup_frame (c_auth c) ssid password s1)
      as (? & ? & ? & _). }
  destruct (match l_client io with
            | Some c => handleClient c (s1, p)
            | None => (s1, p)
            end) as [s3 p3].
  cbn [fst] in H3. destruct H3 as (M3 & H3 & S3).
  assert (Hm3 : setupMode s3 = true)
    by (unfold mode_of in M3; injection M3 as -> _; exact Hm1).
  rewrite Hm3. cbn [negb].
  destruct (restarted s3); cbn [fst]; split_inv; congruence.
Qed.

(** X11.  In Provisioning mode the thermostat does not run.  When the
    device booted into Provisioning, then after any number of passes of
    [loop()] in which the Up button is not pressed, whatever the sensor
    would read, whatever requests arrive and whether FreezeGuard is on or
    off, the relay is off, the sensor block has not run once (no sample was
    taken and the seeding is still pending) and the mode is unchanged. *)
Theorem provisioning_mode_never_heats (env : BootEnv) (rom : list byte)
    (s0 : State) (p0 : Panel) (passes : list Pass) :
  setup env rom = Some s0 ->
  setupMode s0 = true ->
  Forall (fun io => p_up (l_pins io) = HIGH) passes ->
  let s := fst (run_loop passes (s0, p0)) in
  heaterPin s = LOW /\ heaterEnabled s = false
  /\ sensorInit s = true /\ currentTemp s = F32.zero
  /\ tempReadings s = replicate 10 F32.zero
  /\ setupMode s = true.
Proof.
  intros Hsetup Hm Hup s.
  assert (H : setupMode s = true /\ heater_of s = heater_of s0
              /\ sensing_of s = sensing_of s0).
  { apply (run_loop_preserves
             (fun s => setupMode s = true /\ heater_of s = heater_of s0
                       /\ sensing_of s = sensing_of s0)
             (fun io => p_up (l_pins io) = HIGH)); [| exact Hup | now split_inv].
    intros io s' p' Hio (M & H & S).
    destruct (loop_in_provisioning io s' p' M Hio) as (M' & H' & S').
    split_inv; congruence. }
  clearbody s. destruct H as (M & H & S).
  destruct (setup_state env rom s0 Hsetup)
    as (_ & _ & _ & He & Hp & Hc & Ht & _ & _ & Hi & _).
  unfold heater_of in H. injection H as H1 H2.
  unfold sensing_of in S. injection S as S1 S2 S3 S4 S5 S6 S7.
  split_inv; congruence.
Qed.

Lemma provisioning_mode_never_heats_witness :
  exists s0 : State,
    setup home_env (replicate 512 x00) = Some s0
    /\ heaterPin
         (fst (run_loop
                 [pass_at 9000 HIGH LOW None (steady_sensor (F32.of_Z (-5)) (F32.of_Z 40));
                  pass_at 19000 HIGH LOW None (steady_sensor (F32.of_Z (-5)) (F32.of_Z 40))]
                 (s0, initial_panel))) = LOW.
Proof.
  eexists.
  assert (Hs : setup home_env (replicate 512 x00) = Some _)
    by (vm_compute; reflexivity).
  pose proof (provisioning_mode_never_heats home_env (replicate 512 x00) _
                initial_panel
                [pass_at 9000 HIGH LOW None (steady_sensor (F32.of_Z (-5)) (F32.of_Z 40));
                 pass_at 19000 HIGH LOW None (steady_sensor (F32.of_Z (-5)) (F32.of_Z 40))]
                Hs eq_refl) as H.
  cbv zeta in H. destruct H as (H & _).
  - constructor; [reflexivity|]. constructor; [reflexivity | constructor].
  - split; [exact Hs | exact H].
Defined.

(** ** The BOOT button *)

(** X12.  The BOOT button in Normal mode.  Found pressed at both reads,
    50 ms apart, it erases the identity, commits and restarts, and the
    boot that follows enters Provisioning without trying to join a network
    and loads the FreezeGuard flag that was persisted before.  Found
    released at the second read, it costs the 50 ms and nothing else.  In
    Provisioning mode the button is not looked at. *)
Theorem boot_button_resets_identity (env : BootEnv) (s : State) :
  bme_at_76 env || bme_at_77 env = true ->
  display_begin env = true ->
  setupMode s = false ->
  let s1 := boot_button LOW LOW s in
  restarted s1 = true
  /\ trace s1 = trace s ++ [Delay 50; EepromCommit; Restart]
  /\ (exists s2 : State,
        setup env (eeprom s1) = Some s2
        /\ boot_mode s2 = Some Provisioning
        /\ count is_wifiBegin (trace s2) = 0%nat
        /\ freezeGuardEnabled s2 = freezeGuardEnabled (loadFreezeGuardState s))
  /\ boot_button LOW HIGH s = delay 50 s
  /\ forall (first again : bool) (s' : State),
       setupMode s' = true -> boot_button first again s' = s'.
Proof.
  intros Hbme Hdisp Hm s1.
  assert (E : s1 = ESP_restart
                     (saveWiFiCredentials EmptyString EmptyString (delay 50 s)))
    by (unfold s1, boot_button; now rewrite Hm).
  clearbody s1. subst s1.
  destruct (saveWiFiCredentials_erases (delay 50 s)) as (_ & _ & Ht & _).
  destruct (erased_identity_boot env (delay 50 s)
              (ESP_restart (saveWiFiCredentials EmptyString EmptyString
                              (delay 50 s))) Hbme Hdisp)
    as (s2 & H2 & Hmode & Hw & Hfg); [apply ESP_restart_frame|].
  set (s' := saveWiFiCredentials EmptyString EmptyString (delay 50 s)) in *.
  clearbody s'.
  split_inv.
  - apply ESP_restart_frame.
  - rewrite (proj1 (proj2 (ESP_restart_frame s'))), Ht.
    replace (trace (delay 50 s)) with (trace s ++ [Delay 50]) by now destruct s.
    now rewrite <- !app_assoc.
  - exists s2. split_inv; try assumption. rewrite Hfg. now destruct s.
  - unfold boot_button. now rewrite Hm.
  - intros first again s'' Hm'. unfold boot_button. now rewrite Hm'.
Qed.

Lemma boot_button_resets_identity_witness :
  exists s2 : State,
    setup home_env
      (eeprom (boot_button LOW LOW (initial_state (rom_with "home" "secret123"))))
    = Some s2
    /\ boot_mode s2 = Some Provisioning.
Proof.
  destruct (boot_button_resets_identity home_env
              (initial_state (rom_with "home" "secret123"))
              eq_refl eq_refl eq_refl)
    as (_ & _ & (s2 & H2 & Hm & _) & _).
  exists s2. split; [exact H2 | exact Hm].
Defined.

(** ** Display sleep *)

Lemma for_upto_commutes (f : State -> State) (n : Z)
    (body : Z -> State -> State) (s : State) :
  (forall i st, body i (f st) = f (body i st)) ->
  for_upto n body (f s) = f (for_upto n body s).
Proof.
  intros Hc. unfold for_upto. generalize (seq 0 (Z.to_nat n)). intros l.
  revert s. induction l as [|i l IH]; intros s; [reflexivity|].
  cbn [fold_left]. now rewrite Hc, IH.
Qed.

(** The sensor block does not look at the display: it commutes with any
    change of [displaySleepMode]. *)
Lemma loop_sensors_ignores_sleep (b : bool) (now : Z) (r : SensorReads)
    (s : State) :
  loop_sensors now r (set_displaySleepMode b s)
  = set_displaySleepMode b (loop_sensors now r s).
Proof.
  unfold loop_sensors.
  assert (Hinit : sensor_init (seedTemp r) (seedHum r) (set_displaySleepMode b s)
                  = set_displaySleepMode b
                      (sensor_init (seedTemp r) (seedHum r) s)).
  { unfold sensor_init.
    replace (sensorInit (set_displaySleepMode b s)) with (sensorInit s)
      by now destruct s.
    destruct (sensorInit s); [|reflexivity].
    cbn zeta. rewrite for_upto_commutes.
    - now destruct (for_upto SAMPLES _ s).
    - intros i st. now destruct st. }
  rewrite Hinit. set (s1 := sensor_init _ _ s). clearbody s1.
  replace (lastRead (set_displaySleepMode b s1)) with (lastRead s1)
    by now destruct s1.
  destruct (SENSOR_READ_INTERVAL <=? usub now (lastRead s1)); [|reflexivity].
  unfold sensor_tick, sample, smooth_temperature, smooth_humidity,
    control_heater.
  destruct s1, (F32.isnan (tickTemp r)), (F32.isnan (tickHum r)); cbn;
    split_ifs; reflexivity.
Qed.

Lemma loop_sensors_keeps_sleep (now : Z) (r : SensorReads) (s : State) :
  displaySleepMode (loop_sensors now r s) = displaySleepMode s.
Proof.
  assert (E : loop_sensors now r s
              = set_displaySleepMode (displaySleepMode s) (loop_sensors now r s)).
  { rewrite <- loop_sensors_ignores_sleep. f_equal. now destruct s. }
  rewrite E. now destruct (loop_sensors now r s).
Qed.

(** X13.  The thermostat does not depend on the display.  Whether the
    display sleeps or not, the sensor block of a pass takes the same
    samples and drives the relay and the heater flag the same way; it
    never changes [displaySleepMode] itself. *)
Theorem heater_control_ignores_display_sleep (now : Z) (r : SensorReads)
    (s : State) :
  let awake := loop_sensors now r (set_displaySleepMode false s) in
  let asleep := loop_sensors now r (set_displaySleepMode true s) in
  heaterPin asleep = heaterPin awake
  /\ heaterEnabled asleep = heaterEnabled awake
  /\ currentTemp asleep = currentTemp awake
  /\ tempReadings asleep = tempReadings awake
  /\ lastRead asleep = lastRead awake
  /\ displaySleepMode (loop_sensors now r s) = displaySleepMode s.
Proof.
  cbn zeta. rewrite !loop_sensors_ignores_sleep.
  split_inv; try now destruct (loop_sensors now r s).
  apply loop_sensors_keeps_sleep.
Qed.

Lemma edges_keep_display (up down : bool) (now : Z) (s : State) :
  let s' := down_edge down now (up_edge up now s) in
  displaySleepMode s' = displaySleepMode s
  /\ lastActivityTime s' = lastActivityTime s
  /\ restarted s' = restarted s
  /\ setupMode s' = setupMode s.
Proof.
  assert (U : forall c x,
            displaySleepMode (up_edge c now x) = displaySleepMode x
            /\ lastActivityTime (up_edge c now x) = lastActivityTime x
            /\ restarted (up_edge c now x) = restarted x
            /\ setupMode (up_edge c now x) = setupMode x).
  { intros c x. unfold up_edge. destruct x; cbn. split_ifs; now split_inv. }
  assert (D : forall c x,
            displaySleepMode (down_edge c now x) = displaySleepMode x
            /\ lastActivityTime (down_edge c now x) = lastActivityTime x
            /\ restarted (down_edge c now x) = restarted x
            /\ setupMode (down_edge c now x) = setupMode x).
  { intros c x. unfold down_edge. destruct x; cbn. split_ifs; now split_inv. }
  cbn zeta. destruct (U up s) as (U1 & U2 & U3 & U4).
  destruct (D down (up_edge up now s)) as (D1 & D2 & D3 & D4).
  split_inv; congruence.
Qed.

(** A poll that finds both buttons released on an awake device only
    looks for release edges. *)
Lemma handleButtons_idle (now : Z) (s : State) :
  displaySleepMode s = false ->
  handleButtons HIGH HIGH now s = down_edge HIGH now (up_edge HIGH now s).
Proof.
  intros Hs. rewrite handleButtons_awake by exact Hs. cbn [Bool.eqb HIGH LOW orb].
  rewrite dual_hold_single by now left.
  now rewrite down_long_press_released, up_long_press_released.
Qed.

Lemma updateDisplay_keeps_activity (d : Draw) (s : State) (p : Panel) :
  lastActivityTime (fst (updateDisplay d (s, p))) = lastActivityTime s.
Proof.
  unfold updateDisplay, initializeDisplay.
  destruct s, (displayInitialized p), (begin_ok d); cbn; split_ifs;
    reflexivity.
Qed.

Lemma loop_sensors_keeps_activity (now : Z) (r : SensorReads) (s : State) :
  lastActivityTime (loop_sensors now r s) = lastActivityTime s.
Proof.
  unfold loop_sensors.
  rewrite <- (sensor_init_keeps lastActivityTime (seedTemp r) (seedHum r) s)
    by (intros; now destruct st).
  set (s1 := sensor_init _ _ s). clearbody s1.
  destruct (SENSOR_READ_INTERVAL <=? usub now (lastRead s1)); [|reflexivity].
  unfold sensor_tick, sample, smooth_temperature, smooth_humidity,
    control_heater.
  destruct s1, (F32.isnan (tickTemp r)), (F32.isnan (tickHum r)); cbn;
    split_ifs; reflexivity.
Qed.

(** The display upkeep of a pass, as far as the sleep decision goes. *)
Lemma normal_upkeep_sleep (io : Pass) (s : State) (p : Panel) :
  displaySleepMode s = false ->
  let s' := fst (normal_upkeep io (s, p)) in
  displaySleepMode s' = (DISPLAY_TIMEOUT <? usub (l_now io) (lastActivityTime s))
  /\ lastActivityTime s' = lastActivityTime s.
Proof.
  intros Hs. unfold normal_upkeep.
  assert (W : let s4 := fst (welcome_timeout (l_now io) (l_welcome_draw io) (s, p)) in
              displaySleepMode s4 = false
              /\ lastActivityTime s4 = lastActivityTime s).
  { unfold welcome_timeout.
    destruct (showingWifiConnected p && _); [|now split].
    split; [|apply updateDisplay_keeps_activity].
    rewrite <- Hs. apply updateDisplay_frame. }
  destruct (welcome_timeout (l_now io) (l_welcome_draw io) (s, p)) as [s4 p4].
  cbn [fst] in W. destruct W as (W1 & W2).
  assert (R : let s5 := fst (refresh (l_now io) (l_refresh_draw io) (s4, p4)) in
              displaySleepMode s5 = false
              /\ lastActivityTime s5 = lastActivityTime s).
  { unfold refresh.
    destruct (negb (showingWifiConnected p4) && _); [|now split].
    pose proof (updateDisplay_keeps_activity (l_refresh_draw io) s4 p4) as A.
    destruct (updateDisplay_frame (l_refresh_draw io) s4 p4)
      as (_ & _ & _ & _ & _ & _ & B).
    cbn zeta in B.
    destruct (updateDisplay (l_refresh_draw io) (s4, p4)) as [s5 p5].
    cbn [fst] in *. split; congruence. }
  destruct (refresh (l_now io) (l_refresh_draw io) (s4, p4)) as [s5 p5].
  cbn [fst] in R. destruct R as (R1 & R2). cbn [fst].
  rewrite loop_sensors_keeps_activity.
  rewrite loop_sensors_keeps_sleep. unfold auto_sleep, autoSleepEnabled. rewrite R1, R2.
  cbn [negb andb].
  destruct (DISPLAY_TIMEOUT <? usub (l_now io) (lastActivityTime s)).
  - split; now destruct s5.
  - split; [exact R1 | exact R2].
Qed.

(** X14.  The idle timeout.  In Normal mode, a pass of [loop()] that
    finds the display awake, both buttons and the BOOT button released and
    no request waiting puts the display to sleep exactly when more than
    [DISPLAY_TIMEOUT] = 300000 ms have passed since the last activity,
    measured on the wrapping 32-bit clock; it does not count as activity
    itself. *)
Theorem display_sleeps_after_idle_timeout (io : Pass) (s : State) (p : Panel) :
  setupMode s = false -> displaySleepMode s = false -> restarted s = false ->
  p_up (l_pins io) = HIGH -> p_down (l_pins io) = HIGH ->
  l_boot io = HIGH -> l_client io = None ->
  let s' := fst (loop io (s, p)) in
  displaySleepMode s'
  = (DISPLAY_TIMEOUT <? usub (l_now io) (lastActivityTime s))
  /\ lastActivityTime s' = lastActivityTime s.
Proof.
  intros Hm Hs Hr Hup Hdown Hboot Hc. unfold loop.
  rewrite Hup, Hdown, Hboot, Hc, handleButtons_idle by exact Hs.
  destruct (edges_keep_display HIGH HIGH (p_now (l_pins io)) s)
    as (E1 & E2 & E3 & E4).
  cbn zeta in *.
  set (s1 := down_edge HIGH _ (up_edge HIGH _ s)) in *. clearbody s1.
  rewrite E3, Hr.
  replace (boot_button HIGH (l_boot_again io) s1) with s1
    by (unfold boot_button; cbn; now rewrite andb_false_r).
  rewrite E3, Hr, E4, Hm. cbn [negb].
  rewrite <- E2.
  apply normal_upkeep_sleep. congruence.
Qed.

Lemma display_sleeps_after_idle_timeout_witness :
  let s := set_lastActivityTime 1000 (initial_state []) in
  displaySleepMode
    (fst (loop (pass_at 301000 HIGH HIGH None room_air) (s, initial_panel)))
  = false
  /\ displaySleepMode
       (fst (loop (pass_at 301001 HIGH HIGH None room_air) (s, initial_panel)))
     = true.
Proof.
  cbv zeta. split.
  - rewrite (proj1 (display_sleeps_after_idle_timeout
                      (pass_at 301000 HIGH HIGH None room_air)
                      (set_lastActivityTime 1000 (initial_state []))
                      initial_panel
                      eq_refl eq_refl eq_refl eq_refl eq_refl eq_refl eq_refl)).
    reflexivity.
  - rewrite (proj1 (display_sleeps_after_idle_timeout
                      (pass_at 301001 HIGH HIGH None room_air)
                      (set_lastActivityTime 1000 (initial_state []))
                      initial_panel
                      eq_refl eq_refl eq_refl eq_refl eq_refl eq_refl eq_refl)).
    reflexivity.
Defined.

(** ** The sample window *)

Ltac nat_mod := zify; Z.to_euclidean_division_equations; lia.

Lemma sensor_tick_sensing (now : Z) (t h : float) (s : State) :
  tempReadings (sensor_tick now t h s) = tempReadings (sample t h s)
  /\ readIndex (sensor_tick now t h s) = readIndex (sample t h s)
  /\ currentTemp (sensor_tick now t h s) = currentTemp (sample t h s).
Proof.
  unfold sensor_tick.
  destruct (control_heater_frame (sample t h s)) as (_ & S & _).
  cbn zeta in S. unfold sensing_of in S. injection S as S1 _ S3 S4 _ _ _.
  rewrite <- S1, <- S3, <- S4. now destruct (control_heater _).
Qed.

(** One tick with a valid temperature reading, slot by slot. *)
Lemma tick_slots (now : Z) (t h : float) (s : State) :
  F32.isnan t = false ->
  0 <= readIndex s < SAMPLES ->
  List.length (tempReadings s) = 10%nat ->
  let s' := sensor_tick now t h s in
  List.length (tempReadings s') = 10%nat
  /\ 0 <= readIndex s' < SAMPLES
  /\ readIndex s' = (readIndex s + 1) mod 10
  /\ tempReadings s' !! Z.to_nat (readIndex s) = Some (c_to_f t)
  /\ (forall j : nat, j <> Z.to_nat (readIndex s) ->
        tempReadings s' !! j = tempReadings s !! j)
  /\ currentTemp s' = average (tempReadings s').
Proof.
  intros Hv Hi Hl.
  destruct (sensor_tick_sensing now t h s) as (E1 & E2 & E3).
  destruct (sample_slots t h s Hv Hi Hl) as (L & Hslot & Hrest).
  destruct (sample_index t h s Hi) as (Hb & Hidx).
  destruct (sample_spec t h s) as (Hs & _). destruct (Hs Hv) as (_ & Hc).
  cbn zeta. rewrite E1, E2, E3. split_inv; try assumption.
  - apply Hb.
  - apply Hb.
Qed.

Lemma run_ticks_snoc (ticks : list (Z * float * float))
    (tk : Z * float * float) (s : State) :
  run_ticks (ticks ++ [tk]) s
  = sensor_tick (fst (fst tk)) (snd (fst tk)) (snd tk) (run_ticks ticks s).
Proof. unfold run_ticks. now rewrite fold_left_app. Qed.

(** After at most ten valid ticks, the slots written hold the converted
    readings in order, starting at the write index the run began with, and
    the other slots are untouched. *)
Lemma window_fill (ticks : list (Z * float * float)) :
  forall s : State,
  (List.length ticks <= 10)%nat ->
  valid_ticks ticks ->
  0 <= readIndex s < SAMPLES ->
  List.length (tempReadings s) = 10%nat ->
  let s' := run_ticks ticks s in
  List.length (tempReadings s') = 10%nat
  /\ 0 <= readIndex s' < SAMPLES
  /\ readIndex s' = (readIndex s + Z.of_nat (List.length ticks)) mod 10
  /\ (forall (j : nat) (tk : Z * float * float),
        ticks !! j = Some tk ->
        tempReadings s' !! Z.to_nat ((readIndex s + Z.of_nat j) mod 10)
        = Some (c_to_f (snd (fst tk))))
  /\ (forall i : nat,
        (forall j : nat, (j < List.length ticks)%nat ->
           i <> Z.to_nat ((readIndex s + Z.of_nat j) mod 10)) ->
        tempReadings s' !! i = tempReadings s !! i).
Proof.
  induction ticks as [|tk rest IH]; intros s Hlen Hv Hi Hl; cbn zeta.
  - cbn. unfold SAMPLES in *. split_inv; auto; try lia.
    + rewrite Z.add_0_r, Z.mod_small; lia.
    + intros j tk' H. discriminate.
  - inversion Hv as [|? ? Hv1 Hv2]; subst.
    destruct (tick_slots (fst (fst tk)) (snd (fst tk)) (snd tk) s Hv1 Hi Hl)
      as (L1 & B1 & I1 & S1 & R1 & _).
    cbn zeta in *.
    change (run_ticks (tk :: rest) s)
      with (run_ticks rest (sensor_tick (fst (fst tk)) (snd (fst tk)) (snd tk) s)).
    set (s1 := sensor_tick _ _ _ s) in *. clearbody s1.
    cbn [List.length] in Hlen.
    destruct (IH s1 ltac:(lia) Hv2 B1 L1) as (L2 & B2 & I2 & S2 & R2).
    cbn zeta in *. set (s2 := run_ticks rest s1) in *. clearbody s2.
    unfold SAMPLES in *.
    set (i0 := readIndex s) in *. clearbody i0.
    cbn [List.length] in *.
    set (n := List.length rest) in *. clearbody n.
    rewrite I1 in *. clear I1. destruct B2 as (B2a & B2b).
    split_inv; try assumption.
    + rewrite I2. nat_mod.
    + intros j tk' Hj. destruct j as [|j].
      * cbn in Hj. inversion Hj; subst tk'.
        rewrite Z.add_0_r, Z.mod_small by lia.
        rewrite R2; [exact S1|].
        intros j' Hj'. nat_mod.
      * cbn in Hj. rewrite <- (S2 j tk' Hj). f_equal. nat_mod.
    + intros i Hfree. rewrite R2.
      * apply R1. specialize (Hfree 0%nat ltac:(lia)).
        rewrite Z.add_0_r, Z.mod_small in Hfree by lia. exact Hfree.
      * intros j Hj. specialize (Hfree (S j) ltac:(lia)).
        intros ->. apply Hfree. nat_mod.
Qed.

Lemma last_tick_reports_mean (ticks : list (Z * float * float)) (s : State) :
  (1 <= List.length ticks <= 10)%nat ->
  valid_ticks ticks ->
  0 <= readIndex s < SAMPLES ->
  List.length (tempReadings s) = 10%nat ->
  currentTemp (run_ticks ticks s) = average (tempReadings (run_ticks ticks s)).
Proof.
  intros Hlen Hv Hi Hl.
  destruct (exists_last (l := ticks)) as (init & tk & ->).
  { intros ->. cbn in Hlen. lia. }
  rewrite length_app in Hlen. cbn in Hlen.
  apply Forall_app in Hv as (Hv1 & Hv2). inversion Hv2; subst.
  destruct (window_fill init s ltac:(lia) Hv1 Hi Hl) as (L & B & _).
  rewrite run_ticks_snoc. now apply tick_slots.
Qed.

(** X15.  Ten valid ticks renew the whole window.  After ten consecutive
    ticks with a valid temperature reading the write index is back where
    it started, slot [(readIndex + j) mod 10] holds the converted [j]-th
    reading, the reported temperature is the mean of these ten slots as
    the sketch computes it, and nothing the arrays held before, seed
    included, has any influence on it. *)
Theorem ten_valid_ticks_renew_the_window (ticks : list (Z * float * float))
    (s : State) :
  List.length ticks = 10%nat ->
  valid_ticks ticks ->
  0 <= readIndex s < SAMPLES ->
  List.length (tempReadings s) = 10%nat ->
  let s' := run_ticks ticks s in
  readIndex s' = readIndex s
  /\ (forall (j : nat) (tk : Z * float * float),
        ticks !! j = Some tk ->
        tempReadings s' !! Z.to_nat ((readIndex s + Z.of_nat j) mod 10)
        = Some (c_to_f (snd (fst tk))))
  /\ currentTemp s' = average (tempReadings s')
  /\ forall s2 : State,
       readIndex s2 = readIndex s ->
       List.length (tempReadings s2) = 10%nat ->
       tempReadings (run_ticks ticks s2) = tempReadings s'
       /\ currentTemp (run_ticks ticks s2) = currentTemp s'.
Proof.
  intros Hlen Hv Hi Hl s'.
  destruct (window_fill ticks s ltac:(lia) Hv Hi Hl) as (L & B & I & S & _).
  fold s' in L, B, I, S.
  pose proof (last_tick_reports_mean ticks s ltac:(lia) Hv Hi Hl) as Hc.
  fold s' in Hc. clearbody s'.
  assert (Hsame : forall s2, readIndex s2 = readIndex s ->
            List.length (tempReadings s2) = 10%nat ->
            tempReadings (run_ticks ticks s2) = tempReadings s').
  { intros s2 Hi2 Hl2.
    destruct (window_fill ticks s2 ltac:(lia) Hv ltac:(now rewrite Hi2) Hl2)
      as (L2 & _ & _ & S2 & _).
    cbn zeta in *. apply list_eq. intros i.
    destruct (Nat.lt_ge_cases i 10) as [Hlt | Hge].
    - pose (j := Z.to_nat ((Z.of_nat i - readIndex s) mod 10)).
      assert (Hj : (j < List.length ticks)%nat)
        by (unfold j, SAMPLES in *; nat_mod).
      destruct (lookup_lt_is_Some_2 ticks j Hj) as (tk & Htk).
      assert (Ei : i = Z.to_nat ((readIndex s + Z.of_nat j) mod 10))
        by (unfold j, SAMPLES in *; nat_mod).
      rewrite Ei at 1. rewrite <- Hi2, (S2 j tk Htk).
      rewrite Ei. now rewrite (S j tk Htk).
    - rewrite !lookup_ge_None_2 by lia. reflexivity. }
  split_inv.
  - rewrite I, Hlen. unfold SAMPLES in *. nat_mod.
  - exact S.
  - exact Hc.
  - intros s2 Hi2 Hl2. split; [now apply Hsame|].
    rewrite (last_tick_reports_mean ticks s2) by (rewrite ?Hi2; auto; lia).
    rewrite Hc. f_equal. now apply Hsame.
Qed.

(** *** A reading that is not a number *)

Lemma sum_with_nan (buf : list float) (l : list nat) :
  forall acc : float,
  acc = F32.nan \/ (exists i, In i l /\ nth i buf F32.zero = F32.nan) ->
  fold_left (fun sum i => F32.add sum (nth i buf F32.zero)) l acc = F32.nan.
Proof.
  induction l as [|i l IH]; intros acc H; cbn [fold_left].
  - destruct H as [H | (i & [] & _)]. exact H.
  - apply IH. destruct H as [-> | (k & [<- | Hk] & Hn)].
    + now left.
    + left. rewrite Hn. unfold F32.add, F32.nan. now destruct acc.
    + right. now exists k.
Qed.

(** One slot that is not a number makes the mean not a number. *)
Lemma average_nan (buf : list float) (i : nat) :
  (i < 10)%nat -> buf !! i = Some F32.nan -> average buf = F32.nan.
Proof.
  intros Hi Hb. unfold average, sum_readings.
  rewrite sum_with_nan; [reflexivity|].
  right. exists i. split.
  - apply in_seq. change (Z.to_nat SAMPLES) with 10%nat. lia.
  - rewrite nth_lookup, Hb. reflexivity.
Qed.

Lemma ten_valid_ticks_renew_the_window_witness :
  let ticks := map (fun i => (2000 * Z.of_nat i, F32.of_Z 20, F32.of_Z 40))
                   (seq 1 10) in
  readIndex (run_ticks ticks (initial_state [])) = 0
  /\ tempReadings (run_ticks ticks (initial_state []))
     = replicate 10 (F32.of_Z 68).
Proof.
  cbv zeta.
  destruct (ten_valid_ticks_renew_the_window
              (map (fun i => (2000 * Z.of_nat i, F32.of_Z 20, F32.of_Z 40))
                   (seq 1 10))
              (initial_state []))
    as (H & _).
  - reflexivity.
  - repeat constructor.
  - cbn. unfold SAMPLES. lia.
  - reflexivity.
  - split; [exact H | vm_compute; reflexivity].
Defined.

(** X16.  A failed first read poisons the window.  When the temperature
    read of the seeding block returns NaN, all ten slots are seeded with
    NaN, and after each of the next one to nine ticks with a valid reading
    the reported temperature is still NaN: the mean runs over all ten
    slots and at least one seed is left.  The [/data] document says
    TEMP SENSOR FAULT during that time although the sensor answers. *)
Theorem failed_seed_poisons_nine_ticks (rawHum : Z -> float)
    (ticks : list (Z * float * float)) (s : State) :
  sensorInit s = true ->
  List.length (tempReadings s) = 10%nat ->
  List.length (humReadings s) = 10%nat ->
  0 <= readIndex s < SAMPLES ->
  (1 <= List.length ticks <= 9)%nat ->
  valid_ticks ticks ->
  let seeded := sensor_init F32.nan rawHum s in
  let s' := run_ticks ticks seeded in
  tempReadings seeded = replicate 10 F32.nan
  /\ currentTemp s' = F32.nan
  /\ option_map tm_currentTemp (handleData true s') = Some TempFault.
Proof.
  intros Hinit Hl Hh Hi Hlen Hv seeded s'.
  destruct (sensor_init_spec F32.nan rawHum s Hinit Hl Hh)
    as (Hseed & _ & _ & _ & _ & _ & _ & Hidx & _).
  fold seeded in Hseed, Hidx.
  assert (Hl1 : List.length (tempReadings seeded) = 10%nat)
    by (rewrite Hseed; apply length_replicate).
  assert (Hi1 : 0 <= readIndex seeded < SAMPLES) by (now rewrite Hidx).
  clearbody seeded.
  destruct (window_fill ticks seeded ltac:(lia) Hv Hi1 Hl1)
    as (_ & _ & _ & _ & R).
  pose proof (last_tick_reports_mean ticks seeded ltac:(lia) Hv Hi1 Hl1) as Hc.
  fold s' in R, Hc. clearbody s'.
  assert (Hnan : currentTemp s' = F32.nan).
  { rewrite Hc.
    apply (average_nan _ (Z.to_nat ((readIndex seeded + 9) mod 10))).
    - unfold SAMPLES in *. nat_mod.
    - rewrite R.
      + rewrite Hseed. apply lookup_replicate_2. unfold SAMPLES in *. nat_mod.
      + intros j Hj. unfold SAMPLES in *. nat_mod. }
  split; [exact Hseed | split; [exact Hnan|]].
  unfold handleData. cbn. now rewrite Hnan.
Qed.

Lemma failed_seed_poisons_nine_ticks_witness :
  let ticks := map (fun i => (2000 * Z.of_nat i, F32.of_Z 20, F32.of_Z 40))
                   (seq 1 9) in
  currentTemp
    (run_ticks ticks (sensor_init F32.nan (fun _ => F32.of_Z 40) (initial_state [])))
  = F32.nan.
Proof.
  cbv zeta.
  destruct (failed_seed_poisons_nine_ticks (fun _ => F32.of_Z 40)
              (map (fun i => (2000 * Z.of_nat i, F32.of_Z 20, F32.of_Z 40))
                   (seq 1 9))
              (initial_state []))
    as (_ & H & _).
  - reflexivity.
  - reflexivity.
  - reflexivity.
  - cbn. unfold SAMPLES. lia.
  - cbn. lia.
  - repeat constructor.
  - exact H.
Defined.

(** ** Buttons: two presses that overlap *)

Lemma leb_usub_diag (limit t : Z) :
  0 < limit -> (limit <=? usub t t) = false.
Proof. intros H. rewrite usub_diag. apply Z.leb_gt. exact H. Qed.

(** The poll that finds Down just pressed while Up is held with its long
    press already handled: the press is registered and the shared flag
    [longPressHandled] is cleared. *)
Lemma second_press_clears_flag (t1 : Z) (s : State) :
  displaySleepMode s = false ->
  lastUpState s = LOW -> lastDownState s = HIGH ->
  longPressHandled s = true ->
  handleButtons LOW LOW t1 s
  = set_lastDownState LOW
      (set_longPressHandled false
         (set_downButtonStart t1 (set_lastActivityTime t1 s))).
Proof.
  intros Hs Hu Hd Hl. rewrite handleButtons_awake by exact Hs.
  change (Bool.eqb LOW LOW || Bool.eqb LOW LOW) with true. cbn iota.
  rewrite up_edge_idle by (destruct s; assumption).
  assert (E1 : up_long_press LOW t1 (set_lastActivityTime t1 s)
               = set_lastActivityTime t1 s).
  { unfold up_long_press. destruct s; cbn in *; subst. reflexivity. }
  rewrite E1, down_edge_press by (destruct s; assumption).
  set (s1 := set_lastDownState LOW _).
  assert (E2 : down_long_press LOW t1 s1 = s1).
  { unfold down_long_press.
    replace (downButtonStart s1) with t1 by (unfold s1; now destruct s).
    rewrite leb_usub_diag by (unfold LONG_PRESS_MS; lia).
    now rewrite andb_false_r. }
  rewrite E2. unfold dual_hold, sleep_hold, reset_hold.
  replace (downButtonStart s1) with t1 by (unfold s1; now destruct s).
  rewrite !leb_usub_diag by (unfold SLEEP_PRESS_MS, WIFI_RESET_MS; lia).
  now rewrite !andb_false_r.
Qed.

(** The next poll with both buttons still held: the Up long press is
    taken again. *)
Lemma rearmed_hold_fires (t2 : Z) (s : State) :
  displaySleepMode s = false ->
  lastUpState s = LOW -> lastDownState s = LOW ->
  longPressHandled s = false ->
  freezeGuardEnabled s = false ->
  LONG_PRESS_MS <= usub t2 (upButtonStart s) ->
  usub t2 (downButtonStart s) < SLEEP_PRESS_MS ->
  let s' := handleButtons LOW LOW t2 s in
  heaterEnabled s' = negb (heaterEnabled s)
  /\ heaterPin s' = negb (heaterEnabled s)
  /\ longPressHandled s' = true
  /\ freezeGuardEnabled s' = false
  /\ eeprom s' = eeprom s
  /\ restarted s' = restarted s
  /\ trace s' = trace s ++ [DigitalWrite HEATER_PIN (negb (heaterEnabled s))].
Proof.
  intros Hs Hu Hd Hl Hg Hup Hdown. rewrite handleButtons_awake by exact Hs.
  change (Bool.eqb LOW LOW || Bool.eqb LOW LOW) with true. cbn iota zeta.
  rewrite up_edge_idle by (destruct s; assumption).
  assert (E1 : up_long_press LOW t2 (set_lastActivityTime t2 s)
               = set_longPressHandled true
                   (announce (MsgHeat (negb (heaterEnabled s))) t2
                      (digitalWrite HEATER_PIN (negb (heaterEnabled s))
                         (set_heaterEnabled (negb (heaterEnabled s))
                            (set_lastActivityTime t2 s))))).
  { unfold up_long_press.
    replace (upButtonStart (set_lastActivityTime t2 s)) with (upButtonStart s)
      by now destruct s.
    rewrite (proj2 (Z.leb_le _ _) Hup).
    destruct s; cbn in *; subst. reflexivity. }
  rewrite E1. set (s1 := set_longPressHandled true _).
  assert (F : lastDownState s1 = LOW /\ downButtonStart s1 = downButtonStart s
              /\ longPressHandled s1 = true)
    by (unfold s1; destruct s; cbn in *; now split_inv).
  destruct F as (F1 & F2 & F3).
  rewrite down_edge_idle by exact F1.
  assert (E2 : down_long_press LOW t2 s1 = s1)
    by (unfold down_long_press; now rewrite F3).
  rewrite E2. unfold dual_hold, sleep_hold, reset_hold. rewrite F2.
  replace (SLEEP_PRESS_MS <=? usub t2 (downButtonStart s)) with false
    by (symmetry; apply Z.leb_gt; exact Hdown).
  replace (WIFI_RESET_MS <=? usub t2 (downButtonStart s)) with false
    by (symmetry; apply Z.leb_gt; unfold WIFI_RESET_MS, SLEEP_PRESS_MS in *; lia).
  rewrite !andb_false_r. cbn [andb].
  unfold s1. destruct s; cbn in *; subst. now split_inv.
Qed.

(** A poll with both buttons held, the flag set and Down held for less
    than the sleep time: nothing but the activity time changes. *)
Lemma both_held_flag_set (t3 : Z) (s : State) :
  displaySleepMode s = false ->
  lastUpState s = LOW -> lastDownState s = LOW ->
  longPressHandled s = true ->
  usub t3 (downButtonStart s) < SLEEP_PRESS_MS ->
  handleButtons LOW LOW t3 s = set_lastActivityTime t3 s.
Proof.
  intros Hs Hu Hd Hl Hdown. rewrite handleButtons_awake by exact Hs.
  change (Bool.eqb LOW LOW || Bool.eqb LOW LOW) with true. cbn iota.
  rewrite up_edge_idle by (destruct s; assumption).
  set (s1 := set_lastActivityTime t3 s).
  assert (F : lastDownState s1 = LOW /\ downButtonStart s1 = downButtonStart s
              /\ longPressHandled s1 = true)
    by (unfold s1; destruct s; cbn in *; now split_inv).
  destruct F as (F1 & F2 & F3). clearbody s1.
  assert (E1 : up_long_press LOW t3 s1 = s1)
    by (unfold up_long_press; now rewrite F3).
  rewrite E1, down_edge_idle by exact F1.
  assert (E2 : down_long_press LOW t3 s1 = s1)
    by (unfold down_long_press; now rewrite F3).
  rewrite E2. unfold dual_hold, sleep_hold, reset_hold. rewrite F2.
  replace (SLEEP_PRESS_MS <=? usub t3 (downButtonStart s)) with false
    by (symmetry; apply Z.leb_gt; exact Hdown).
  replace (WIFI_RESET_MS <=? usub t3 (downButtonStart s)) with false
    by (symmetry; apply Z.leb_gt; unfold WIFI_RESET_MS, SLEEP_PRESS_MS in *; lia).
  now rewrite !andb_false_r.
Qed.

(** X17.  The long-press flag is shared by both buttons.  While Up is held
    with its long press already taken, a press of Down clears the flag;
    the next poll, both buttons still held, takes the Up long press a
    second time: the heater flag and the relay are toggled again.  That
    sets the flag, so a later poll that finds Down held for 1000 ms or
    more does not toggle FreezeGuard. *)
Theorem second_button_repeats_long_press (s : State) (t1 t2 t3 : Z) :
  displaySleepMode s = false -> restarted s = false ->
  freezeGuardEnabled s = false ->
  lastUpState s = LOW -> lastDownState s = HIGH ->
  longPressHandled s = true ->
  LONG_PRESS_MS <= usub t2 (upButtonStart s) ->
  usub t2 t1 < SLEEP_PRESS_MS ->
  LONG_PRESS_MS <= usub t3 t1 < SLEEP_PRESS_MS ->
  let s' := run_buttons [both_held t1; both_held t2; both_held t3] s in
  heaterEnabled s' = negb (heaterEnabled s)
  /\ heaterPin s' = negb (heaterEnabled s)
  /\ trace s' = trace s ++ [DigitalWrite HEATER_PIN (negb (heaterEnabled s))]
  /\ freezeGuardEnabled s' = false
  /\ eeprom s' = eeprom s.
Proof.
  intros Hs Hr Hg Hu Hd Hl Hup Hdown Hlate s'.
  pose proof (second_press_clears_flag t1 s Hs Hu Hd Hl) as E1.
  set (s1 := handleButtons LOW LOW t1 s) in *.
  assert (F : displaySleepMode s1 = false /\ restarted s1 = false
              /\ lastUpState s1 = LOW /\ lastDownState s1 = LOW
              /\ longPressHandled s1 = false /\ freezeGuardEnabled s1 = false
              /\ upButtonStart s1 = upButtonStart s /\ downButtonStart s1 = t1
              /\ heaterEnabled s1 = heaterEnabled s /\ trace s1 = trace s
              /\ eeprom s1 = eeprom s)
    by (rewrite E1; destruct s; cbn in *; now split_inv).
  destruct F as (F1 & F2 & F3 & F4 & F5 & F6 & F7 & F8 & F9 & F10 & F11).
  pose proof (handleButtons_awake LOW LOW t2 s1 F1) as A2.
  destruct (rearmed_hold_fires t2 s1 F1 F3 F4 F5 F6)
    as (R1 & R2 & R3 & R4 & R5 & R6 & R7);
    [now rewrite F7 | now rewrite F8 |].
  cbn zeta in *.
  assert (G : displaySleepMode (handleButtons LOW LOW t2 s1) = false
              /\ lastUpState (handleButtons LOW LOW t2 s1) = LOW
              /\ lastDownState (handleButtons LOW LOW t2 s1) = LOW
              /\ downButtonStart (handleButtons LOW LOW t2 s1) = t1).
  { rewrite A2. clear A2.
    change (Bool.eqb LOW LOW || Bool.eqb LOW LOW) with true. cbn iota.
    rewrite up_edge_idle by (destruct s1; assumption).
    set (x := up_long_press LOW t2 (set_lastActivityTime t2 s1)).
    assert (X : displaySleepMode x = false /\ lastUpState x = LOW
                /\ lastDownState x = LOW /\ downButtonStart x = t1
                /\ longPressHandled x = true).
    { unfold x, up_long_press.
      replace (longPressHandled (set_lastActivityTime t2 s1)) with false
        by (destruct s1; cbn in *; congruence).
      replace (upButtonStart (set_lastActivityTime t2 s1)) with (upButtonStart s)
        by (destruct s1; cbn in *; congruence).
      rewrite (proj2 (Z.leb_le _ _) Hup).
      destruct s1; cbn in *; subst. split_ifs; now split_inv. }
    destruct X as (X1 & X2 & X3 & X4 & X5). clearbody x.
    rewrite down_edge_idle by exact X3.
    assert (E2 : down_long_press LOW t2 x = x)
      by (unfold down_long_press; now rewrite X5).
    rewrite E2. unfold dual_hold, sleep_hold, reset_hold. rewrite X4.
    replace (SLEEP_PRESS_MS <=? usub t2 t1) with false
      by (symmetry; apply Z.leb_gt; exact Hdown).
    replace (WIFI_RESET_MS <=? usub t2 t1) with false
      by (symmetry; apply Z.leb_gt;
          unfold WIFI_RESET_MS, SLEEP_PRESS_MS in *; lia).
    rewrite !andb_false_r. now split_inv. }
  destruct G as (G1 & G2 & G3 & G4).
  set (s2 := handleButtons LOW LOW t2 s1) in *.
  pose proof (both_held_flag_set t3 s2 G1 G2 G3 R3) as E3.
  rewrite G4 in E3. specialize (E3 (proj2 Hlate)).
  assert (E : s' = set_lastActivityTime t3 s2).
  { unfold s', run_buttons. cbn [fold_left]. unfold button_step.
    cbn [both_held p_up p_down p_now]. rewrite Hr. fold s1. rewrite F2.
    fold s2. rewrite R6, F2. exact E3. }
  clearbody s' s2 s1. subst s'.
  rewrite F9 in R1, R2, R7. rewrite F10 in R7. rewrite F11 in R5.
  destruct s2; cbn in *. now split_inv.
Qed.

Lemma second_button_repeats_long_press_witness :
  let s := run_buttons [up_held 1000; up_held 2100] (initial_state []) in
  heaterEnabled s = true
  /\ heaterEnabled
       (run_buttons [both_held 2200; both_held 2300; both_held 3300] s) = false
  /\ freezeGuardEnabled
       (run_buttons [both_held 2200; both_held 2300; both_held 3300] s) = false.
Proof.
  cbv zeta.
  destruct (second_button_repeats_long_press
              (run_buttons [up_held 1000; up_held 2100] (initial_state []))
              2200 2300 3300
              eq_refl eq_refl eq_refl eq_refl eq_refl eq_refl
              ltac:(vm_compute; discriminate)
              ltac:(vm_compute; reflexivity)
              ltac:(vm_compute; split; [discriminate | reflexivity]))
    as (H1 & _ & _ & H2 & _).
  split; [reflexivity | split; [exact H1 | exact H2]].
Defined.

(** ** Buttons: the press that wakes the display *)

Lemma wake_poll (up down : bool) (t1 : Z) (s : State) :
  displaySleepMode s = true -> up = LOW \/ down = LOW ->
  let s1 := handleButtons up down t1 s in
  displaySleepMode s1 = false /\ restarted s1 = restarted s
  /\ lastUpState s1 = lastUpState s /\ lastDownState s1 = lastDownState s
  /\ freezeGuardEnabled s1 = freezeGuardEnabled s
  /\ targetTemp s1 = targetTemp s
  /\ heater_of s1 = heater_of s
  /\ trace s1 = trace s ++ [DisplayDim false; Delay 250].
Proof.
  intros Hs Hp. cbn zeta. rewrite handleButtons_asleep by exact Hs.
  replace (Bool.eqb up LOW || Bool.eqb down LOW) with true
    by (destruct Hp as [-> | ->]; cbn; now rewrite ?orb_true_r).
  unfold wake. destruct s; cbn. rewrite <- app_assoc. now split_inv.
Qed.

(** The poll that registers a press of Up alone on an awake device. *)
Lemma up_press_poll (t2 : Z) (s : State) :
  displaySleepMode s = false ->
  lastUpState s = HIGH -> lastDownState s = HIGH ->
  handleButtons LOW HIGH t2 s
  = set_lastUpState LOW
      (set_longPressHandled false
         (set_upButtonStart t2 (set_lastActivityTime t2 s))).
Proof.
  intros Hs Hu Hd. rewrite handleButtons_awake by exact Hs.
  change (Bool.eqb LOW LOW || Bool.eqb HIGH LOW) with true. cbn iota.
  rewrite up_edge_press by (destruct s; assumption).
  set (s1 := set_lastUpState LOW _).
  assert (E1 : up_long_press LOW t2 s1 = s1).
  { unfold up_long_press.
    replace (upButtonStart s1) with t2 by (unfold s1; now destruct s).
    rewrite leb_usub_diag by (unfold LONG_PRESS_MS; lia).
    now rewrite andb_false_r. }
  rewrite E1, down_edge_idle by (unfold s1; destruct s; assumption).
  rewrite down_long_press_released. now rewrite dual_hold_single by now right.
Qed.

(** The poll that finds Up released within [LONG_PRESS_MS] of its press,
    FreezeGuard off: the short press raises the target. *)
Lemma up_short_release_poll (t3 : Z) (s : State) :
  displaySleepMode s = false ->
  lastUpState s = LOW -> lastDownState s = HIGH ->
  freezeGuardEnabled s = false ->
  usub t3 (upButtonStart s) < LONG_PRESS_MS ->
  let s' := handleButtons HIGH HIGH t3 s in
  targetTemp s'
  = F64.to_f32 (F64.min (F64.of_Z 90)
                  (F64.add (F64.of_f32 (targetTemp s)) (F64.of_Z 1)))
  /\ displaySleepMode s' = false
  /\ stateChangeMessage s' = MsgTarget (targetTemp s').
Proof.
  intros Hs Hu Hd Hg Hshort. cbn zeta. rewrite handleButtons_idle by exact Hs.
  assert (E : up_edge HIGH t3 s
              = set_lastUpState HIGH
                  (announce
                     (MsgTarget
                        (F64.to_f32 (F64.min (F64.of_Z 90)
                           (F64.add (F64.of_f32 (targetTemp s)) (F64.of_Z 1)))))
                     t3
                     (set_targetTemp
                        (F64.to_f32 (F64.min (F64.of_Z 90)
                           (F64.add (F64.of_f32 (targetTemp s)) (F64.of_Z 1))))
                        s))).
  { unfold up_edge. rewrite Hu, Hg, (proj2 (Z.ltb_lt _ _) Hshort).
    destruct s; cbn. reflexivity. }
  rewrite E, down_edge_idle by (destruct s; assumption).
  destruct s; cbn in *. now split_inv.
Qed.

(** X18.  The press that wakes the display is not consumed.  The poll
    that wakes a sleeping display returns without recording the button
    levels, so a press of Up still held at the next poll is registered
    there as a new press, and its release within [LONG_PRESS_MS] raises
    the target by one degree when FreezeGuard is off.  Only a press that
    is over by the next poll wakes the display and does nothing else. *)
Theorem wake_press_also_steps_target (s : State) (t1 t2 t3 : Z) :
  displaySleepMode s = true -> restarted s = false ->
  freezeGuardEnabled s = false ->
  lastUpState s = HIGH -> lastDownState s = HIGH ->
  usub t3 t2 < LONG_PRESS_MS ->
  let brief := run_buttons [up_held t1; none_held t2] s in
  let held := run_buttons [up_held t1; up_held t2; none_held t3] s in
  displaySleepMode brief = false
  /\ targetTemp brief = targetTemp s
  /\ displaySleepMode held = false
  /\ targetTemp held
     = F64.to_f32 (F64.min (F64.of_Z 90)
                     (F64.add (F64.of_f32 (targetTemp s)) (F64.of_Z 1))).
Proof.
  intros Hs Hr Hg Hu Hd Hshort brief held.
  destruct (wake_poll LOW HIGH t1 s Hs (or_introl eq_refl))
    as (W1 & W2 & W3 & W4 & W5 & W6 & _).
  cbn zeta in *. set (s1 := handleButtons LOW HIGH t1 s) in *.
  rewrite Hr in W2. rewrite Hu in W3. rewrite Hd in W4. rewrite Hg in W5.
  assert (Eb : brief = handleButtons HIGH HIGH t2 s1).
  { unfold brief, run_buttons. cbn [fold_left]. unfold button_step.
    cbn [up_held none_held p_up p_down p_now]. rewrite Hr. fold s1.
    now rewrite W2. }
  pose proof (up_press_poll t2 s1 W1 W3 W4) as P2.
  set (s2 := handleButtons LOW HIGH t2 s1) in *.
  assert (F : displaySleepMode s2 = false /\ restarted s2 = false
              /\ lastUpState s2 = LOW /\ lastDownState s2 = HIGH
              /\ freezeGuardEnabled s2 = false /\ upButtonStart s2 = t2
              /\ targetTemp s2 = targetTemp s)
    by (rewrite P2; destruct s1; cbn in *; split_inv; congruence).
  destruct F as (F1 & F2 & F3 & F4 & F5 & F6 & F7).
  assert (Eh : held = handleButtons HIGH HIGH t3 s2).
  { unfold held, run_buttons. cbn [fold_left]. unfold button_step.
    cbn [up_held none_held p_up p_down p_now]. rewrite Hr. fold s1.
    rewrite W2. fold s2. now rewrite F2. }
  clearbody brief held s2. subst brief held.
  destruct (up_short_release_poll t3 s2 F1 F3 F4 F5) as (T1 & T2 & _);
    [now rewrite F6|].
  cbn zeta in *. rewrite F7 in T1.
  rewrite handleButtons_idle by exact W1.
  rewrite up_edge_idle, down_edge_idle by (rewrite ?up_edge_idle; assumption).
  clearbody s1. split_inv; assumption.
Qed.

Lemma wake_press_also_steps_target_witness :
  let s := set_displaySleepMode true (initial_state []) in
  targetTemp (run_buttons [up_held 1000; none_held 1300] s) = F32.of_Z 72
  /\ targetTemp (run_buttons [up_held 1000; up_held 1300; none_held 1400] s)
     = F32.of_Z 73.
Proof.
  cbv zeta.
  destruct (wake_press_also_steps_target
              (set_displaySleepMode true (initial_state [])) 1000 1300 1400
              eq_refl eq_refl eq_refl eq_refl eq_refl
              ltac:(vm_compute; reflexivity))
    as (_ & H1 & _ & H2).
  split; [exact H1 | exact H2].
Defined.

(** ** The command surface *)

(** X19.  No route changes the device without authentication.  Whatever
    the mode, a request whose authentication fails leaves every global and
    the display state as they were, and [/data] sends no document. *)
Theorem unauthenticated_requests_change_nothing (c : Call) (s : State)
    (p : Panel) :
  c_auth c = false ->
  handleClient c (s, p) = (s, p) /\ handleData false s = None.
Proof.
  intros Ha. split; [|reflexivity].
  unfold handleClient, handleWiFiSetup, handleTarget, handleToggle,
    handleReset, handleBrightness, handleFreezeGuard.
  rewrite Ha. cbn [negb].
  destruct (setupMode s), (c_request c); reflexivity.
Qed.

Lemma unauthenticated_requests_change_nothing_witness :
  handleClient {| c_request := ReqTarget (Some (F32.of_Z 5)); c_auth := false;
                  c_now := 1000; c_draw := drawn 1000 |}
    (initial_state [], initial_panel)
  = (initial_state [], initial_panel).
Proof.
  apply (unauthenticated_requests_change_nothing
           {| c_request := ReqTarget (Some (F32.of_Z 5)); c_auth := false;
              c_now := 1000; c_draw := drawn 1000 |}
           (initial_state []) initial_panel eq_refl).
Defined.

(** X20.  The brightness command only switches the display.  The value 0,
    positive or negative zero, puts the display to sleep and blanks it;
    every other value, NaN included, wakes it, calls [display.dim(false)]
    and counts as activity, so the idle timeout starts again at that
    moment.  In both cases the thermostat is untouched: mode, sample
    arrays, heater, FreezeGuard and target stay as they were. *)
Theorem brightness_command_switches_display (value : float) (now : Z)
    (d : Draw) (s : State) (p : Panel) :
  let s' := fst (handleBrightness true (Some value) now d (s, p)) in
  (F32.eqb value (F32.of_Z 0) = true ->
     displaySleepMode s' = true
     /\ lastActivityTime s' = lastActivityTime s
     /\ trace s' = trace s ++ [DisplayBlank])
  /\ (F32.eqb value (F32.of_Z 0) = false ->
        displaySleepMode s' = false
        /\ lastActivityTime s' = now
        /\ exists tr, trace s' = trace s ++ DisplayDim false :: tr)
  /\ F32.eqb F32.nan (F32.of_Z 0) = false
  /\ F32.eqb (S754_zero true) (F32.of_Z 0) = true
  /\ sensing_of s' = sensing_of s /\ heater_of s' = heater_of s
  /\ guard_of s' = guard_of s /\ targetTemp s' = targetTemp s
  /\ mode_of s' = mode_of s.
Proof.
  cbn zeta. split_inv; try reflexivity;
    try (now destruct (handleBrightness_frame true (Some value) now d s p)
           as (? & ? & ? & ? & ? & _)).
  - intros Hz. unfold handleBrightness. cbn [negb]. rewrite Hz.
    destruct s; cbn. now split_inv.
  - intros Hz. unfold handleBrightness. cbn [negb]. rewrite Hz. cbn zeta.
    unfold updateDisplay, initializeDisplay.
    destruct s, (displayInitialized p), (begin_ok d); cbn; split_ifs;
      split_inv; try reflexivity; eexists; try reflexivity;
      try (rewrite <- app_assoc; reflexivity);
      try (symmetry; apply app_nil_r).
Qed.

(** ** FreezeGuard and the commands *)

Lemma up_long_press_guard_heater (c : bool) (now : Z) (s : State) :
  freezeGuardEnabled s = true ->
  heater_of (up_long_press c now s) = heater_of s.
Proof.
  intros Hg. unfold up_long_press. destruct s; cbn in *; subst; cbn.
  split_ifs; reflexivity.
Qed.

(** X21.  FreezeGuard locks the push buttons and the arm toggle.  While
    FreezeGuard is on, no poll of the buttons changes the target, the
    heater flag or the relay, and the web toggle does nothing at all; the
    only command left that moves the target is the web adjustment. *)
Theorem freeze_guard_locks_buttons (up down : bool) (now : Z) (s : State) :
  freezeGuardEnabled s = true ->
  let s' := handleButtons up down now s in
  targetTemp s' = targetTemp s
  /\ heaterEnabled s' = heaterEnabled s
  /\ heaterPin s' = heaterPin s
  /\ forall auth, handleToggle auth now s = s.
Proof.
  intros Hg s'.
  assert (Hh : heater_of s' = heater_of s).
  { unfold s'. destruct (displaySleepMode s) eqn:Hs.
    - rewrite handleButtons_asleep by exact Hs.
      destruct (Bool.eqb up LOW || Bool.eqb down LOW); [|reflexivity].
      destruct (wake_frame now (set_lastActivityTime now s)) as (_ & _ & -> & _).
      now destruct s.
    - rewrite handleButtons_awake by exact Hs.
      set (s1 := if Bool.eqb up LOW || Bool.eqb down LOW then _ else s).
      assert (H1 : heater_of s1 = heater_of s /\ freezeGuardEnabled s1 = true).
      { unfold s1. destruct (Bool.eqb up LOW || Bool.eqb down LOW);
          destruct s; now cbn in *. }
      destruct H1 as (H1 & G1). clearbody s1.
      destruct (up_edge_guard up now s1 G1) as (_ & G2).
      destruct (dual_hold_frame up down now
                  (down_long_press down now
                     (down_edge down now
                        (up_long_press up now (up_edge up now s1)))))
        as (_ & _ & -> & _).
      destruct (down_long_press_frame down now
                  (down_edge down now
                     (up_long_press up now (up_edge up now s1))))
        as (_ & _ & -> & _).
      destruct (down_edge_frame down now
                  (up_long_press up now (up_edge up now s1)))
        as (_ & _ & -> & _).
      rewrite up_long_press_guard_heater by exact G2.
      destruct (up_edge_frame up now s1) as (_ & _ & -> & _).
      exact H1. }
  unfold heater_of in Hh. injection Hh as Hp He.
  split_inv; try assumption.
  - now apply buttons_keep_target_under_guard.
  - intros auth. now apply handleToggle_guard_noop.
Qed.

Lemma freeze_guard_locks_buttons_witness :
  let s := set_lastUpState LOW (set_freezeGuardEnabled true (initial_state [])) in
  targetTemp (handleButtons HIGH HIGH 500 s) = F32.of_Z 72
  /\ heaterEnabled (handleButtons LOW HIGH 5000 s) = false.
Proof.
  cbv zeta.
  destruct (freeze_guard_locks_buttons HIGH HIGH 500
              (set_lastUpState LOW
                 (set_freezeGuardEnabled true (initial_state []))) eq_refl)
    as (H1 & _).
  destruct (freeze_guard_locks_buttons LOW HIGH 5000
              (set_lastUpState LOW
                 (set_freezeGuardEnabled true (initial_state []))) eq_refl)
    as (_ & H2 & _).
  split; [exact H1 | exact H2].
Defined.

(** X22.  Leaving FreezeGuard does not disarm the heater.  [heaterEnabled]
    is the flag FreezeGuard drives and the flag that arms the manual
    regime.  When FreezeGuard is switched off by the web command, the flag
    and the relay stay as FreezeGuard left them, and from the next tick on
    the relay follows the manual rule with that flag: a heater that
    FreezeGuard had switched on goes on heating while the smoothed
    temperature is below the target. *)
Theorem leaving_freeze_guard_keeps_heater_armed (now tick : Z) (t h : float)
    (s : State) :
  freezeGuardEnabled s = true ->
  let s1 := handleFreezeGuard true (Some false) now s in
  let s2 := sensor_tick tick t h s1 in
  freezeGuardEnabled s1 = false
  /\ heaterEnabled s1 = heaterEnabled s /\ heaterPin s1 = heaterPin s
  /\ heaterEnabled s2 = heaterEnabled s
  /\ heaterPin s2
     = heaterEnabled s && F32.ltb (currentTemp s2) (targetTemp s).
Proof.
  intros Hg s1 s2.
  assert (F : freezeGuardEnabled s1 = false
              /\ heaterEnabled s1 = heaterEnabled s
              /\ heaterPin s1 = heaterPin s /\ targetTemp s1 = targetTemp s).
  { unfold s1, handleFreezeGuard, saveFreezeGuardState, EEPROM_write.
    destruct s; cbn. now split_inv. }
  destruct F as (F1 & F2 & F3 & F4). clearbody s1.
  destruct (sample_keeps_control t h s1) as (Kg & Ke & Kp & Kt & Ktr).
  assert (E : s2 = set_lastRead tick
                     (digitalWrite HEATER_PIN
                        (heaterEnabled (sample t h s1)
                         && F32.ltb (currentTemp (sample t h s1))
                              (targetTemp (sample t h s1)))
                        (sample t h s1))).
  { unfold s2, sensor_tick. now rewrite control_heater_manual by congruence. }
  clearbody s2. set (x := sample t h s1) in *. clearbody x.
  rewrite Ke, F2 in E. rewrite Kt, F4 in E.
  split_inv; try assumption.
  - rewrite E. destruct x; cbn in *. congruence.
  - rewrite E. destruct x; cbn. reflexivity.
Qed.

Lemma leaving_freeze_guard_keeps_heater_armed_witness :
  let s := evaluate (F32.of_Z 30)
             (set_freezeGuardEnabled true (initial_state (replicate 512 x00))) in
  heaterPin s = HIGH
  /\ heaterPin
       (sensor_tick 4000 (F32.of_Z 15) (F32.of_Z 40)
          (handleFreezeGuard true (Some false) 3000 s)) = HIGH.
Proof.
  cbv zeta. split; [reflexivity|].
  rewrite (proj2 (proj2 (proj2 (proj2
             (leaving_freeze_guard_keeps_heater_armed 3000 4000
                (F32.of_Z 15) (F32.of_Z 40)
                (evaluate (F32.of_Z 30)
                   (set_freezeGuardEnabled true
                      (initial_state (replicate 512 x00))))
                eq_refl))))).
  vm_compute. reflexivity.
Defined.

(** ** The reset hold *)

(** X23.  The reset hold ends in Provisioning.  A poll that finds the
    display awake and both buttons held for [WIFI_RESET_MS] or more erases
    the identity and restarts; the boot that follows finds no name, enters
    Provisioning without calling [WiFi.begin], and loads the FreezeGuard
    flag as the EEPROM holds it after that poll. *)
Theorem reset_hold_boots_into_provisioning (env : BootEnv) (now : Z)
    (s : State) :
  bme_at_76 env || bme_at_77 env = true ->
  display_begin env = true ->
  displaySleepMode s = false ->
  lastUpState s = LOW -> lastDownState s = LOW ->
  WIFI_RESET_MS <= usub now (upButtonStart s) ->
  WIFI_RESET_MS <= usub now (downButtonStart s) ->
  let s' := handleButtons LOW LOW now s in
  restarted s' = true
  /\ exists s2 : State,
       setup env (eeprom s') = Some s2
       /\ boot_mode s2 = Some Provisioning
       /\ count is_wifiBegin (trace s2) = 0%nat
       /\ freezeGuardEnabled s2
          = Byte.eqb (EEPROM_read FREEZE_GUARD_ADDR s') x01.
Proof.
  intros Hbme Hdisp Hs Hu Hd Hup Hdown s'.
  destruct (dual_hold_resets now s Hs Hu Hd Hup Hdown) as (Hr & Hn & _).
  fold s' in Hr, Hn. clearbody s'.
  split; [exact Hr|].
  destruct (boot_without_name env (eeprom s') Hbme Hdisp)
    as (s2 & H2 & Hm & Hw & _).
  - rewrite (load_field_ext _ _ _ s') by reflexivity. rewrite Hn. cbn. lia.
  - exists s2. split_inv; try assumption.
    destruct (setup_state env _ s2 H2)
      as (Hrom & _ & _ & _ & _ & _ & _ & _ & _ & _ & _ & _ & _ & Hload).
    destruct (Hload Hdisp) as (Hfg & _). rewrite Hfg. f_equal.
    apply EEPROM_read_ext. exact Hrom.
Qed.

Lemma reset_hold_boots_into_provisioning_witness :
  let s := set_lastDownState LOW
             (set_lastUpState LOW (initial_state (rom_with "home" "secret123"))) in
  exists s2 : State,
    setup home_env (eeprom (handleButtons LOW LOW 5000 s)) = Some s2
    /\ boot_mode s2 = Some Provisioning.
Proof.
  cbv zeta.
  destruct (reset_hold_boots_into_provisioning home_env 5000
              (set_lastDownState LOW
                 (set_lastUpState LOW
                    (initial_state (rom_with "home" "secret123"))))
              eq_refl eq_refl eq_refl eq_refl eq_refl
              ltac:(vm_compute; discriminate) ltac:(vm_compute; discriminate))
    as (_ & s2 & H2 & Hm & _).
  exists s2. split; [exact H2 | exact Hm].
Defined.

(** ** What a boot forgets *)

(** X24.  Only the identity and the FreezeGuard flag outlive a restart.
    Whatever the EEPROM holds and whatever the hardware answers, when
    [setup()] returns the target is 72, the heater flag is off, the relay
    is off, the display is awake, the sample arrays are zero and the
    seeding is pending. *)
Theorem boot_forgets_target_and_heater (env : BootEnv) (rom : list byte)
    (s : State) :
  setup env rom = Some s ->
  targetTemp s = F32.of_Z 72
  /\ heaterEnabled s = false /\ heaterPin s = LOW
  /\ displaySleepMode s = false
  /\ tempReadings s = replicate 10 F32.zero
  /\ sensorInit s = true
  /\ eeprom s = rom.
Proof.
  intros H.
  destruct (setup_state env rom s H)
    as (Hr & _ & Ht & He & Hp & _ & Hb & _ & _ & Hi & _ & Hs & _).
  now split_inv.
Qed.

Lemma boot_forgets_target_and_heater_witness :
  exists s : State,
    setup home_env (rom_with "home" "secret123") = Some s
    /\ targetTemp s = F32.of_Z 72 /\ heaterEnabled s = false.
Proof.
  eexists.
  assert (Hs : setup home_env (rom_with "home" "secret123") = Some _)
    by (vm_compute; reflexivity).
  destruct (boot_forgets_target_and_heater home_env
              (rom_with "home" "secret123") _ Hs) as (H1 & H2 & _).
  split; [exact Hs | split; [exact H1 | exact H2]].
Defined.

(** ** The signal indicator *)

(** X25.  The signal indicator is consistent.  For every RSSI the number
    of bars lies in 1..5, the text printed has five characters of which
    exactly that many are bars, and a stronger signal never shows fewer
    bars. *)
Theorem signal_indicator_is_consistent (rssi stronger : Z) :
  1 <= signal_bars rssi <= 5
  /\ String.length (bars_text (signal_bars rssi)) = 5%nat
  /\ count_bars (bars_text (signal_bars rssi)) = signal_bars rssi
  /\ (rssi <= stronger -> signal_bars rssi <= signal_bars stronger).
Proof.
  unfold signal_bars.
  destruct (Z.ltb_spec (-60) rssi), (Z.ltb_spec (-67) rssi),
           (Z.ltb_spec (-75) rssi), (Z.ltb_spec (-85) rssi);
    (split_inv; [lia | lia | reflexivity | reflexivity |]);
    intros Hle;
    destruct (Z.ltb_spec (-60) stronger), (Z.ltb_spec (-67) stronger),
             (Z.ltb_spec (-75) stronger), (Z.ltb_spec (-85) stronger); lia.
Qed.
